(** * pino-cloud-logging: the log-entry transformation engine

    A shallow embedding of the TypeScript sources

      - [src/trace.ts]      (trace agent bridge, trace header parser),
      - [src/types.ts]      (constants, options, the Pino log object),
      - [src/common.ts]     (class [LoggingCommon]),
      - [src/transport.ts]  (the Pino transport loop),

    followed by the properties of the engine.

    Conventions of the embedding.
      - A JavaScript object used as an open map is a [gmap string Value].
      - An optional property ([x?: T]) is an [option T]; [None] is
        [undefined].
      - JavaScript numbers are modelled by [Z]: the embedding covers the
        integer values (levels, pids, millisecond times and latencies).
      - Asynchronous code is sequentialised: every [await] in the sources
        is on the sink, and the caller is suspended until it settles, so a
        rejected promise and a thrown exception are both the [Threw]
        outcome of the monad [M] below. *)

From Stdlib Require Import ZArith Ascii Bool Lia.
From stdpp Require Import base tactics option list strings pretty gmap fin_maps.

Set Warnings "-register-all".

Open Scope Z_scope.

(** ** JavaScript values *)

Inductive Value : Type :=
| VUndef
| VNull
| VBool (b : bool)
| VNum (n : Z)
| VStr (s : string)
| VArr (l : list Value)
| VObj (m : gmap string Value).

(** ToBoolean on strings and on (integer) numbers. *)
Definition truthy_str (s : string) : bool :=
  match s with
  | EmptyString => false
  | String _ _ => true
  end.

Definition truthy_num (n : Z) : bool := negb (Z.eqb n 0).

(** [x ? x : undefined] for an optional string: a property that is absent
    and a property that holds the empty string are both falsy. *)
Definition truthy_opt_str (o : option string) : option string :=
  match o with
  | Some s => if truthy_str s then Some s else None
  | None => None
  end.

(** The line feed of the template literal in [formatMessage]. *)
Definition LF : string := String (ascii_of_nat 10) EmptyString.

(** * src/trace.ts *)

Module Trace.

(** [interface TraceAgent]: each method is represented by the value it
    returns when it is called. *)
Record TraceAgent : Type := {
  getCurrentContextId : option string;
  getWriterProjectId : option string;
}.

(** [getCurrentTraceFromAgent()]; the argument is the content of
    [globalThis._google_trace_agent] at the time of the call. *)
Definition getCurrentTraceFromAgent (agent : option TraceAgent) : option string :=
  match agent with
  | None => None
  | Some agent =>
      match truthy_opt_str (getCurrentContextId agent),
            truthy_opt_str (getWriterProjectId agent) with
      | Some traceId, Some projectId =>
          Some ("projects/" +:+ projectId +:+ "/traces/" +:+ traceId)
      | _, _ => None
      end
  end.

(** The result object of [parseTraceHeader]. *)
Record TraceHeader : Type := {
  trace : option string;
  spanId : option string;
  sampled : bool;
}.

(** Character classes of the regular expression
    [/^([a-f0-9]+)(?:\/(\d+))?(?:;o=(\d))?$/i].  Under the [i] flag the
    class [[a-f0-9]] also accepts [A-F], and the literal [o] also accepts
    [O]; [\d] is [[0-9]]. *)
Definition is_digit (c : ascii) : bool :=
  let n := nat_of_ascii c in
  ((48 <=? n) && (n <=? 57))%nat.

Definition is_hex (c : ascii) : bool :=
  let n := nat_of_ascii c in
  (((48 <=? n) && (n <=? 57)) || ((97 <=? n) && (n <=? 102))
   || ((65 <=? n) && (n <=? 70)))%nat.

Definition is_o (c : ascii) : bool :=
  Ascii.eqb c "o"%char || Ascii.eqb c "O"%char.

Definition is_slash (c : ascii) : bool := Ascii.eqb c "/"%char.
Definition is_semicolon (c : ascii) : bool := Ascii.eqb c ";"%char.
Definition is_equals (c : ascii) : bool := Ascii.eqb c "="%char.

(** The longest prefix of [s] whose characters satisfy [p] (a greedy
    [[...]*]), and the rest of [s]. *)
Fixpoint span (p : ascii -> bool) (s : string) : string * string :=
  match s with
  | EmptyString => (EmptyString, EmptyString)
  | String c s' =>
      if p c then let '(a, b) := span p s' in (String c a, b)
      else (EmptyString, s)
  end.

(** The optional group [(?:\/(\d+))?] at the front of [s]. *)
Definition match_span_group (s : string) : option string * string :=
  match s with
  | String c s' =>
      if is_slash c then
        let '(digits, rest) := span is_digit s' in
        if truthy_str digits then (Some digits, rest) else (None, s)
      else (None, s)
  | EmptyString => (None, s)
  end.

(** The optional group [(?:;o=(\d))?] at the front of [s]. *)
Definition match_flag_group (s : string) : option string * string :=
  match s with
  | String c1 (String c2 (String c3 (String d rest))) =>
      if is_semicolon c1 && is_o c2 && is_equals c3 && is_digit d
      then (Some (String d EmptyString), rest)
      else (None, s)
  | _ => (None, s)
  end.

(** [header.match(/^([a-f0-9]+)(?:\/(\d+))?(?:;o=(\d))?$/i)]: the three
    capture groups on a match, [None] when the header does not match. *)
Definition header_match (header : string)
  : option (string * option string * option string) :=
  let '(traceId, r1) := span is_hex header in
  if truthy_str traceId then
    let '(spanId, r2) := match_span_group r1 in
    let '(traceSampled, r3) := match_flag_group r2 in
    match r3 with
    | EmptyString => Some (traceId, spanId, traceSampled)
    | String _ _ => None
    end
  else None.

Definition parseTraceHeader (header projectId : string) : TraceHeader :=
  let result := {| trace := None; spanId := None; sampled := false |} in
  if negb (truthy_str header) || negb (truthy_str projectId) then result
  else
    match header_match header with
    | None => result
    | Some (traceId, spanId, traceSampled) =>
        let result :=
          if truthy_str traceId then
            {| trace := Some ("projects/" +:+ projectId +:+ "/traces/" +:+ traceId);
               spanId := Trace.spanId result;
               sampled := Trace.sampled result |}
          else result in
        let result :=
          match truthy_opt_str spanId with
          | Some spanId =>
              {| trace := Trace.trace result;
                 spanId := Some spanId;
                 sampled := Trace.sampled result |}
          | None => result
          end in
        {| trace := Trace.trace result;
           spanId := Trace.spanId result;
           sampled := bool_decide (traceSampled = Some "1") |}
    end.

End Trace.

(** * src/types.ts *)

Definition LOGGING_TRACE_KEY : string := "logging.googleapis.com/trace".
Definition LOGGING_SPAN_KEY : string := "logging.googleapis.com/spanId".
Definition LOGGING_SAMPLED_KEY : string := "logging.googleapis.com/trace_sampled".

(** [CLOUD_LOGGING_SEVERITY] *)
Inductive CloudLoggingSeverity : Type :=
| EMERGENCY | ALERT | CRITICAL | ERROR | WARNING | NOTICE | INFO | DEBUG
| DEFAULT.

#[global] Instance CloudLoggingSeverity_eq_dec : EqDecision CloudLoggingSeverity.
Proof. solve_decision. Defined.

(** The numeric order of the platform's severities
    ([google.logging.type.LogSeverity]), used to state monotonicity. *)
Definition severity_rank (s : CloudLoggingSeverity) : Z :=
  match s with
  | DEFAULT => 0
  | DEBUG => 100
  | INFO => 200
  | NOTICE => 300
  | WARNING => 400
  | ERROR => 500
  | CRITICAL => 600
  | ALERT => 700
  | EMERGENCY => 800
  end.

Record ServiceContext : Type := {
  service : option string;
  version : option string;
}.

(** Values that JavaScript code can throw or reject with: an [Error]
    object, or any other value [v], kept as [String(v)]. *)
Inductive JsError : Type := MkError (message : string).

Inductive Thrown : Type :=
| ThrowError (e : JsError)
| ThrowOther (text : string).

(** [type Callback = (err: Error | null, response?: object) => void].  A
    callback is user code: it returns ([None]) or throws ([Some t]). *)
Definition Callback : Type := option JsError -> option Thrown.

(** [interface TransportOptions]; the options that are only handed to the
    client library (credentials, keyFilename, resource) are left out. *)
Module TransportOptions.
Record t : Type := {
  logName : option string;
  projectId : option string;
  serviceContext : option ServiceContext;
  labels : option (gmap string string);
  prefix : option string;
  redirectToStdout : option bool;
  useMessageField : option bool;
  maxEntrySize : option Z;
  defaultCallback : option Callback;
}.
End TransportOptions.

(** [err?: { type?: string; message?: string; stack?: string }] *)
Module ErrInfo.
Record t : Type := {
  type : option string;
  message : option string;
  stack : option string;
}.
End ErrInfo.

(** [type HttpRequest = google.logging.type.IHttpRequest], an object. *)
Abbreviation HttpRequest := (gmap string Value).

(** [interface PinoLogObject].  The declared properties are fields at their
    declared types; [extra] holds the properties allowed by the index
    signature [[key: string]: unknown]. *)
Module PinoLogObject.
Record t : Type := {
  level : Z;
  time : Z;
  msg : option string;
  pid : option Z;
  hostname : option string;
  err : option ErrInfo.t;
  trace : option string;     (* [LOGGING_TRACE_KEY] *)
  spanId : option string;    (* [LOGGING_SPAN_KEY] *)
  sampled : option bool;     (* [LOGGING_SAMPLED_KEY] *)
  httpRequest : option HttpRequest;
  labels : option (gmap string string);
  extra : gmap string Value;
}.
End PinoLogObject.

(** The declared property names of [PinoLogObject]. *)
Definition declared_keys : gset string :=
  list_to_set
    [ "level"; "time"; "msg"; "pid"; "hostname"; "err";
      LOGGING_TRACE_KEY; LOGGING_SPAN_KEY; LOGGING_SAMPLED_KEY;
      "httpRequest"; "labels" ].

Definition opt_value (o : option string) : Value :=
  match o with
  | Some s => VStr s
  | None => VUndef
  end.

Definition ErrInfo_value (e : ErrInfo.t) : Value :=
  let put k (o : option string) (m : gmap string Value) :=
    match o with
    | Some s => <[k := VStr s]> m
    | None => m
    end in
  VObj (put "type" (ErrInfo.type e)
         (put "message" (ErrInfo.message e)
           (put "stack" (ErrInfo.stack e) ∅))).

Definition set_opt (k : string) (o : option Value) (m : gmap string Value)
  : gmap string Value :=
  match o with
  | Some v => <[k := v]> m
  | None => m
  end.

(** The JavaScript object that a [PinoLogObject.t] stands for: its own
    enumerable properties, as [Object.entries] lists them.  A declared key
    is taken from its field; [extra] contributes the other keys. *)
Definition Object_entries (o : PinoLogObject.t) : gmap string Value :=
  <["level" := VNum (PinoLogObject.level o)]>
  (<["time" := VNum (PinoLogObject.time o)]>
  (set_opt "msg" (VStr <$> PinoLogObject.msg o)
  (set_opt "pid" (VNum <$> PinoLogObject.pid o)
  (set_opt "hostname" (VStr <$> PinoLogObject.hostname o)
  (set_opt "err" (ErrInfo_value <$> PinoLogObject.err o)
  (set_opt LOGGING_TRACE_KEY (VStr <$> PinoLogObject.trace o)
  (set_opt LOGGING_SPAN_KEY (VStr <$> PinoLogObject.spanId o)
  (set_opt LOGGING_SAMPLED_KEY (VBool <$> PinoLogObject.sampled o)
  (set_opt "httpRequest" (VObj <$> PinoLogObject.httpRequest o)
  (set_opt "labels" ((λ l, VObj (VStr <$> l)) <$> PinoLogObject.labels o)
  (filter (λ kv, kv.1 ∉ declared_keys) (PinoLogObject.extra o)))))))))))).

(** * The sink and the effects of a write *)

(** [LogEntry] of the client library: the metadata envelope. *)
Module LogEntry.
Record t : Type := {
  severity : option CloudLoggingSeverity;
  timestamp : option Z;      (* [new Date(ms)] *)
  labels : option (gmap string string);
  trace : option string;
  spanId : option string;
  traceSampled : option bool;
  httpRequest : option HttpRequest;
}.
End LogEntry.

(** [this.cloudLog.entry(metadata, data)] *)
Record Entry : Type := {
  metadata : LogEntry.t;
  data : gmap string Value;
}.

(** How [cloudLog.write] is called: [LogSync.write] returns at once,
    [Log.write] is awaited. *)
Inductive WriteMode : Type := Synchronous | Awaited.

(** What a run leaves behind, in the order in which it happens. *)
Inductive Event : Type :=
| EvWrite (mode : WriteMode) (entry : Entry) (failure : option Thrown)
| EvCallback (err : option JsError)
| EvDefaultCallback (err : option JsError)
| EvConsoleError (label : string) (err : Thrown).

(** The sink behind [cloudLog.write]: given what happened so far and the
    entry, the write succeeds ([None]) or fails with a value. *)
Definition Sink : Type := list Event -> Entry -> option Thrown.

(** A computation that appends to the history and returns or throws. *)
Inductive Outcome (A : Type) : Type :=
| Returned (a : A)
| Threw (t : Thrown).
Arguments Returned {A} a.
Arguments Threw {A} t.

Definition M (A : Type) : Type := list Event -> list Event * Outcome A.

#[global] Instance M_ret : MRet M := fun A a h => (h, Returned a).

#[global] Instance M_bind : MBind M := fun A B k m h =>
  match m h with
  | (h', Returned a) => k a h'
  | (h', Threw t) => (h', Threw t)
  end.

Definition throw {A} (t : Thrown) : M A := fun h => (h, Threw t).

(** [try { body } catch (err) { handler }] *)
Definition try_catch {A} (body : M A) (handler : Thrown -> M A) : M A :=
  fun h =>
    match body h with
    | (h', Returned a) => (h', Returned a)
    | (h', Threw t) => handler t h'
    end.

Definition emit (e : Event) : M unit := fun h => (h ++ [e], Returned tt).

(** [if (f) { f(arg) }] for an optional callback; [ev] records the call. *)
Definition call_if_set (ev : option JsError -> Event) (f : option Callback)
  (arg : option JsError) : M unit :=
  match f with
  | None => mret tt
  | Some f =>
      emit (ev arg) ;;
      match f arg with
      | None => mret tt
      | Some t => throw t
      end
  end.

(** [cloudLog.write(entry)] *)
Definition cloudLog_write (sink : Sink) (mode : WriteMode) (entry : Entry)
  : M unit :=
  fun h =>
    match sink h entry with
    | None => (h ++ [EvWrite mode entry None], Returned tt)
    | Some t => (h ++ [EvWrite mode entry (Some t)], Threw t)
    end.

(** * src/common.ts *)

Module LoggingCommon.

Definition DEFAULT_LOG_NAME : string := "pino_log".
Definition DEFAULT_MAX_ENTRY_SIZE : Z := 250000.

(** The private fields of [class LoggingCommon].  [logging] and [cloudLog]
    are the client library's objects; their one operation used here,
    [cloudLog.write], is the [Sink] passed to the write methods. *)
Record t : Type := {
  logName : string;
  projectId : option string;
  serviceContext : option ServiceContext;
  labels : option (gmap string string);
  prefix : option string;
  redirectToStdout : bool;
  useMessageField : bool;
  maxEntrySize : Z;
  defaultCallback : option Callback;
}.

(** [constructor(options: TransportOptions = {})] *)
Definition new (options : TransportOptions.t) : t := {|
  logName := default DEFAULT_LOG_NAME (TransportOptions.logName options);
  projectId := TransportOptions.projectId options;
  serviceContext := TransportOptions.serviceContext options;
  labels := TransportOptions.labels options;
  prefix := TransportOptions.prefix options;
  redirectToStdout := default false (TransportOptions.redirectToStdout options);
  useMessageField := default true (TransportOptions.useMessageField options);
  maxEntrySize := default DEFAULT_MAX_ENTRY_SIZE (TransportOptions.maxEntrySize options);
  defaultCallback := TransportOptions.defaultCallback options;
|}.

(** [private mapLevel(level: number): CloudLoggingSeverity] *)
Definition mapLevel (level : Z) : CloudLoggingSeverity :=
  if 60 <=? level then CRITICAL
  else if 50 <=? level then ERROR
  else if 40 <=? level then WARNING
  else if 30 <=? level then INFO
  else DEBUG.

(** [logObject.err?.stack] *)
Definition err_stack (logObject : PinoLogObject.t) : option string :=
  PinoLogObject.err logObject ≫= ErrInfo.stack.

(** [private formatMessage(logObject: PinoLogObject): string] *)
Definition formatMessage (this : t) (logObject : PinoLogObject.t) : string :=
  let message := default "" (PinoLogObject.msg logObject) in
  let message :=
    match truthy_opt_str (prefix this) with
    | Some prefix => "[" +:+ prefix +:+ "] " +:+ message
    | None => message
    end in
  match truthy_opt_str (err_stack logObject) with
  | Some stack =>
      if truthy_str message then message +:+ LF +:+ stack else stack
  | None => message
  end.

(** The result object of [extractTraceInfo]. *)
Record TraceInfo : Type := {
  trace : option string;
  spanId : option string;
  traceSampled : option bool;
}.

(** [private extractTraceInfo(logObject: PinoLogObject)]; [agent] is the
    ambient trace agent read by [getCurrentTraceFromAgent]. *)
Definition extractTraceInfo (agent : option Trace.TraceAgent)
  (logObject : PinoLogObject.t) : TraceInfo :=
  let result := {| trace := None; spanId := None; traceSampled := None |} in
  let result :=
    match truthy_opt_str (PinoLogObject.trace logObject) with
    | Some v =>
        {| trace := Some v; spanId := spanId result;
           traceSampled := traceSampled result |}
    | None => result
    end in
  let result :=
    match truthy_opt_str (PinoLogObject.spanId logObject) with
    | Some v =>
        {| trace := trace result; spanId := Some v;
           traceSampled := traceSampled result |}
    | None => result
    end in
  let result :=
    match PinoLogObject.sampled logObject with
    | Some b =>
        {| trace := trace result; spanId := spanId result;
           traceSampled := Some b |}
    | None => result
    end in
  match truthy_opt_str (trace result) with
  | Some _ => result
  | None =>
      match truthy_opt_str (Trace.getCurrentTraceFromAgent agent) with
      | Some agentTrace =>
          {| trace := Some agentTrace; spanId := spanId result;
             traceSampled := traceSampled result |}
      | None => result
      end
  end.

(** [excludeKeys] of [buildMetadata] *)
Definition excludeKeys : gset string :=
  list_to_set
    [ "level"; "time"; "msg"; "pid"; "hostname"; "err";
      LOGGING_TRACE_KEY; LOGGING_SPAN_KEY; LOGGING_SAMPLED_KEY;
      "httpRequest"; "labels" ].

(** [metadata[key] = value] on the plain object [metadata], whose own
    properties the map holds.  For the key [__proto__] the assignment goes to
    the setter inherited from [Object.prototype]: it creates no own
    property. *)
Definition assign (key : string) (value : Value) (metadata : gmap string Value)
  : gmap string Value :=
  if bool_decide (key = "__proto__") then metadata
  else <[key := value]> metadata.

(** The loop [for (const [key, value] of Object.entries(logObject))]. *)
Definition copy_fields (entries : gmap string Value) : gmap string Value :=
  map_fold
    (λ key value metadata,
       if bool_decide (key ∈ excludeKeys) then metadata
       else assign key value metadata)
    ∅ entries.

(** [private buildMetadata(logObject: PinoLogObject): Record<string, unknown>] *)
Definition buildMetadata (logObject : PinoLogObject.t) : gmap string Value :=
  let metadata := copy_fields (Object_entries logObject) in
  let metadata :=
    match PinoLogObject.err logObject with
    | Some err =>
        <["error" :=
            VObj (<["type" := opt_value (ErrInfo.type err)]>
                  (<["message" := opt_value (ErrInfo.message err)]> ∅))]>
          metadata
    | None => metadata
    end in
  let metadata :=
    match PinoLogObject.pid logObject with
    | Some pid =>
        if truthy_num pid then <["pid" := VNum pid]> metadata else metadata
    | None => metadata
    end in
  match truthy_opt_str (PinoLogObject.hostname logObject) with
  | Some hostname => <["hostname" := VStr hostname]> metadata
  | None => metadata
  end.

Definition REPORTED_ERROR_EVENT : string :=
  "type.googleapis.com/google.devtools.clouderrorreporting.v1beta1.ReportedErrorEvent".

Definition ServiceContext_value (sc : ServiceContext) : Value :=
  VObj (set_opt "service" (VStr <$> service sc)
         (set_opt "version" (VStr <$> version sc) ∅)).

(** The body of [entryData] before the error-reporting step of [writeLog]:
    the metadata, and the message when it is wanted and not empty. *)
Definition writeLog_body (this : t) (logObject : PinoLogObject.t)
  : gmap string Value :=
  let message := formatMessage this logObject in
  let metadata := buildMetadata logObject in
  let entryData := metadata in
  if useMessageField this && truthy_str message
  then <["message" := VStr message]> entryData
  else entryData.

(** [{ ...this.labels, ...logObject.labels }]: the later spread wins. *)
Definition merge_labels (this : t) (logObject : PinoLogObject.t)
  : gmap string string :=
  default ∅ (PinoLogObject.labels logObject) ∪ default ∅ (labels this).

(** [writeLog], up to [const entry = this.cloudLog.entry(entryMetadata, entryData)]. *)
Definition writeLog_entry (this : t) (agent : option Trace.TraceAgent)
  (logObject : PinoLogObject.t) : Entry :=
  let severity := mapLevel (PinoLogObject.level logObject) in
  let traceInfo := extractTraceInfo agent logObject in
  let entryData := writeLog_body this logObject in
  let labels := merge_labels this logObject in
  let entryMetadata := {|
    LogEntry.severity := Some severity;
    LogEntry.timestamp := Some (PinoLogObject.time logObject);
    LogEntry.labels := if (0 <? size labels)%nat then Some labels else None;
    LogEntry.trace := trace traceInfo;
    LogEntry.spanId := spanId traceInfo;
    LogEntry.traceSampled := traceSampled traceInfo;
    LogEntry.httpRequest := PinoLogObject.httpRequest logObject;
  |} in
  let entryData :=
    match serviceContext this with
    | Some sc =>
        if (bool_decide (severity = ERROR) || bool_decide (severity = CRITICAL))
           && bool_decide (is_Some (truthy_opt_str (err_stack logObject)))
        then <["@type" := VStr REPORTED_ERROR_EVENT]>
               (<["serviceContext" := ServiceContext_value sc]> entryData)
        else entryData
    | None => entryData
    end in
  {| metadata := entryMetadata; data := entryData |}.

(** [err instanceof Error ? err : new Error(String(err))] *)
Definition as_error (err : Thrown) : JsError :=
  match err with
  | ThrowError e => e
  | ThrowOther text => MkError text
  end.

(** [async writeLog(logObject: PinoLogObject, callback?: Callback): Promise<void>] *)
Definition writeLog (this : t) (sink : Sink) (agent : option Trace.TraceAgent)
  (logObject : PinoLogObject.t) (callback : option Callback) : M unit :=
  let entry := writeLog_entry this agent logObject in
  try_catch
    ((if redirectToStdout this
      then cloudLog_write sink Synchronous entry
      else cloudLog_write sink Awaited entry) ;;
     call_if_set EvCallback callback None ;;
     call_if_set EvDefaultCallback (defaultCallback this) None)
    (λ err,
       let error := as_error err in
       call_if_set EvCallback callback (Some error) ;;
       call_if_set EvDefaultCallback (defaultCallback this) (Some error) ;;
       throw (ThrowError error)).

(** The [latency] property computed by [writeRequestLog]. *)
Definition request_latency (latencyMs : option Z) : Value :=
  match latencyMs with
  | Some latencyMs =>
      if truthy_num latencyMs
      then VObj (<["seconds" := VNum (latencyMs / 1000)]>
                 (<["nanos" := VNum (Z.rem latencyMs 1000 * 1000000)]> ∅))
      else VUndef
  | None => VUndef
  end.

(** [writeRequestLog], up to [const entry = this.cloudLog.entry(entryMetadata, {})]. *)
Definition writeRequestLog_entry (this : t) (httpRequest : HttpRequest)
  (trace spanId : option string) (traceSampled : option bool)
  (latencyMs : option Z) : Entry :=
  let entryMetadata := {|
    LogEntry.severity := Some INFO;
    LogEntry.timestamp := None;
    LogEntry.httpRequest :=
      Some (<["latency" := request_latency latencyMs]> httpRequest);
    LogEntry.trace := trace;
    LogEntry.spanId := spanId;
    LogEntry.traceSampled := traceSampled;
    LogEntry.labels := labels this;
  |} in
  {| metadata := entryMetadata; data := ∅ |}.

(** [async writeRequestLog(httpRequest, trace?, spanId?, traceSampled?, latencyMs?)] *)
Definition writeRequestLog (this : t) (sink : Sink) (httpRequest : HttpRequest)
  (trace spanId : option string) (traceSampled : option bool)
  (latencyMs : option Z) : M unit :=
  let entry :=
    writeRequestLog_entry this httpRequest trace spanId traceSampled latencyMs in
  if redirectToStdout this
  then cloudLog_write sink Synchronous entry
  else cloudLog_write sink Awaited entry.

End LoggingCommon.

(** * src/transport.ts *)

Module Transport.

Definition TRANSPORT_ERROR : string := "pino-cloud-logging transport error:".

(** The body handed to [build]: [for await (const obj of source) { ... }]
    over the records of a finite stream. *)
Fixpoint consume (loggingCommon : LoggingCommon.t) (sink : Sink)
  (agent : option Trace.TraceAgent) (source : list PinoLogObject.t) : M unit :=
  match source with
  | [] => mret tt
  | obj :: source' =>
      try_catch
        (let logObject := obj in
         LoggingCommon.writeLog loggingCommon sink agent logObject None)
        (λ err, emit (EvConsoleError TRANSPORT_ERROR err)) ;;
      consume loggingCommon sink agent source'
  end.

(** [createTransport(options)], run on a stream. *)
Definition createTransport (options : TransportOptions.t) (sink : Sink)
  (agent : option Trace.TraceAgent) (source : list PinoLogObject.t) : M unit :=
  let loggingCommon := LoggingCommon.new options in
  consume loggingCommon sink agent source.

End Transport.

(** * Sample configurations and records *)

(** The record [{level: 30, time: 1, msg: "x", foo: "bar"}]. *)
Definition record_foo : PinoLogObject.t := {|
  PinoLogObject.level := 30;
  PinoLogObject.time := 1;
  PinoLogObject.msg := Some "x";
  PinoLogObject.pid := None;
  PinoLogObject.hostname := None;
  PinoLogObject.err := None;
  PinoLogObject.trace := None;
  PinoLogObject.spanId := None;
  PinoLogObject.sampled := None;
  PinoLogObject.httpRequest := None;
  PinoLogObject.labels := None;
  PinoLogObject.extra := {[ "foo" := VStr "bar" ]};
|}.

(** The record [{level: 30, time: 1, pid: 42}]. *)
Definition record_pid : PinoLogObject.t := {|
  PinoLogObject.level := 30;
  PinoLogObject.time := 1;
  PinoLogObject.msg := None;
  PinoLogObject.pid := Some 42;
  PinoLogObject.hostname := None;
  PinoLogObject.err := None;
  PinoLogObject.trace := None;
  PinoLogObject.spanId := None;
  PinoLogObject.sampled := None;
  PinoLogObject.httpRequest := None;
  PinoLogObject.labels := None;
  PinoLogObject.extra := ∅;
|}.

(** The record [{level: 50, time: 1, err: {type: "Error", message: "boom",
    stack: "S"}, error: "mine", kept: "yes"}]. *)
Definition record_own_error : PinoLogObject.t := {|
  PinoLogObject.level := 50;
  PinoLogObject.time := 1;
  PinoLogObject.msg := None;
  PinoLogObject.pid := None;
  PinoLogObject.hostname := None;
  PinoLogObject.err :=
    Some {| ErrInfo.type := Some "Error"; ErrInfo.message := Some "boom";
            ErrInfo.stack := Some "S" |};
  PinoLogObject.trace := None;
  PinoLogObject.spanId := None;
  PinoLogObject.sampled := None;
  PinoLogObject.httpRequest := None;
  PinoLogObject.labels := None;
  PinoLogObject.extra := {[ "error" := VStr "mine"; "kept" := VStr "yes" ]};
|}.

(** [new LoggingCommon({})], and the same engine with some options set. *)
Definition no_options : TransportOptions.t := {|
  TransportOptions.logName := None;
  TransportOptions.projectId := None;
  TransportOptions.serviceContext := None;
  TransportOptions.labels := None;
  TransportOptions.prefix := None;
  TransportOptions.redirectToStdout := None;
  TransportOptions.useMessageField := None;
  TransportOptions.maxEntrySize := None;
  TransportOptions.defaultCallback := None;
|}.

Definition options_with (prefix : option string)
  (serviceContext : option ServiceContext) (defaultCallback : option Callback)
  : TransportOptions.t := {|
  TransportOptions.logName := None;
  TransportOptions.projectId := None;
  TransportOptions.serviceContext := serviceContext;
  TransportOptions.labels := None;
  TransportOptions.prefix := prefix;
  TransportOptions.redirectToStdout := None;
  TransportOptions.useMessageField := None;
  TransportOptions.maxEntrySize := None;
  TransportOptions.defaultCallback := defaultCallback;
|}.

(** A record with a level, a time, and optionally a message, an error, a
    trace name and further fields. *)
Definition record_of (level : Z) (msg : option string) (err : option ErrInfo.t)
  (trace : option string) (extra : gmap string Value) : PinoLogObject.t := {|
  PinoLogObject.level := level;
  PinoLogObject.time := 1;
  PinoLogObject.msg := msg;
  PinoLogObject.pid := None;
  PinoLogObject.hostname := None;
  PinoLogObject.err := err;
  PinoLogObject.trace := trace;
  PinoLogObject.spanId := None;
  PinoLogObject.sampled := None;
  PinoLogObject.httpRequest := None;
  PinoLogObject.labels := None;
  PinoLogObject.extra := extra;
|}.

(** An error [{type: "Error", message: "boom", stack: stack}]. *)
Definition error_with_stack (stack : string) : ErrInfo.t := {|
  ErrInfo.type := Some "Error";
  ErrInfo.message := Some "boom";
  ErrInfo.stack := Some stack;
|}.

(** A trace agent with an active context [t1] in project [p]. *)
Definition agent_active : Trace.TraceAgent := {|
  Trace.getCurrentContextId := Some "t1";
  Trace.getWriterProjectId := Some "p";
|}.

(** The three conditions of the error-reporting step, in the words of the
    specification: a service context is configured, the mapped severity is
    ERROR or CRITICAL, and the record's error has a non-empty stack. *)
Definition reportable (this : LoggingCommon.t) (o : PinoLogObject.t) : Prop :=
  is_Some (LoggingCommon.serviceContext this) /\
  (LoggingCommon.mapLevel (PinoLogObject.level o) = ERROR \/
   LoggingCommon.mapLevel (PinoLogObject.level o) = CRITICAL) /\
  (exists s : string, LoggingCommon.err_stack o = Some s /\ s <> "").

(** The service context [{service: "svc"}]. *)
Definition service_svc : ServiceContext := {|
  service := Some "svc";
  version := None;
|}.

(** An INFO record that itself carries the two error-reporting fields. *)
Definition record_own_report : PinoLogObject.t :=
  record_of 30 None None None
    (<["@type" := VStr LoggingCommon.REPORTED_ERROR_EVENT]>
     (<["serviceContext" := LoggingCommon.ServiceContext_value service_svc]> ∅)).

(** A callback that returns normally on every argument. *)
Definition returns_normally (f : option Callback) : Prop :=
  forall g : Callback, f = Some g -> forall a : option JsError, g a = None.

(** The calls made by [if (callback) callback(arg); if (this.defaultCallback)
    this.defaultCallback(arg)] when both return. *)
Definition callback_events (callback defaultCallback : option Callback)
  (arg : option JsError) : list Event :=
  match callback with Some _ => [EvCallback arg] | None => [] end
  ++ match defaultCallback with Some _ => [EvDefaultCallback arg] | None => [] end.

(** A sink that accepts every entry. *)
Definition sink_ok : Sink := fun _ _ => None.

(** A callback that returns, and one that throws when it is told of a
    success. *)
Definition callback_quiet : Callback := fun _ => None.
Definition callback_throws : Callback := fun err =>
  match err with
  | None => Some (ThrowOther "callback failed")
  | Some _ => None
  end.

(** The request [{requestMethod: "GET", latency: {seconds: 0, nanos: 0}}],
    as the middleware's [buildHttpRequest] makes it for a latency of 0 ms. *)
Definition request_get : gmap string Value :=
  <["requestMethod" := VStr "GET"]>
  (<["latency" := VObj (<["seconds" := VNum 0]> (<["nanos" := VNum 0]> ∅))]> ∅).

(** What a history shows of the sink and of the standard error stream: the
    writes that were attempted, each with its result; of those, the entries
    that were delivered and the failures; and the errors reported through
    [console.error]. *)
Definition writes (h : list Event) : list (Entry * option Thrown) :=
  omap (λ ev, match ev with
              | EvWrite _ entry failure => Some (entry, failure)
              | _ => None
              end) h.

Definition delivered_of (ws : list (Entry * option Thrown)) : list Entry :=
  omap (λ w, match w.2 with None => Some w.1 | Some _ => None end) ws.

Definition rejections_of (ws : list (Entry * option Thrown)) : list Thrown :=
  omap snd ws.

Definition delivered (h : list Event) : list Entry := delivered_of (writes h).

Definition rejections (h : list Event) : list Thrown := rejections_of (writes h).

Definition reported (h : list Event) : list Thrown :=
  omap (λ ev, match ev with
              | EvConsoleError _ err => Some err
              | _ => None
              end) h.

(** A sink that rejects the second write it is asked for, and no other. *)
Definition sink_rejects_second : Sink := fun h _ =>
  if (length (writes h) =? 1)%nat then Some (ThrowOther "quota exceeded")
  else None.

(** Three records, told apart by their messages. *)
Definition three_records : list PinoLogObject.t :=
  [ record_of 30 (Some "first") None None ∅;
    record_of 40 (Some "second") None None ∅;
    record_of 50 (Some "third") None None ∅ ].

(** The language of [/^([a-f0-9]+)(?:\/(\d+))?(?:;o=(\d))?$/i], one
    predicate for each of its three parts: [all_chars p s] says that every
    character of [s] is in the class [p]; a part is given with the text it
    covers and with what its capture group holds. *)
Fixpoint all_chars (p : ascii -> bool) (s : string) : bool :=
  match s with
  | EmptyString => true
  | String c s' => p c && all_chars p s'
  end.

(** [([a-f0-9]+)] *)
Definition hex_run (traceId : string) : Prop :=
  traceId <> "" /\ all_chars Trace.is_hex traceId = true.

(** [(?:\/(\d+))?] *)
Definition span_part (group : option string) (text : string) : Prop :=
  match group with
  | Some digits =>
      digits <> "" /\ all_chars Trace.is_digit digits = true /\
      text = "/" +:+ digits
  | None => text = ""
  end.

(** [(?:;o=(\d))?], where [o] is matched without regard to case *)
Definition flag_part (group : option string) (text : string) : Prop :=
  match group with
  | Some flag =>
      exists o d : ascii,
        (o = "o"%char \/ o = "O"%char) /\ Trace.is_digit d = true /\
        flag = String d "" /\
        text = String ";"%char (String o (String "="%char flag))
  | None => text = ""
  end.

(** The header matches the expression, with these three captures. *)
Definition header_matches (header traceId : string)
  (spanId traceSampled : option string) : Prop :=
  exists text2 text3 : string,
    hex_run traceId /\ span_part spanId text2 /\ flag_part traceSampled text3 /\
    header = traceId +:+ text2 +:+ text3.

Definition null_result : Trace.TraceHeader := {|
  Trace.trace := None;
  Trace.spanId := None;
  Trace.sampled := false;
|}.

(** [starts_outside p s]: [s] is empty or begins with a character that is
    not in the class [p], so a greedy run of [p] stops in front of [s]. *)
Definition starts_outside (p : ascii -> bool) (s : string) : Prop :=
  match s with
  | EmptyString => True
  | String c _ => p c = false
  end.

(** A computation is quiet when, from every history, it only appends
    events that are neither sink writes nor reports: what callbacks do. *)
Definition quiet {A} (m : M A) : Prop :=
  forall h : list Event,
  exists evs out, m h = (h ++ evs, out) /\ writes evs = [] /\ reported evs = [].

(** A computation that never returns normally. *)
Definition always_throws {A} (m : M A) : Prop :=
  forall h : list Event, exists t : Thrown, (m h).2 = Threw t.

(** * Further code of the repository *)

(** ** src/types.ts: the level tables *)

(** [PINO_LEVELS] *)
Definition PINO_LEVELS : list (string * Z) :=
  [ ("fatal", 60); ("error", 50); ("warn", 40); ("info", 30); ("debug", 20);
    ("trace", 10) ].

(** [PINO_TO_CLOUD_SEVERITY] *)
Definition PINO_TO_CLOUD_SEVERITY : gmap Z CloudLoggingSeverity :=
  <[60 := CRITICAL]> (<[50 := ERROR]> (<[40 := WARNING]> (<[30 := INFO]>
  (<[20 := DEBUG]> (<[10 := DEBUG]> ∅))))).

(** ** src/trace.ts: the span of the trace agent *)

Module TraceSpan.

(** [s.split(sep)] for a separator of one character: the pieces of [s]
    between the separators, at least one piece. *)
Fixpoint split (sep : ascii) (s : string) : list string :=
  match s with
  | EmptyString => [EmptyString]
  | String c s' =>
      if Ascii.eqb c sep then EmptyString :: split sep s'
      else match split sep s' with
           | piece :: pieces => String c piece :: pieces
           | [] => [String c EmptyString]
           end
  end.

(** The third method of [interface TraceAgent], beside the two of
    [Trace.TraceAgent]: [getCurrentRootSpan()] is represented by the
    [getTraceContext()] of the span it returns, [None] when it returns
    [null]. *)
Record Agent : Type := {
  agent : Trace.TraceAgent;
  getCurrentRootSpan : option string;
}.

(** [getCurrentSpanFromAgent()]; the argument is the content of
    [globalThis._google_trace_agent]. *)
Definition getCurrentSpanFromAgent (agent : option Agent) : option string :=
  match agent with
  | None => None
  | Some agent =>
      match getCurrentRootSpan agent with
      | None => None
      | Some traceContext =>
          if negb (truthy_str traceContext) then None
          else
            let parts := split "/"%char traceContext in
            if (length parts <? 2)%nat then None
            else
              match parts !! 1%nat with
              | Some spanPart =>
                  let spanId := default "" (split ";"%char spanPart !! 0%nat) in
                  truthy_opt_str (Some spanId)
              | None => None
              end
      end
  end.

End TraceSpan.

(** ** src/common.ts: getProjectId *)

(** [this.logging.auth.getProjectId()]: the credential provider answers each
    request with a project id or with a failure; [queries] counts the
    requests made to it. *)
Record Auth : Type := {
  answer : nat -> Outcome string;
  queries : nat;
}.

(** [this.projectId = v] *)
Definition set_projectId (this : LoggingCommon.t) (v : option string)
  : LoggingCommon.t := {|
  LoggingCommon.logName := LoggingCommon.logName this;
  LoggingCommon.projectId := v;
  LoggingCommon.serviceContext := LoggingCommon.serviceContext this;
  LoggingCommon.labels := LoggingCommon.labels this;
  LoggingCommon.prefix := LoggingCommon.prefix this;
  LoggingCommon.redirectToStdout := LoggingCommon.redirectToStdout this;
  LoggingCommon.useMessageField := LoggingCommon.useMessageField this;
  LoggingCommon.maxEntrySize := LoggingCommon.maxEntrySize this;
  LoggingCommon.defaultCallback := LoggingCommon.defaultCallback this;
|}.

(** [async getProjectId(): Promise<string>]: the engine and the credential
    provider after the call, and what the call returns or throws. *)
Definition getProjectId (this : LoggingCommon.t) (auth : Auth)
  : LoggingCommon.t * Auth * Outcome string :=
  match truthy_opt_str (LoggingCommon.projectId this) with
  | Some projectId => (this, auth, Returned projectId)
  | None =>
      let auth' := {| answer := answer auth; queries := S (queries auth) |} in
      match answer auth (queries auth) with
      | Returned projectId =>
          (set_projectId this (Some projectId), auth', Returned projectId)
      | Threw t => (this, auth', Threw t)
      end
  end.

(** [n] calls of [getProjectId] in a row: the results, oldest first. *)
Fixpoint getProjectId_calls (n : nat) (this : LoggingCommon.t) (auth : Auth)
  : LoggingCommon.t * Auth * list (Outcome string) :=
  match n with
  | O => (this, auth, [])
  | S n' =>
      let '(this', auth', r) := getProjectId this auth in
      let '(this'', auth'', rs) := getProjectId_calls n' this' auth' in
      (this'', auth'', r :: rs)
  end.

(** ** src/middleware/child-logger.ts *)

(** A pino logger, as far as this code tells loggers apart: the logger it
    was handed, or [logger.child(bindings)]. *)
Inductive Logger : Type :=
| GivenLogger
| Child (logger : Logger) (bindings : gmap string Value).

(** The [bindings] object of [makeChildLogger]. *)
Definition makeChildLogger_bindings (trace : string) (spanId : option string)
  (traceSampled : option bool) : gmap string Value :=
  let bindings : gmap string Value := {[ LOGGING_TRACE_KEY := VStr trace ]} in
  let bindings :=
    match spanId with
    | Some spanId => <[LOGGING_SPAN_KEY := VStr spanId]> bindings
    | None => bindings
    end in
  match traceSampled with
  | Some traceSampled => <[LOGGING_SAMPLED_KEY := VBool traceSampled]> bindings
  | None => bindings
  end.

(** [makeChildLogger(logger, trace, spanId?, traceSampled?)] *)
Definition makeChildLogger (logger : Logger) (trace : string)
  (spanId : option string) (traceSampled : option bool) : Logger :=
  Child logger (makeChildLogger_bindings trace spanId traceSampled).

(** ** src/middleware/express.ts *)

Module Middleware.

(** [interface MiddlewareOptions extends TransportOptions] *)
Record MiddlewareOptions : Type := {
  options : TransportOptions.t;
  skipParentRequestEntry : option bool;
}.

(** [process.env] *)
Definition Env : Type := string -> option string.

(** [a || b] on [string | undefined] *)
Definition or_else (a b : option string) : option string :=
  match truthy_opt_str a with
  | Some _ => a
  | None => b
  end.

(** [isMangedEnvironment()], as the source spells it *)
Definition isMangedEnvironment (env : Env) : bool :=
  match truthy_opt_str
          (or_else (or_else (or_else (env "GAE_SERVICE") (env "K_SERVICE"))
                      (env "FUNCTION_NAME"))
             (env "K_REVISION")) with
  | Some _ => true
  | None => false
  end.

(** [s.replace(/-/g, '')] *)
Fixpoint remove_hyphens (s : string) : string :=
  match s with
  | EmptyString => EmptyString
  | String c s' =>
      if Ascii.eqb c "-"%char then remove_hyphens s'
      else String c (remove_hyphens s')
  end.

(** [generateTraceId()]; [uuid] is what [randomUUID()] returns. *)
Definition generateTraceId (uuid : string) : string := remove_hyphens uuid.

(** [generateSpanId()]; [random] is the integer
    [Math.floor(Math.random() * Number.MAX_SAFE_INTEGER)], and [toString()]
    writes it in decimal. *)
Definition generateSpanId (random : Z) : string := pretty random.

(** The parts of an Express request and response that the middleware
    reads; [get] is [req.get(name)], [res.get(name)]. *)
Module Request.
Record t : Type := {
  method : string;
  protocol : string;
  originalUrl : string;
  httpVersion : string;
  get : string -> option string;
  remoteAddress : option string;     (* [req.socket.remoteAddress] *)
}.
End Request.

Module Response.
Record t : Type := {
  statusCode : Z;
  get : string -> option string;
}.
End Response.

(** A [string | undefined] inside a template literal. *)
Definition template (o : option string) : string := default "undefined" o.

(** What the handler leaves on the request and for later: the trace
    context, [req.log], and the listener registered with
    [res.on('finish', ...)], if any; the listener is given the response and
    the value of [Date.now()] when it runs. *)
Record Handled : Type := {
  trace : option string;
  spanId : string;
  traceSampled : bool;
  log : Logger;
  onFinish : option (Response.t -> Z -> M unit);
}.

Definition REQUEST_LOG_ERROR : string :=
  "pino-cloud-logging: Failed to write request log:".

Section Express.

(** [parseInt(s, 10)] and [s.trim()] of the language. *)
Variable parseInt10 : string -> Value.
Variable trim : string -> string.

(** [buildHttpRequest(req, res, latencyMs)] *)
Definition buildHttpRequest (req : Request.t) (res : Response.t)
  (latencyMs : Z) : gmap string Value :=
  <["requestMethod" := VStr (Request.method req)]>
  (<["requestUrl" :=
       VStr (Request.protocol req +:+ "://" +:+ template (Request.get req "host")
             +:+ Request.originalUrl req)]>
  (<["requestSize" :=
       match truthy_opt_str (Request.get req "content-length") with
       | Some v => parseInt10 v
       | None => VUndef
       end]>
  (<["status" := VNum (Response.statusCode res)]>
  (<["responseSize" :=
       match truthy_opt_str (Response.get res "content-length") with
       | Some v => parseInt10 v
       | None => VUndef
       end]>
  (<["userAgent" := opt_value (Request.get req "user-agent")]>
  (<["remoteIp" :=
       opt_value
         (or_else
            ((λ v, trim (default "" (TraceSpan.split ","%char v !! 0%nat)))
               <$> Request.get req "x-forwarded-for")
            (Request.remoteAddress req))]>
  (<["referer" := opt_value (Request.get req "referer")]>
  (<["latency" :=
       VObj (<["seconds" := VNum (latencyMs / 1000)]>
             (<["nanos" := VNum (Z.rem latencyMs 1000 * 1000000)]> ∅))]>
  (<["protocol" := VStr ("HTTP/" +:+ Request.httpVersion req)]> ∅))))))))).

(** The options of the engine for request logs:
    [{...options, logName: options.logName ? `${options.logName}_reqlog` :
    'pino_log_reqlog'}]. *)
Definition reqlog_options (o : TransportOptions.t) : TransportOptions.t := {|
  TransportOptions.logName :=
    Some match truthy_opt_str (TransportOptions.logName o) with
         | Some logName => logName +:+ "_reqlog"
         | None => "pino_log_reqlog"
         end;
  TransportOptions.projectId := TransportOptions.projectId o;
  TransportOptions.serviceContext := TransportOptions.serviceContext o;
  TransportOptions.labels := TransportOptions.labels o;
  TransportOptions.prefix := TransportOptions.prefix o;
  TransportOptions.redirectToStdout := TransportOptions.redirectToStdout o;
  TransportOptions.useMessageField := TransportOptions.useMessageField o;
  TransportOptions.maxEntrySize := TransportOptions.maxEntrySize o;
  TransportOptions.defaultCallback := TransportOptions.defaultCallback o;
|}.

(** The first part of [makeMiddleware]: [skipParentRequestEntry] and
    [loggingCommon]. *)
Definition skips (env : Env) (o : MiddlewareOptions) : bool :=
  default (isMangedEnvironment env) (skipParentRequestEntry o).

Definition requestLogger (env : Env) (o : MiddlewareOptions)
  : option LoggingCommon.t :=
  if skips env o then None
  else Some (LoggingCommon.new (reqlog_options (options o))).

(** The listener of ['finish']. *)
Definition finishListener (loggingCommon : LoggingCommon.t) (sink : Sink)
  (req : Request.t) (startTime : Z)
  (capturedTrace capturedSpanId : string) (capturedTraceSampled : bool)
  (res : Response.t) (now : Z) : M unit :=
  let latencyMs := now - startTime in
  let httpRequest := buildHttpRequest req res latencyMs in
  try_catch
    (LoggingCommon.writeRequestLog loggingCommon sink httpRequest
       (Some capturedTrace) (Some capturedSpanId) (Some capturedTraceSampled)
       (Some latencyMs))
    (λ err, emit (EvConsoleError REQUEST_LOG_ERROR err)).

(** [makeMiddleware(logger, options)] applied to a request:
    [cloudLoggingMiddleware(req, res, next)].  [sink] is the sink of the
    engine for request logs; [startTime] is [Date.now()] at the call; [uuid]
    and [random] are what the two generators draw when they are called. *)
Definition makeMiddleware (env : Env) (logger : Logger) (o : MiddlewareOptions)
  (sink : Sink) (req : Request.t) (startTime : Z) (uuid : string) (random : Z)
  : Handled :=
  let projectId := TransportOptions.projectId (options o) in
  let skipParentRequestEntry := skips env o in
  let loggingCommon := requestLogger env o in
  let traceHeader := Request.get req "x-cloud-trace-context" in
  let '(trace, spanId, traceSampled) :=
    match truthy_opt_str traceHeader, truthy_opt_str projectId with
    | Some traceHeader, Some projectId =>
        let parsed := Trace.parseTraceHeader traceHeader projectId in
        (Trace.trace parsed, Trace.spanId parsed, Trace.sampled parsed)
    | _, _ => (None, None, false)
    end in
  let trace :=
    match truthy_opt_str trace, truthy_opt_str projectId with
    | None, Some projectId =>
        let traceId := generateTraceId uuid in
        Some ("projects/" +:+ projectId +:+ "/traces/" +:+ traceId)
    | _, _ => trace
    end in
  let spanId :=
    match truthy_opt_str spanId with
    | Some spanId => spanId
    | None => generateSpanId random
    end in
  let log :=
    match truthy_opt_str trace with
    | Some trace => makeChildLogger logger trace (Some spanId) (Some traceSampled)
    | None => logger
    end in
  let onFinish :=
    match loggingCommon, truthy_opt_str trace with
    | Some loggingCommon, Some trace =>
        if negb skipParentRequestEntry
        then Some (finishListener loggingCommon sink req startTime trace spanId
                     traceSampled)
        else None
    | _, _ => None
    end in
  {| trace := trace; spanId := spanId; traceSampled := traceSampled;
     log := log; onFinish := onFinish |}.

End Express.

End Middleware.

(** ** Further vocabulary for the properties *)

(** The arguments of the calls of the per-call callback and of the default
    callback that a history shows, oldest first. *)
Definition callback_calls (h : list Event) : list (option JsError) :=
  omap (λ ev, match ev with
              | EvCallback err => Some err
              | _ => None
              end) h.

Definition defaultCallback_calls (h : list Event) : list (option JsError) :=
  omap (λ ev, match ev with
              | EvDefaultCallback err => Some err
              | _ => None
              end) h.

(** What the callbacks are told of a write: [null], or the failure as an
    [Error]. *)
Definition callback_argument (w : Entry * option Thrown) : option JsError :=
  LoggingCommon.as_error <$> w.2.

(** The class of the characters other than [sep]. *)
Definition is_not (sep : ascii) (c : ascii) : bool := negb (Ascii.eqb c sep).

(** A trace agent whose root span has the trace context [context]. *)
Definition agent_with_context (a : Trace.TraceAgent) (context : string)
  : TraceSpan.Agent := {|
  TraceSpan.agent := a;
  TraceSpan.getCurrentRootSpan := Some context;
|}.

(** A record carries the bindings of a child logger: each bound key is a
    property of the record, with the bound value. *)
Definition carries (o : PinoLogObject.t) (bindings : gmap string Value) : Prop :=
  forall (k : string) (v : Value),
    bindings !! k = Some v -> Object_entries o !! k = Some v.

(** A record that carries trace, span and flag. *)
Definition record_traced (trace spanId : string) (sampled : bool)
  : PinoLogObject.t := {|
  PinoLogObject.level := 30;
  PinoLogObject.time := 1;
  PinoLogObject.msg := Some "handled";
  PinoLogObject.pid := None;
  PinoLogObject.hostname := None;
  PinoLogObject.err := None;
  PinoLogObject.trace := Some trace;
  PinoLogObject.spanId := Some spanId;
  PinoLogObject.sampled := Some sampled;
  PinoLogObject.httpRequest := None;
  PinoLogObject.labels := None;
  PinoLogObject.extra := ∅;
|}.

(** A credential provider that fails once and then answers [discovered]. *)
Definition auth_flaky : Auth := {|
  answer := fun n =>
    match n with
    | O => Threw (ThrowOther "no credentials")
    | S _ => Returned "discovered"
    end;
  queries := 0;
|}.

(** An environment without markers and one of Cloud Run. *)
Definition env_plain : Middleware.Env := fun _ => None.
Definition env_cloud_run : Middleware.Env := fun name =>
  if bool_decide (name = "K_SERVICE") then Some "svc" else None.

(** A request [GET /] with the given trace header, from behind one proxy. *)
Definition request_with (traceHeader : option string) : Middleware.Request.t := {|
  Middleware.Request.method := "GET";
  Middleware.Request.protocol := "https";
  Middleware.Request.originalUrl := "/";
  Middleware.Request.httpVersion := "1.1";
  Middleware.Request.get := fun name =>
    if bool_decide (name = "x-cloud-trace-context") then traceHeader
    else if bool_decide (name = "host") then Some "example.org"
    else if bool_decide (name = "x-forwarded-for") then Some "203.0.113.7, 10.0.0.1"
    else None;
  Middleware.Request.remoteAddress := Some "10.0.0.1";
|}.

Definition response_ok : Middleware.Response.t := {|
  Middleware.Response.statusCode := 200;
  Middleware.Response.get := fun _ => None;
|}.

(** The options [{projectId}], with or without [skipParentRequestEntry]. *)
Definition middleware_options (projectId : option string)
  (skipParentRequestEntry : option bool) : Middleware.MiddlewareOptions := {|
  Middleware.options := {|
    TransportOptions.logName := None;
    TransportOptions.projectId := projectId;
    TransportOptions.serviceContext := None;
    TransportOptions.labels := None;
    TransportOptions.prefix := None;
    TransportOptions.redirectToStdout := None;
    TransportOptions.useMessageField := None;
    TransportOptions.maxEntrySize := None;
    TransportOptions.defaultCallback := None;
  |};
  Middleware.skipParentRequestEntry := skipParentRequestEntry;
|}.

(** Stand-ins for [parseInt(s, 10)] and [s.trim()] where a witness needs
    them: no number is read, and no white space is removed. *)
Definition parseInt_none : string -> Value := fun _ => VUndef.
Definition trim_none : string -> string := fun s => s.

(** The names of the four environment markers. *)
Definition managed_markers : list string :=
  [ "GAE_SERVICE"; "K_SERVICE"; "FUNCTION_NAME"; "K_REVISION" ].

(** The characters of a UUID: hexadecimal digits and hyphens. *)
Definition is_uuid_char (c : ascii) : bool :=
  Trace.is_hex c || Ascii.eqb c "-"%char.

(** * Properties *)

Import LoggingCommon.

(** ** Severity mapping *)

(** C2. For every integer level [L], [mapLevel] follows the five-bucket
    threshold table (CRITICAL from 60, ERROR from 50, WARNING from 40, INFO
    from 30, DEBUG below), and it is monotone: a lower level never maps to a
    higher severity. *)
Theorem mapLevel_thresholds_monotone (L : Z) :
  (60 <= L -> mapLevel L = CRITICAL) /\
  (50 <= L < 60 -> mapLevel L = ERROR) /\
  (40 <= L < 50 -> mapLevel L = WARNING) /\
  (30 <= L < 40 -> mapLevel L = INFO) /\
  (L < 30 -> mapLevel L = DEBUG) /\
  (forall L' : Z, L' <= L ->
     severity_rank (mapLevel L') <= severity_rank (mapLevel L)).
Proof.
  unfold mapLevel.
  repeat split; intros;
    repeat match goal with
           | |- context [?a <=? ?b] => destruct (Z.leb_spec a b)
           end; simpl; try reflexivity; lia.
Qed.

Lemma mapLevel_thresholds_monotone_witness :
  mapLevel 1000 = CRITICAL /\ mapLevel 59 = ERROR /\ mapLevel 49 = WARNING /\
  mapLevel 39 = INFO /\ mapLevel 0 = DEBUG /\
  severity_rank (mapLevel 29) <= severity_rank (mapLevel 30).
Proof.
  split; [apply (mapLevel_thresholds_monotone 1000); lia|].
  split; [apply (mapLevel_thresholds_monotone 59); lia|].
  split; [apply (mapLevel_thresholds_monotone 49); lia|].
  split; [apply (mapLevel_thresholds_monotone 39); lia|].
  split; [apply (mapLevel_thresholds_monotone 0); lia|].
  apply (mapLevel_thresholds_monotone 30); lia.
Defined.

(** ** buildMetadata *)

Lemma copy_fields_lookup (entries : gmap string Value) (k : string) :
  copy_fields entries !! k
  = if bool_decide (k ∈ excludeKeys) then None
    else if bool_decide (k = "__proto__") then None
    else entries !! k.
Proof.
  unfold copy_fields.
  apply (map_fold_weak_ind (λ r m,
    r !! k = if bool_decide (k ∈ excludeKeys) then None
             else if bool_decide (k = "__proto__") then None
             else m !! k)).
  - rewrite lookup_empty. by repeat case_bool_decide.
  - intros i x m r Hi IH. unfold assign.
    destruct (decide (i = k)) as [->|Hne].
    + rewrite lookup_insert_eq. case_bool_decide; [done|].
      case_bool_decide; [done|]. by rewrite lookup_insert_eq.
    + rewrite (lookup_insert_ne m); [|done].
      destruct (bool_decide (i ∈ excludeKeys)); [done|].
      destruct (bool_decide (i = "__proto__")); [done|].
      by rewrite lookup_insert_ne.
Qed.

Lemma lookup_set_opt (k j : string) (o : option Value) (m : gmap string Value) :
  set_opt k o m !! j
  = if decide (k = j) then (match o with Some v => Some v | None => m !! j end)
    else m !! j.
Proof.
  unfold set_opt. destruct o; case_decide; subst; simplify_map_eq; done.
Qed.

(** Outside the declared keys, the object has the properties of [extra]. *)
Lemma Object_entries_undeclared (o : PinoLogObject.t) (k : string) :
  k ∉ declared_keys -> Object_entries o !! k = PinoLogObject.extra o !! k.
Proof.
  intros Hk. unfold Object_entries.
  assert (forall j, j ∈ declared_keys -> j <> k) as Hne by (intros j Hj ->; done).
  rewrite !lookup_insert_ne, !lookup_set_opt.
  2-3: apply Hne; vm_compute; done.
  repeat (rewrite decide_False; [|apply Hne; by vm_compute]).
  rewrite map_lookup_filter.
  destruct (PinoLogObject.extra o !! k) eqn:E; simpl; [|done].
  by rewrite option_guard_True.
Qed.

Lemma buildMetadata_lookup (o : PinoLogObject.t) (k : string) :
  buildMetadata o !! k
  = if decide (k = "hostname") then VStr <$> truthy_opt_str (PinoLogObject.hostname o)
    else if decide (k = "pid") then
      PinoLogObject.pid o ≫= (λ p, if truthy_num p then Some (VNum p) else None)
    else if decide (k = "error") then
      match PinoLogObject.err o with
      | Some e =>
          Some (VObj (<["type" := opt_value (ErrInfo.type e)]>
                      (<["message" := opt_value (ErrInfo.message e)]> ∅)))
      | None => PinoLogObject.extra o !! "error"
      end
    else if bool_decide (k ∈ excludeKeys) then None
    else if bool_decide (k = "__proto__") then None
    else PinoLogObject.extra o !! k.
Proof.
  assert (copy_fields (Object_entries o) !! k
    = if bool_decide (k ∈ excludeKeys) then None
      else if bool_decide (k = "__proto__") then None
      else PinoLogObject.extra o !! k)
    as Hcopy.
  { rewrite copy_fields_lookup. case_bool_decide; [reflexivity|].
    case_bool_decide; [reflexivity|].
    by apply Object_entries_undeclared. }
  unfold buildMetadata.
  set (m0 := copy_fields (Object_entries o)) in *.
  set (m1 := match PinoLogObject.err o with Some _ => _ | None => _ end).
  set (m2 := match PinoLogObject.pid o with Some _ => _ | None => _ end).
  assert (m1 !! k = if decide (k = "error") then
      match PinoLogObject.err o with
      | Some e =>
          Some (VObj (<["type" := opt_value (ErrInfo.type e)]>
                      (<["message" := opt_value (ErrInfo.message e)]> ∅)))
      | None => PinoLogObject.extra o !! "error"
      end
    else if bool_decide (k ∈ excludeKeys) then None
    else if bool_decide (k = "__proto__") then None
    else PinoLogObject.extra o !! k) as H1.
  { subst m1. destruct (decide (k = "error")) as [->|Hne].
    - destruct (PinoLogObject.err o); [by rewrite lookup_insert_eq|].
      rewrite Hcopy. reflexivity.
    - destruct (PinoLogObject.err o); [rewrite lookup_insert_ne by done|]; exact Hcopy. }
  assert (m2 !! k = if decide (k = "pid") then
      PinoLogObject.pid o ≫= (λ p, if truthy_num p then Some (VNum p) else None)
    else m1 !! k) as H2.
  { subst m2. destruct (decide (k = "pid")) as [->|Hne].
    - destruct (PinoLogObject.pid o) as [p|]; simpl.
      + destruct (truthy_num p); [by rewrite lookup_insert_eq|].
        rewrite H1. reflexivity.
      + rewrite H1. reflexivity.
    - destruct (PinoLogObject.pid o) as [p|]; [|reflexivity].
      destruct (truthy_num p); [by rewrite lookup_insert_ne|reflexivity]. }
  destruct (decide (k = "hostname")) as [->|Hne].
  - destruct (truthy_opt_str (PinoLogObject.hostname o)); simpl;
      [by rewrite lookup_insert_eq|].
    rewrite H2, H1. reflexivity.
  - rewrite <- H1, <- H2.
    destruct (truthy_opt_str (PinoLogObject.hostname o));
      [by rewrite lookup_insert_ne|reflexivity].
Qed.

(** A field named [__proto__] is not carried over by the copy loop. *)
Lemma buildMetadata_proto (o : PinoLogObject.t) :
  buildMetadata o !! "__proto__" = None.
Proof. rewrite buildMetadata_lookup. reflexivity. Qed.

(** C1 (amended). [buildMetadata] copies every non-reserved field of the
    record, other than a field named [__proto__], unchanged into the
    payload, unless the field is named [error] and the record carries an
    [err]: then the payload's [error] is the object [{type, message}] of the
    record's [err], without its stack, whatever [error] field the record has
    itself.  The payload never holds [level], [time], [msg], [err], the three
    trace keys, [httpRequest] or [labels]; [pid] and [hostname] are in the
    payload, with their value, exactly when the record has them with a
    truthy value; and [{level:30, time:1, msg:"x", foo:"bar"}] gives exactly
    [{foo:"bar"}]. *)
Theorem buildMetadata_fields :
  (forall (o : PinoLogObject.t) (k : string) (v : Value),
     Object_entries o !! k = Some v ->
     k ∉ [ "level"; "time"; "msg"; "pid"; "hostname"; "err";
           "logging.googleapis.com/trace"; "logging.googleapis.com/spanId";
           "logging.googleapis.com/trace_sampled"; "httpRequest"; "labels" ] ->
     k <> "__proto__" ->
     (k = "error" -> PinoLogObject.err o = None) ->
     buildMetadata o !! k = Some v) /\
  (forall (o : PinoLogObject.t) (e : ErrInfo.t),
     PinoLogObject.err o = Some e ->
     exists error : gmap string Value,
       buildMetadata o !! "error" = Some (VObj error) /\
       error !! "type" = Some (opt_value (ErrInfo.type e)) /\
       error !! "message" = Some (opt_value (ErrInfo.message e)) /\
       forall j : string, is_Some (error !! j) -> j = "type" \/ j = "message") /\
  (forall (o : PinoLogObject.t) (k : string),
     k ∈ [ "level"; "time"; "msg"; "err";
           "logging.googleapis.com/trace"; "logging.googleapis.com/spanId";
           "logging.googleapis.com/trace_sampled"; "httpRequest"; "labels" ] ->
     buildMetadata o !! k = None) /\
  (forall o : PinoLogObject.t,
     buildMetadata o !! "pid"
     = match PinoLogObject.pid o with
       | Some p => if Z.eqb p 0 then None else Some (VNum p)
       | None => None
       end) /\
  (forall o : PinoLogObject.t,
     buildMetadata o !! "hostname"
     = match PinoLogObject.hostname o with
       | Some (String c h) => Some (VStr (String c h))
       | _ => None
       end) /\
  buildMetadata record_foo = {[ "foo" := VStr "bar" ]}.
Proof.
  split; [|split; [|split; [|split; [|split]]]].
  - intros o k v Hv Hk Hproto Herr.
    assert (k ∉ excludeKeys) as Hex.
    { unfold excludeKeys. rewrite elem_of_list_to_set. exact Hk. }
    assert (k ∉ declared_keys) as Hdecl.
    { unfold declared_keys. rewrite elem_of_list_to_set. exact Hk. }
    rewrite Object_entries_undeclared in Hv by assumption.
    rewrite buildMetadata_lookup.
    destruct (decide (k = "hostname")) as [->|];
      [exfalso; apply Hex; by vm_compute|].
    destruct (decide (k = "pid")) as [->|];
      [exfalso; apply Hex; by vm_compute|].
    destruct (decide (k = "error")) as [->|].
    + by rewrite Herr.
    + rewrite !bool_decide_eq_false_2 by assumption. assumption.
  - intros o e He. eexists. split; [|split; [|split]].
    + rewrite buildMetadata_lookup, He. reflexivity.
    + reflexivity.
    + reflexivity.
    + intros j [v Hj].
      apply lookup_insert_Some in Hj as [[<- _]|[_ Hj]]; [by left|].
      apply lookup_insert_Some in Hj as [[<- _]|[_ Hj]]; [by right|].
      by rewrite lookup_empty in Hj.
  - intros o k Hk. rewrite buildMetadata_lookup.
    repeat (apply elem_of_cons in Hk as [->|Hk]; [reflexivity|]).
    by apply elem_of_nil in Hk.
  - intros o. rewrite buildMetadata_lookup. simpl.
    destruct (PinoLogObject.pid o) as [p|]; simpl; [|reflexivity].
    unfold truthy_num. destruct (Z.eqb p 0); reflexivity.
  - intros o. rewrite buildMetadata_lookup. simpl.
    destruct (PinoLogObject.hostname o) as [[|c h]|]; reflexivity.
  - vm_compute. reflexivity.
Qed.

Lemma buildMetadata_fields_witness :
  buildMetadata record_foo !! "foo" = Some (VStr "bar") /\
  buildMetadata record_own_error !! "kept" = Some (VStr "yes") /\
  (exists error : gmap string Value,
     buildMetadata record_own_error !! "error" = Some (VObj error) /\
     error !! "message" = Some (VStr "boom") /\
     error !! "stack" = None) /\
  buildMetadata record_pid !! "level" = None.
Proof.
  destruct buildMetadata_fields as (Hcopy & Herror & Hreserved & _).
  split; [|split; [|split]].
  - apply Hcopy; [by vm_compute | | discriminate | discriminate].
    intros Hin. repeat (apply elem_of_cons in Hin as [[=]|Hin]).
    by apply elem_of_nil in Hin.
  - apply Hcopy; [by vm_compute | | discriminate | discriminate].
    intros Hin. repeat (apply elem_of_cons in Hin as [[=]|Hin]).
    by apply elem_of_nil in Hin.
  - destruct (Herror record_own_error (error_with_stack "S") eq_refl)
      as (error & Hlookup & _ & Hmessage & Hkeys).
    exists error. split; [exact Hlookup|]. split; [exact Hmessage|].
    destruct (error !! "stack") as [v|] eqn:Hstack; [|reflexivity].
    destruct (Hkeys "stack" (ex_intro _ v Hstack)); discriminate.
  - apply Hreserved. apply elem_of_cons. by left.
Defined.

(** C1 fails as stated: [pid] is one of the reserved keys, and the payload
    of [{level: 30, time: 1, pid: 42}] holds it. *)
Lemma buildMetadata_keeps_pid :
  "pid" ∈ excludeKeys /\ buildMetadata record_pid !! "pid" = Some (VNum 42).
Proof. split; by vm_compute. Qed.

(** ** formatMessage *)

(** C6. [formatMessage] starts from [msg] (the empty string when absent),
    puts ["[prefix] "] in front when a non-empty prefix is configured, and,
    when the record's error has a non-empty stack, appends to a message that
    is not empty one line feed (the character of code 10) and the stack, or
    returns the stack alone when the message is empty.  Message ["m"] alone
    gives ["m"], with prefix ["svc"] it gives ["[svc] m"], with stack ["S"]
    it gives ["m"], a line feed and ["S"], and an empty message with stack
    ["S"] gives ["S"]. *)
Theorem formatMessage_steps :
  (forall (this : LoggingCommon.t) (o : PinoLogObject.t),
     let msg := default "" (PinoLogObject.msg o) in
     let m := match prefix this with
              | Some (String c p) => "[" +:+ String c p +:+ "] " +:+ msg
              | _ => msg
              end in
     (err_stack o = None \/ err_stack o = Some "" ->
        formatMessage this o = m) /\
     (forall s : string, err_stack o = Some s -> s <> "" ->
        (m <> "" -> formatMessage this o = m +:+ String "010"%char s) /\
        (m = "" -> formatMessage this o = s))) /\
  formatMessage (new no_options) (record_of 30 (Some "m") None None ∅) = "m" /\
  formatMessage (new (options_with (Some "svc") None None))
    (record_of 30 (Some "m") None None ∅) = "[svc] m" /\
  formatMessage (new no_options)
    (record_of 50 (Some "m") (Some (error_with_stack "S")) None ∅)
  = String "m"%char (String "010"%char (String "S"%char EmptyString)) /\
  formatMessage (new no_options)
    (record_of 50 (Some "") (Some (error_with_stack "S")) None ∅) = "S" /\
  formatMessage (new no_options)
    (record_of 50 None (Some (error_with_stack "S")) None ∅) = "S".
Proof.
  split; [|repeat split; reflexivity].
  intros this o msg m. unfold formatMessage. fold msg.
  assert (match truthy_opt_str (prefix this) with
          | Some prefix => "[" +:+ prefix +:+ "] " +:+ msg
          | None => msg
          end = m) as ->.
  { subst m. by destruct (prefix this) as [[|c p]|]. }
  split.
  - by intros [-> | ->].
  - intros s -> Hs. destruct s as [|c s]; [done|]. simpl.
    split; intros Hm.
    + by destruct m.
    + by rewrite Hm.
Qed.

Lemma formatMessage_steps_witness :
  formatMessage (new no_options) (record_of 30 (Some "m") None None ∅) = "m" /\
  formatMessage (new (options_with (Some "svc") None None))
    (record_of 50 (Some "m") (Some (error_with_stack "S")) None ∅)
  = "[svc] m" +:+ String "010"%char "S" /\
  String.length
    (formatMessage (new (options_with (Some "svc") None None))
       (record_of 50 (Some "m") (Some (error_with_stack "S")) None ∅))
  = 9%nat /\
  formatMessage (new no_options)
    (record_of 50 None (Some (error_with_stack "S")) None ∅) = "S".
Proof.
  destruct formatMessage_steps as (H & _).
  destruct (H (new (options_with (Some "svc") None None))
              (record_of 50 (Some "m") (Some (error_with_stack "S")) None ∅))
    as (_ & Hstack).
  destruct (Hstack "S") as (Hfeed & _); [reflexivity | discriminate |].
  split; [|split; [|split]].
  - destruct (H (new no_options) (record_of 30 (Some "m") None None ∅))
      as (H1 & _).
    apply H1. left. reflexivity.
  - apply Hfeed. discriminate.
  - rewrite Hfeed by discriminate. reflexivity.
  - destruct (H (new no_options)
               (record_of 50 None (Some (error_with_stack "S")) None ∅))
      as (_ & H2).
    apply (H2 "S"); [reflexivity | discriminate | reflexivity].
Defined.

(** ** extractTraceInfo *)

Lemma truthy_opt_str_agent (agent : option Trace.TraceAgent) :
  truthy_opt_str (Trace.getCurrentTraceFromAgent agent)
  = Trace.getCurrentTraceFromAgent agent.
Proof.
  unfold Trace.getCurrentTraceFromAgent.
  destruct agent as [a|]; [|reflexivity].
  destruct (truthy_opt_str (Trace.getCurrentContextId a)); [|reflexivity].
  destruct (truthy_opt_str (Trace.getWriterProjectId a)); reflexivity.
Qed.

(** C7 (amended). A trace name or a span id that the record carries with a
    non-empty value is used verbatim; the sampled flag is used verbatim
    whenever it is present, [false] included; each of the three is resolved
    on its own.  A trace name that is absent or empty falls back to the trace
    agent's current trace; a span id that is absent or empty stays absent,
    and so does an absent sampled flag. *)
Theorem extractTraceInfo_precedence (agent : option Trace.TraceAgent)
  (o : PinoLogObject.t) :
  let r := extractTraceInfo agent o in
  (forall t : string, PinoLogObject.trace o = Some t -> t <> "" ->
     trace r = Some t) /\
  (forall s : string, PinoLogObject.spanId o = Some s -> s <> "" ->
     spanId r = Some s) /\
  traceSampled r = PinoLogObject.sampled o /\
  (PinoLogObject.trace o = None \/ PinoLogObject.trace o = Some "" ->
     trace r = Trace.getCurrentTraceFromAgent agent) /\
  (PinoLogObject.spanId o = None \/ PinoLogObject.spanId o = Some "" ->
     spanId r = None).
Proof.
  unfold extractTraceInfo.
  pose proof (truthy_opt_str_agent agent) as Hagent.
  destruct (PinoLogObject.trace o) as [[|c t]|];
    destruct (PinoLogObject.spanId o) as [[|c' s]|];
    destruct (PinoLogObject.sampled o) as [b|]; simpl;
    rewrite ?Hagent;
    destruct (Trace.getCurrentTraceFromAgent agent) as [a|]; simpl;
    repeat split; try congruence;
    intros [?|?]; congruence.
Qed.

Lemma extractTraceInfo_precedence_witness :
  trace (extractTraceInfo (Some agent_active)
           (record_of 30 None None (Some "projects/q/traces/t0") ∅))
  = Some "projects/q/traces/t0" /\
  trace (extractTraceInfo (Some agent_active) (record_of 30 None None None ∅))
  = Some "projects/p/traces/t1" /\
  spanId (extractTraceInfo (Some agent_active) (record_of 30 None None None ∅))
  = None.
Proof.
  split; [|split].
  - apply (extractTraceInfo_precedence (Some agent_active)
             (record_of 30 None None (Some "projects/q/traces/t0") ∅));
      [reflexivity | discriminate].
  - apply (extractTraceInfo_precedence (Some agent_active)
             (record_of 30 None None None ∅)).
    left. reflexivity.
  - apply (extractTraceInfo_precedence (Some agent_active)
             (record_of 30 None None None ∅)).
    left. reflexivity.
Defined.

(** C7 fails as stated: a record that carries the trace field with the
    empty string does not get it back verbatim; the agent's trace is used,
    although the field is not absent. *)
Lemma extractTraceInfo_empty_trace :
  let o := record_of 30 None None (Some "") ∅ in
  PinoLogObject.trace o = Some "" /\
  trace (extractTraceInfo (Some agent_active) o) = Some "projects/p/traces/t1".
Proof. split; reflexivity. Qed.

(** ** The error-reporting step of writeLog *)

Lemma writeLog_body_lookup (this : LoggingCommon.t) (o : PinoLogObject.t)
  (k : string) :
  k <> "message" -> writeLog_body this o !! k = buildMetadata o !! k.
Proof.
  intros Hk. unfold writeLog_body.
  destruct (useMessageField this && truthy_str (formatMessage this o));
    [by rewrite lookup_insert_ne|reflexivity].
Qed.

Lemma writeLog_body_own (this : LoggingCommon.t) (o : PinoLogObject.t)
  (k : string) :
  k = "@type" \/ k = "serviceContext" ->
  writeLog_body this o !! k = PinoLogObject.extra o !! k.
Proof.
  intros Hk. rewrite writeLog_body_lookup by (destruct Hk; subst; discriminate).
  rewrite buildMetadata_lookup. destruct Hk; subst; reflexivity.
Qed.

(** The test of the [if] is the conjunction of the three conditions. *)
Lemma reportable_test (this : LoggingCommon.t) (o : PinoLogObject.t) :
  reportable this o <->
  exists sc, serviceContext this = Some sc /\
    (bool_decide (mapLevel (PinoLogObject.level o) = ERROR)
     || bool_decide (mapLevel (PinoLogObject.level o) = CRITICAL))
    && bool_decide (is_Some (truthy_opt_str (err_stack o))) = true.
Proof.
  unfold reportable. split.
  - intros ([sc Hsc] & Hsev & s & Hs & Hne). exists sc. split; [done|].
    apply andb_true_iff. split.
    + apply orb_true_iff. destruct Hsev; [left|right]; by apply bool_decide_eq_true.
    + apply bool_decide_eq_true. rewrite Hs. destruct s; [done|]. by eexists.
  - intros (sc & Hsc & Hb). apply andb_true_iff in Hb as [Hsev Hst].
    split; [by eexists|]. split.
    + apply orb_true_iff in Hsev.
      destruct Hsev as [H|H]; apply bool_decide_eq_true in H; auto.
    + apply bool_decide_eq_true in Hst.
      destruct (err_stack o) as [[|c s]|]; simpl in Hst;
        try (by destruct Hst as [? [=]]).
      by eexists.
Qed.

(** C3 (amended). [writeLog] sets the payload's [@type] to the
    reportable-error discriminator and [serviceContext] to the configured
    object exactly when a service context is configured, the mapped severity
    is ERROR or CRITICAL and the error's stack is not empty; otherwise the
    payload is the body as built from the record; no other field is touched.
    For a record that does not itself carry [@type] or [serviceContext], the
    payload has the two fields if and only if the three conditions hold. *)
Theorem writeLog_error_reporting (this : LoggingCommon.t)
  (agent : option Trace.TraceAgent) (o : PinoLogObject.t) :
  let payload := data (writeLog_entry this agent o) in
  let body := writeLog_body this o in
  (reportable this o ->
     exists sc, serviceContext this = Some sc /\
       payload = <["@type" := VStr REPORTED_ERROR_EVENT]>
                   (<["serviceContext" := ServiceContext_value sc]> body)) /\
  (~ reportable this o -> payload = body) /\
  (forall k : string, k <> "@type" -> k <> "serviceContext" ->
     payload !! k = body !! k) /\
  (PinoLogObject.extra o !! "@type" = None ->
   PinoLogObject.extra o !! "serviceContext" = None ->
     (reportable this o <->
        payload !! "@type" = Some (VStr REPORTED_ERROR_EVENT)) /\
     (reportable this o <-> is_Some (payload !! "serviceContext")) /\
     (~ reportable this o ->
        payload !! "@type" = None /\ payload !! "serviceContext" = None)).
Proof.
  intros payload body.
  assert (reportable this o ->
     exists sc, serviceContext this = Some sc /\
       payload = <["@type" := VStr REPORTED_ERROR_EVENT]>
                   (<["serviceContext" := ServiceContext_value sc]> body)) as Hyes.
  { intros (sc & Hsc & Hb)%reportable_test. exists sc. split; [done|].
    subst payload body. unfold writeLog_entry. simpl. by rewrite Hsc, Hb. }
  assert (~ reportable this o -> payload = body) as Hno.
  { intros Hn. subst payload body. unfold writeLog_entry. simpl.
    destruct (serviceContext this) as [sc|] eqn:Hsc; [|reflexivity].
    match goal with |- (if ?b then _ else _) = _ => destruct b eqn:Hb end;
      [|reflexivity].
    exfalso. apply Hn, reportable_test. by exists sc. }
  assert (Decision (reportable this o)) as Hdec.
  { unfold reportable.
    destruct (err_stack o) as [[|c s]|].
    - right. intros (_ & _ & s & [= <-] & Hs). done.
    - destruct (decide (is_Some (serviceContext this) /\
        (mapLevel (PinoLogObject.level o) = ERROR \/
         mapLevel (PinoLogObject.level o) = CRITICAL))) as [Hy|Hn].
      + left. destruct Hy. repeat split; try done. by eexists.
      + right. intros (? & ? & _). by apply Hn.
    - right. by intros (_ & _ & s & [=] & _). }
  split; [exact Hyes|]. split; [exact Hno|]. split.
  - intros k Hk1 Hk2. destruct Hdec as [Hy|Hn].
    + destruct (Hyes Hy) as (sc & _ & ->). by rewrite !lookup_insert_ne.
    + by rewrite (Hno Hn).
  - intros Ht Hs.
    assert (body !! "@type" = None) as Hbt
      by (subst body; rewrite writeLog_body_own; auto).
    assert (body !! "serviceContext" = None) as Hbs
      by (subst body; rewrite writeLog_body_own; auto).
    destruct Hdec as [Hy|Hn].
    + destruct (Hyes Hy) as (sc & _ & ->).
      rewrite lookup_insert_eq, lookup_insert_ne, lookup_insert_eq by done.
      split; [|split].
      * split; [reflexivity | intros _; exact Hy].
      * split; [intros _; by eexists | intros _; exact Hy].
      * intros Hn. by destruct Hn.
    + rewrite (Hno Hn), Hbt, Hbs.
      split; [|split].
      * split; [intros Hy; by destruct Hn | discriminate].
      * split; [intros Hy; by destruct Hn | by intros [? [=]]].
      * intros _. split; reflexivity.
Qed.

Lemma writeLog_error_reporting_witness :
  let this := new (options_with None (Some service_svc) None) in
  let o := record_of 50 (Some "m") (Some (error_with_stack "S")) None ∅ in
  data (writeLog_entry this None o) !! "@type"
  = Some (VStr REPORTED_ERROR_EVENT).
Proof.
  intros this o.
  destruct (writeLog_error_reporting this None o) as (_ & _ & _ & H).
  destruct H as (H & _); [reflexivity | reflexivity |].
  apply H. repeat split.
  - by eexists.
  - left. reflexivity.
  - exists "S". split; [reflexivity | discriminate].
Defined.

(** C3 fails as stated: with a service context configured, an INFO record
    without an error, which itself carries the two fields, has both of them
    in its payload. *)
Lemma writeLog_own_report_fields :
  let this := new (options_with None (Some service_svc) None) in
  let payload := data (writeLog_entry this None record_own_report) in
  payload !! "@type" = Some (VStr REPORTED_ERROR_EVENT) /\
  payload !! "serviceContext" = Some (ServiceContext_value service_svc) /\
  mapLevel (PinoLogObject.level record_own_report) = INFO /\
  err_stack record_own_report = None.
Proof. repeat split; by vm_compute. Qed.

(** ** writeRequestLog *)

(** The entry of [writeRequestLog]: severity INFO, an empty body, no
    timestamp, the trace triple as given, the configured labels, and the
    request with its [latency] replaced; a latency other than 0 ms is split
    into whole seconds and the remainder in nanoseconds. *)
Lemma writeRequestLog_entry_shape (this : LoggingCommon.t)
  (httpRequest : gmap string Value) (trace spanId : option string)
  (traceSampled : option bool) (latencyMs : option Z) :
  let e := writeRequestLog_entry this httpRequest trace spanId traceSampled
             latencyMs in
  data e = ∅ /\
  LogEntry.severity (metadata e) = Some INFO /\
  LogEntry.timestamp (metadata e) = None /\
  LogEntry.trace (metadata e) = trace /\
  LogEntry.spanId (metadata e) = spanId /\
  LogEntry.traceSampled (metadata e) = traceSampled /\
  LogEntry.labels (metadata e) = labels this /\
  (forall k : string, k <> "latency" ->
     LogEntry.httpRequest (metadata e) ≫= (.!! k) = httpRequest !! k) /\
  (latencyMs = None ->
     LogEntry.httpRequest (metadata e) ≫= (.!! "latency") = Some VUndef) /\
  (forall l : Z, latencyMs = Some l -> l <> 0 ->
     LogEntry.httpRequest (metadata e) ≫= (.!! "latency")
     = Some (VObj (<["seconds" := VNum (l / 1000)]>
                   (<["nanos" := VNum (Z.rem l 1000 * 10 ^ 6)]> ∅))) /\
     (0 <= l -> Z.rem l 1000 = l mod 1000)).
Proof.
  simpl. repeat split; try reflexivity.
  - intros k Hk. by rewrite lookup_insert_ne.
  - intros ->. by rewrite lookup_insert_eq.
  - subst. rewrite lookup_insert_eq. simpl. unfold truthy_num.
    destruct (Z.eqb_spec l 0); [done|]. reflexivity.
  - intros Hl. apply Z.rem_mod_nonneg; lia.
Qed.

(** C8, at the failing input.  For a latency of 0 ms, which is given,
    [writeRequestLog] does not split the latency into [{seconds: 0, nanos:
    0}]: the entry's [latency] is [undefined], and a latency that the request
    already had is overwritten. *)
Theorem writeRequestLog_zero_latency (this : LoggingCommon.t)
  (trace spanId : option string) (traceSampled : option bool) :
  let e := writeRequestLog_entry this request_get trace spanId traceSampled
             (Some 0) in
  request_get !! "latency"
  = Some (VObj (<["seconds" := VNum 0]> (<["nanos" := VNum 0]> ∅))) /\
  LogEntry.httpRequest (metadata e) ≫= (.!! "latency") = Some VUndef /\
  LogEntry.httpRequest (metadata e) ≫= (.!! "latency")
  <> Some (VObj (<["seconds" := VNum (0 / 1000)]>
                 (<["nanos" := VNum (0 mod 1000 * 10 ^ 6)]> ∅))).
Proof. simpl. split; [reflexivity|]. split; [reflexivity|discriminate]. Qed.

(** ** writeLog: callbacks and propagation *)

Lemma call_if_set_returns (ev : option JsError -> Event) (f : option Callback)
  (arg : option JsError) (h : list Event) :
  returns_normally f ->
  call_if_set ev f arg h
  = (h ++ match f with Some _ => [ev arg] | None => [] end, Returned tt).
Proof.
  intros Hf. unfold call_if_set. destruct f as [g|].
  - unfold mbind, M_bind, emit. rewrite (Hf g eq_refl arg). reflexivity.
  - unfold mret, M_ret. by rewrite app_nil_r.
Qed.

(** [writeLog] with callbacks that return normally: the history and the
    outcome, by the result of the sink. *)
Lemma writeLog_quiet_callbacks (this : LoggingCommon.t) (sink : Sink)
  (agent : option Trace.TraceAgent) (o : PinoLogObject.t)
  (callback : option Callback) (h : list Event) :
  returns_normally callback ->
  returns_normally (defaultCallback this) ->
  let entry := writeLog_entry this agent o in
  let mode := if redirectToStdout this then Synchronous else Awaited in
  writeLog this sink agent o callback h
  = match sink h entry with
    | None =>
        (h ++ EvWrite mode entry None
             :: callback_events callback (defaultCallback this) None,
         Returned tt)
    | Some t =>
        (h ++ EvWrite mode entry (Some t)
             :: callback_events callback (defaultCallback this)
                  (Some (as_error t)),
         Threw (ThrowError (as_error t)))
    end.
Proof.
  intros Hcb Hdef entry mode.
  unfold writeLog. fold entry.
  assert ((if redirectToStdout this
           then cloudLog_write sink Synchronous entry
           else cloudLog_write sink Awaited entry)
          = cloudLog_write sink mode entry) as ->
    by (subst mode; by destruct (redirectToStdout this)).
  unfold try_catch, mbind, M_bind, cloudLog_write, callback_events.
  destruct (sink h entry) as [t|].
  - rewrite !call_if_set_returns by assumption.
    unfold throw. by rewrite <- !app_assoc.
  - rewrite !call_if_set_returns by assumption.
    by rewrite <- !app_assoc.
Qed.

(** C4 (amended). When the callbacks themselves return normally: if the
    sink write succeeds, the per-call callback (when given) and the default
    callback (when configured) are each called once with [null], and
    [writeLog] returns; if the sink write fails, both are called once with
    the error and the error is then thrown to the caller.  So [writeLog]
    fails exactly when the sink write fails. *)
Theorem writeLog_callbacks (this : LoggingCommon.t) (sink : Sink)
  (agent : option Trace.TraceAgent) (o : PinoLogObject.t)
  (callback : option Callback) (h : list Event) :
  returns_normally callback ->
  returns_normally (defaultCallback this) ->
  let entry := writeLog_entry this agent o in
  let mode := if redirectToStdout this then Synchronous else Awaited in
  let run := writeLog this sink agent o callback h in
  (sink h entry = None ->
     run = (h ++ EvWrite mode entry None
               :: callback_events callback (defaultCallback this) None,
            Returned tt)) /\
  (forall t : Thrown, sink h entry = Some t ->
     run = (h ++ EvWrite mode entry (Some t)
               :: callback_events callback (defaultCallback this)
                    (Some (as_error t)),
            Threw (ThrowError (as_error t)))) /\
  (run.2 = Returned tt <-> sink h entry = None).
Proof.
  intros Hcb Hdef entry mode run.
  pose proof (writeLog_quiet_callbacks this sink agent o callback h Hcb Hdef)
    as Hrun.
  cbv zeta in Hrun. subst entry mode run.
  revert Hrun.
  destruct (sink h (writeLog_entry this agent o)) as [t|]; intros ->.
  - split; [discriminate|]. split; [by intros t' [= <-]|]. by split.
  - split; [reflexivity|]. split; [discriminate|]. by split.
Qed.

Lemma writeLog_callbacks_witness :
  let this := new (options_with None None (Some callback_quiet)) in
  let o := record_of 30 (Some "m") None None ∅ in
  writeLog this sink_ok None o (Some callback_quiet) []
  = ([EvWrite Awaited (writeLog_entry this None o) None;
      EvCallback None; EvDefaultCallback None], Returned tt).
Proof.
  intros this o.
  destruct (writeLog_callbacks this sink_ok None o (Some callback_quiet) [])
    as (H & _ & _).
  - intros g [= <-] a. reflexivity.
  - intros g [= <-] a. reflexivity.
  - apply H. reflexivity.
Defined.

(** C4 fails as stated: the sink accepts the write, the per-call callback
    throws on [null], and [writeLog] fails; the default callback is never
    called with [null], and both callbacks are called with the callback's
    own error. *)
Lemma writeLog_callback_throws :
  let this := new (options_with None None (Some callback_quiet)) in
  let o := record_of 30 (Some "m") None None ∅ in
  let e := writeLog_entry this None o in
  sink_ok [] e = None /\
  writeLog this sink_ok None o (Some callback_throws) []
  = ([EvWrite Awaited e None;
      EvCallback None;
      EvCallback (Some (MkError "callback failed"));
      EvDefaultCallback (Some (MkError "callback failed"))],
     Threw (ThrowError (MkError "callback failed"))).
Proof. split; reflexivity. Qed.

(** ** The transport loop *)

Lemma writes_app (h1 h2 : list Event) : writes (h1 ++ h2) = writes h1 ++ writes h2.
Proof. apply omap_app. Qed.

Lemma reported_app (h1 h2 : list Event) :
  reported (h1 ++ h2) = reported h1 ++ reported h2.
Proof. apply omap_app. Qed.

Lemma delivered_of_app (ws1 ws2 : list (Entry * option Thrown)) :
  delivered_of (ws1 ++ ws2) = delivered_of ws1 ++ delivered_of ws2.
Proof. apply omap_app. Qed.

Lemma rejections_of_app (ws1 ws2 : list (Entry * option Thrown)) :
  rejections_of (ws1 ++ ws2) = rejections_of ws1 ++ rejections_of ws2.
Proof. apply omap_app. Qed.

Lemma delivered_of_cons (e : Entry) (f : option Thrown)
  (ws : list (Entry * option Thrown)) :
  delivered_of ((e, f) :: ws)
  = match f with None => e :: delivered_of ws | Some _ => delivered_of ws end.
Proof. by destruct f. Qed.

Lemma rejections_of_cons (e : Entry) (f : option Thrown)
  (ws : list (Entry * option Thrown)) :
  rejections_of ((e, f) :: ws)
  = match f with Some t => t :: rejections_of ws | None => rejections_of ws end.
Proof. by destruct f. Qed.

(** Every attempted write is delivered or rejected. *)
Lemma delivered_rejections_length (ws : list (Entry * option Thrown)) :
  (length (delivered_of ws) + length (rejections_of ws) = length ws)%nat.
Proof.
  induction ws as [|[e [t|]] ws IH]; [reflexivity| |];
    rewrite delivered_of_cons, rejections_of_cons; simpl; lia.
Qed.

(** The delivered entries are among the attempted ones, in their order. *)
Lemma delivered_sublist (ws : list (Entry * option Thrown)) :
  sublist (delivered_of ws) (fst <$> ws).
Proof.
  induction ws as [|[e [t|]] ws IH]; [constructor| |];
    rewrite delivered_of_cons, fmap_cons; simpl.
  - by apply sublist_cons.
  - by apply sublist_skip.
Qed.

Lemma delivered_all (ws : list (Entry * option Thrown)) :
  rejections_of ws = [] -> delivered_of ws = fst <$> ws.
Proof.
  induction ws as [|[e [t|]] ws IH]; [reflexivity| |];
    rewrite delivered_of_cons, rejections_of_cons, fmap_cons; simpl; intros H.
  - discriminate.
  - f_equal. by apply IH.
Qed.

Lemma rejections_lookup (ws : list (Entry * option Thrown)) (k : nat)
  (e : Entry) (t : Thrown) :
  ws !! k = Some (e, Some t) -> rejections_of ws <> [].
Proof.
  revert k. induction ws as [|[e' [t'|]] ws IH]; intros k Hk;
    [discriminate| |]; rewrite rejections_of_cons.
  - discriminate.
  - destruct k as [|k]; [discriminate|]. by eapply IH.
Qed.

(** With a single rejection, at position [k], the delivered entries are the
    attempted ones without the [k]-th. *)
Lemma delivered_but_one (ws : list (Entry * option Thrown)) (k : nat)
  (e : Entry) (t : Thrown) :
  ws !! k = Some (e, Some t) -> length (rejections_of ws) = 1%nat ->
  delivered_of ws = delete k (fst <$> ws).
Proof.
  revert k. induction ws as [|[e' [t'|]] ws IH]; intros k Hk Hlen;
    [discriminate| |];
    rewrite delivered_of_cons; rewrite rejections_of_cons in Hlen;
    rewrite fmap_cons; cbn [length] in Hlen.
  - destruct k as [|k]; simpl.
    + apply delivered_all.
      destruct (rejections_of ws); [reflexivity | simpl in Hlen; lia].
    + exfalso. simpl in Hk. apply rejections_lookup in Hk.
      destruct (rejections_of ws); [congruence | simpl in Hlen; lia].
  - destruct k as [|k]; [discriminate|]. simpl in Hk |- *. f_equal.
    by eapply IH.
Qed.

Section Quiet.

Context {A B : Type}.

Lemma quiet_mret (a : A) : quiet (mret a).
Proof. intros h. exists [], (Returned a). by rewrite app_nil_r. Qed.

Lemma quiet_throw (t : Thrown) : quiet (@throw A t).
Proof. intros h. exists [], (Threw t). by rewrite app_nil_r. Qed.

Lemma quiet_bind (m : M A) (k : A -> M B) :
  quiet m -> (forall a, quiet (k a)) -> quiet (m ≫= k).
Proof.
  intros Hm Hk h. unfold mbind, M_bind.
  destruct (Hm h) as (evs1 & out1 & -> & Hw1 & Hr1).
  destruct out1 as [a|t].
  - destruct (Hk a (h ++ evs1)) as (evs2 & out2 & -> & Hw2 & Hr2).
    exists (evs1 ++ evs2), out2.
    by rewrite app_assoc, writes_app, reported_app, Hw1, Hw2, Hr1, Hr2.
  - by exists evs1, (Threw t).
Qed.

Lemma always_throws_throw (t : Thrown) : always_throws (@throw A t).
Proof. intros h. by exists t. Qed.

Lemma always_throws_bind (m : M A) (k : A -> M B) :
  (forall a, always_throws (k a)) -> always_throws (m ≫= k).
Proof.
  intros Hk h. unfold mbind, M_bind.
  destruct (m h) as [h' [a|t]]; [apply Hk | by exists t].
Qed.

End Quiet.

(** A call of an optional callback leaves no write and no report behind. *)
Lemma quiet_call_if_set (ev : option JsError -> Event) (f : option Callback)
  (arg : option JsError) :
  ev = EvCallback \/ ev = EvDefaultCallback -> quiet (call_if_set ev f arg).
Proof.
  intros Hev. unfold call_if_set. destruct f as [g|]; [|apply quiet_mret].
  apply quiet_bind.
  - intros h. exists [ev arg], (Returned tt).
    by destruct Hev as [-> | ->].
  - intros _. destruct (g arg); [apply quiet_throw | apply quiet_mret].
Qed.

(** The [catch] block of [writeLog] is quiet, and it always rethrows. *)
Lemma writeLog_handler (this : LoggingCommon.t) (callback : option Callback)
  (err : Thrown) :
  let handler :=
    call_if_set EvCallback callback (Some (as_error err)) ;;
    call_if_set EvDefaultCallback (defaultCallback this) (Some (as_error err)) ;;
    @throw unit (ThrowError (as_error err)) in
  quiet handler /\ always_throws handler.
Proof.
  split.
  - apply quiet_bind; [apply quiet_call_if_set; by left|]. intros _.
    apply quiet_bind; [apply quiet_call_if_set; by right|]. intros _.
    apply quiet_throw.
  - apply always_throws_bind. intros _. apply always_throws_bind. intros _.
    apply always_throws_throw.
Qed.

(** One call of [writeLog], whatever the sink and the callbacks do: a single
    write of the record's entry is attempted, nothing is reported, and the
    call can only return when the sink accepted the write. *)
Lemma writeLog_run (this : LoggingCommon.t) (sink : Sink)
  (agent : option Trace.TraceAgent) (o : PinoLogObject.t)
  (callback : option Callback) (h : list Event) :
  let entry := writeLog_entry this agent o in
  exists evs out, writeLog this sink agent o callback h = (h ++ evs, out) /\
    writes evs = [(entry, sink h entry)] /\
    reported evs = [] /\
    (out = Returned tt -> sink h entry = None).
Proof.
  intros entry. unfold writeLog. fold entry.
  set (mode := if redirectToStdout this then Synchronous else Awaited).
  assert ((if redirectToStdout this
           then cloudLog_write sink Synchronous entry
           else cloudLog_write sink Awaited entry)
          = cloudLog_write sink mode entry) as ->
    by (subst mode; by destruct (redirectToStdout this)).
  assert (quiet (call_if_set EvCallback callback None ;;
                 call_if_set EvDefaultCallback (defaultCallback this) None))
    as Hrest.
  { apply quiet_bind; [apply quiet_call_if_set; by left|]. intros _.
    apply quiet_call_if_set. by right. }
  assert (forall (err : Thrown) (h1 : list Event) (w : list (Entry * option Thrown)),
    writes h1 = w -> reported h1 = [] ->
    exists evs t,
      (call_if_set EvCallback callback (Some (as_error err)) ;;
       call_if_set EvDefaultCallback (defaultCallback this)
         (Some (as_error err)) ;;
       @throw unit (ThrowError (as_error err))) (h ++ h1)
      = (h ++ evs, Threw t) /\ writes evs = w /\ reported evs = [])
    as Hcatch.
  { intros err h1 w Hw1 Hr1.
    destruct (writeLog_handler this callback err) as [Hq Ht].
    destruct (Hq (h ++ h1)) as (evs & out & Hrun & Hw & Hr).
    destruct (Ht (h ++ h1)) as (t & Hout).
    rewrite Hrun in Hout. simpl in Hout. subst out.
    exists (h1 ++ evs), t.
    by rewrite Hrun, app_assoc, writes_app, reported_app, Hw, Hr, Hw1, Hr1,
      !app_nil_r. }
  unfold try_catch. unfold mbind at 1, M_bind at 1. unfold cloudLog_write.
  destruct (sink h entry) as [t|].
  - destruct (Hcatch t [EvWrite mode entry (Some t)] [(entry, Some t)]
                eq_refl eq_refl) as (evs & t' & -> & Hw & Hr).
    by exists evs, (Threw t').
  - destruct (Hrest (h ++ [EvWrite mode entry None]))
      as (evs1 & out1 & -> & Hw1 & Hr1).
    destruct out1 as [[]|t1].
    + exists ([EvWrite mode entry None] ++ evs1), (Returned tt).
      by rewrite app_assoc, writes_app, reported_app, Hw1, Hr1.
    + rewrite <- app_assoc.
      destruct (Hcatch t1 ([EvWrite mode entry None] ++ evs1) [(entry, None)])
        as (evs & t' & -> & Hw & Hr).
      * by rewrite writes_app, Hw1.
      * by rewrite reported_app, Hr1.
      * by exists evs, (Threw t').
Qed.

(** One turn of the loop: the record's write is attempted, the turn always
    returns, and a failed [writeLog] is reported once. *)
Lemma consume_turn (loggingCommon : LoggingCommon.t) (sink : Sink)
  (agent : option Trace.TraceAgent) (obj : PinoLogObject.t) (h : list Event) :
  let entry := writeLog_entry loggingCommon agent obj in
  exists evs,
    try_catch (writeLog loggingCommon sink agent obj None)
      (λ err, emit (EvConsoleError Transport.TRANSPORT_ERROR err)) h
    = (h ++ evs, Returned tt) /\
    writes evs = [(entry, sink h entry)] /\
    (length (rejections evs) <= length (reported evs) <= 1)%nat /\
    (returns_normally (defaultCallback loggingCommon) ->
       reported evs = (λ t, ThrowError (as_error t)) <$> rejections evs).
Proof.
  intros entry.
  destruct (writeLog_run loggingCommon sink agent obj None h)
    as (evs & out & Hrun & Hw & Hr & Hout).
  fold entry in Hw, Hout.
  assert (returns_normally (defaultCallback loggingCommon) ->
          out = match sink h entry with
                | None => Returned tt
                | Some t => Threw (ThrowError (as_error t))
                end) as Hquiet.
  { intros Hdef.
    pose proof (writeLog_quiet_callbacks loggingCommon sink agent obj None h)
      as Hc.
    cbv zeta in Hc. rewrite Hrun in Hc. fold entry in Hc.
    specialize (Hc ltac:(intros g [=]) Hdef).
    destruct (sink h entry); by injection Hc. }
  unfold try_catch. rewrite Hrun.
  destruct out as [[]|t].
  - exists evs. split; [reflexivity|]. split; [exact Hw|].
    unfold rejections. rewrite Hw, Hr, (Hout eq_refl). simpl.
    split; [lia|]. reflexivity.
  - exists (evs ++ [EvConsoleError Transport.TRANSPORT_ERROR t]).
    unfold emit. rewrite app_assoc. split; [reflexivity|].
    unfold rejections.
    rewrite writes_app, reported_app, Hw, Hr. simpl.
    split; [reflexivity|]. split.
    + destruct (sink h entry); simpl; lia.
    + intros Hdef. specialize (Hquiet Hdef).
      destruct (sink h entry) as [t'|]; [|discriminate].
      by injection Hquiet as ->.
Qed.

Lemma consume_run (loggingCommon : LoggingCommon.t) (sink : Sink)
  (agent : option Trace.TraceAgent) (source : list PinoLogObject.t) :
  forall h : list Event,
  exists new,
    Transport.consume loggingCommon sink agent source h = (h ++ new, Returned tt) /\
    fst <$> writes new = writeLog_entry loggingCommon agent <$> source /\
    (length (rejections new) <= length (reported new) <= length source)%nat /\
    (returns_normally (defaultCallback loggingCommon) ->
       reported new = (λ t, ThrowError (as_error t)) <$> rejections new).
Proof.
  induction source as [|obj source IH]; intros h.
  - exists []. simpl. unfold mret, M_ret. rewrite app_nil_r.
    repeat split; try done; simpl; lia.
  - destruct (consume_turn loggingCommon sink agent obj h)
      as (evs & Hturn & Hw & Hlen & Hrep).
    destruct (IH (h ++ evs)) as (new & Hrun & Hw' & Hlen' & Hrep').
    exists (evs ++ new).
    cbn [Transport.consume]. unfold mbind, M_bind.
    cbv zeta. rewrite Hturn, Hrun, app_assoc.
    split; [reflexivity|].
    unfold rejections in *.
    rewrite writes_app, reported_app, rejections_of_app, fmap_app, !length_app.
    split; [rewrite Hw; simpl; f_equal; exact Hw'|].
    split; [simpl; lia|].
    intros Hdef. by rewrite fmap_app, Hrep, Hrep'.
Qed.

(** C9. Run on any finite stream, with any sink and any callbacks, the
    transport loop completes without throwing; the write of every record is
    attempted, in arrival order, whatever happened to the records before it;
    the delivered entries are the attempted ones that the sink accepted, in
    order; every sink rejection is reported to the standard error stream (and
    nothing else is, when the default callback returns normally); and when
    the sink rejects one write only, that of the record at position [k], the
    other [N - 1] records are delivered in arrival order. *)
Theorem transport_isolates_failures (options : TransportOptions.t)
  (sink : Sink) (agent : option Trace.TraceAgent)
  (source : list PinoLogObject.t) (h : list Event) :
  let loggingCommon := new options in
  let entries := writeLog_entry loggingCommon agent <$> source in
  let run := Transport.createTransport options sink agent source h in
  let new := drop (length h) run.1 in
  run = (h ++ new, Returned tt) /\
  fst <$> writes new = entries /\
  sublist (delivered new) entries /\
  (length (delivered new) + length (rejections new) = length source)%nat /\
  (length (rejections new) <= length (reported new) <= length source)%nat /\
  (returns_normally (defaultCallback loggingCommon) ->
     reported new = (λ t, ThrowError (as_error t)) <$> rejections new) /\
  (forall (k : nat) (e : Entry) (t : Thrown),
     writes new !! k = Some (e, Some t) ->
     length (rejections new) = 1%nat ->
     delivered new = delete k entries /\
     length (delivered new) = (length source - 1)%nat).
Proof.
  intros loggingCommon entries run new.
  destruct (consume_run loggingCommon sink agent source h)
    as (new' & Hrun & Hw & Hlen & Hrep).
  assert (run = (h ++ new', Returned tt)) as Hrun' by exact Hrun.
  assert (new = new') as ->.
  { subst new. rewrite Hrun'. simpl. by rewrite drop_app_length. }
  pose proof (delivered_rejections_length (writes new')) as Hsum.
  assert (length (writes new') = length source) as Hn.
  { rewrite <- (length_fmap fst), Hw. subst entries. by rewrite length_fmap. }
  subst entries.
  split; [exact Hrun'|]. split; [exact Hw|].
  split; [rewrite <- Hw; apply delivered_sublist|].
  unfold delivered, rejections in *.
  split; [lia|]. split; [exact Hlen|]. split; [exact Hrep|].
  intros k e t Hk Hone. split.
  - rewrite <- Hw. by eapply delivered_but_one.
  - lia.
Qed.

Lemma transport_isolates_failures_witness :
  let run := Transport.createTransport no_options sink_rejects_second None
               three_records [] in
  let entries := writeLog_entry (new no_options) None <$> three_records in
  run.2 = Returned tt /\
  delivered run.1 = delete 1%nat entries /\
  length (delivered run.1) = 2%nat /\
  reported run.1 = [ThrowError (MkError "quota exceeded")].
Proof.
  intros run entries.
  destruct (transport_isolates_failures no_options sink_rejects_second None
              three_records [])
    as (Hrun & _ & _ & _ & _ & Hrep & Hone).
  change (drop (length []) ?l) with l in *.
  fold run in Hrun, Hrep, Hone.
  destruct (Hone 1%nat (writeLog_entry (new no_options) None
                          (record_of 40 (Some "second") None None ∅))
              (ThrowOther "quota exceeded")) as (Hdel & Hlen).
  { vm_compute. reflexivity. }
  { vm_compute. reflexivity. }
  split; [by rewrite Hrun|]. split; [exact Hdel|]. split; [exact Hlen|].
  rewrite Hrep.
  - vm_compute. reflexivity.
  - intros g [=].
Defined.

(** ** parseTraceHeader *)

Lemma app_String (c : ascii) (a b : string) :
  String c a +:+ b = String c (a +:+ b).
Proof. reflexivity. Qed.

Lemma app_empty (b : string) : "" +:+ b = b.
Proof. reflexivity. Qed.

Lemma span_app (p : ascii -> bool) (a b : string) :
  all_chars p a = true -> starts_outside p b ->
  Trace.span p (a +:+ b) = (a, b).
Proof.
  intros Ha Hb. induction a as [|c a IH].
  - rewrite app_empty. destruct b as [|c b]; [reflexivity|].
    simpl in *. by rewrite Hb.
  - rewrite app_String. simpl in *.
    apply andb_true_iff in Ha as [-> Ha]. by rewrite IH.
Qed.

Lemma span_sound (p : ascii -> bool) (s a b : string) :
  Trace.span p s = (a, b) -> s = a +:+ b /\ all_chars p a = true.
Proof.
  revert a b. induction s as [|c s IH]; intros a b; simpl.
  - by intros [= <- <-].
  - destruct (p c) eqn:Hc.
    + destruct (Trace.span p s) as [a' b'] eqn:Hs. intros [= <- <-].
      destruct (IH a' b' eq_refl) as [-> Ha]. simpl. by rewrite Hc.
    + by intros [= <- <-].
Qed.

Lemma truthy_str_ne (s : string) : truthy_str s = true <-> s <> "".
Proof. by destruct s. Qed.

(** The scanner finds a match exactly when the header is in the language,
    and then with the same captures. *)
Lemma header_match_complete (h traceId : string) (spanId traceSampled : option string) :
  header_matches h traceId spanId traceSampled ->
  Trace.header_match h = Some (traceId, spanId, traceSampled).
Proof.
  intros (text2 & text3 & [Hne Hhex] & Hspan & Hflag & ->).
  assert (starts_outside Trace.is_hex text3 /\ starts_outside Trace.is_digit text3
          /\ Trace.match_flag_group text3 = (traceSampled, "")
          /\ (text3 = "" \/ exists r, text3 = String ";"%char r))
    as (Hh3 & Hd3 & Hm3 & Hs3).
  { destruct traceSampled as [f|]; simpl in Hflag.
    - destruct Hflag as (o & d & Ho & Hd & -> & ->).
      repeat split; try reflexivity; [|by eauto].
      unfold Trace.match_flag_group, Trace.is_o. rewrite Hd.
      destruct Ho as [-> | ->]; reflexivity.
    - subst. repeat split. by left. }
  unfold Trace.header_match.
  assert (Trace.span Trace.is_hex (traceId +:+ text2 +:+ text3)
          = (traceId, text2 +:+ text3)) as ->.
  { apply span_app; [done|].
    destruct spanId as [d|]; simpl in Hspan.
    - destruct Hspan as (_ & _ & ->). reflexivity.
    - subst. by rewrite app_empty. }
  rewrite (proj2 (truthy_str_ne traceId) Hne).
  assert (Trace.match_span_group (text2 +:+ text3) = (spanId, text3)) as ->.
  { destruct spanId as [d|]; simpl in Hspan.
    - destruct Hspan as (Hd & Hdig & ->).
      change (("/" +:+ d) +:+ text3) with (String "/"%char (d +:+ text3)).
      unfold Trace.match_span_group.
      change (Trace.is_slash "/"%char) with true. cbv iota.
      rewrite (span_app _ _ _ Hdig Hd3).
      by rewrite (proj2 (truthy_str_ne d) Hd).
    - subst. rewrite app_empty.
      destruct Hs3 as [-> | [r ->]]; reflexivity. }
  by rewrite Hm3.
Qed.

Lemma header_match_sound (h traceId : string) (spanId traceSampled : option string) :
  Trace.header_match h = Some (traceId, spanId, traceSampled) ->
  header_matches h traceId spanId traceSampled.
Proof.
  unfold Trace.header_match.
  destruct (Trace.span Trace.is_hex h) as [tid r1] eqn:Hspan1.
  destruct (truthy_str tid) eqn:Htid; [|discriminate].
  destruct (Trace.match_span_group r1) as [sp r2] eqn:Hg2.
  destruct (Trace.match_flag_group r2) as [fl r3] eqn:Hg3.
  destruct r3; [|discriminate]. intros [= <- <- <-].
  apply span_sound in Hspan1 as [-> Hhex].
  assert (exists text2, span_part sp text2 /\ r1 = text2 +:+ r2) as (text2 & Hp2 & ->).
  { unfold Trace.match_span_group in Hg2.
    destruct r1 as [|c r1]; [injection Hg2 as <- <-; by exists ""|].
    destruct (Trace.is_slash c) eqn:Hc; [|injection Hg2 as <- <-; by exists ""].
    apply Ascii.eqb_eq in Hc as ->.
    destruct (Trace.span Trace.is_digit r1) as [d rest] eqn:Hd.
    apply span_sound in Hd as [-> Hdig].
    destruct (truthy_str d) eqn:Htd; injection Hg2 as <- <-.
    - exists ("/" +:+ d). split; [|reflexivity].
      split; [by apply truthy_str_ne|]. by split.
    - by exists "". }
  assert (flag_part fl r2) as Hp3.
  { unfold Trace.match_flag_group in Hg3.
    destruct r2 as [|c1 [|c2 [|c3 [|d rest]]]];
      try discriminate; [by injection Hg3 as <-|].
    destruct (Trace.is_semicolon c1 && Trace.is_o c2 && Trace.is_equals c3
              && Trace.is_digit d) eqn:Hb; [|discriminate].
    injection Hg3 as <- ->.
    apply andb_true_iff in Hb as [Hb Hd].
    apply andb_true_iff in Hb as [Hb H3].
    apply andb_true_iff in Hb as [H1 H2].
    apply Ascii.eqb_eq in H1 as ->. apply Ascii.eqb_eq in H3 as ->.
    exists c2, d. split; [|by split].
    apply orb_true_iff in H2 as [H2|H2]; apply Ascii.eqb_eq in H2; auto. }
  exists text2, r2. split; [|by split].
  split; [by apply truthy_str_ne|done].
Qed.

(** C5. [parseTraceHeader] is a total function (it cannot throw).  It
    returns [{trace: null, spanId: null, sampled: false}] when the header or
    the project id is empty, and when the header is not in the language of
    [/^([a-f0-9]+)(?:\/(\d+))?(?:;o=(\d))?$/i].  When the header matches, the
    trace is [projects/{projectId}/traces/{traceId}], the span id is the
    captured decimal string, or null when that group is absent, and
    [sampled] is true exactly when the captured flag is ["1"]. *)
Theorem parseTraceHeader_spec (header projectId : string) :
  (header = "" \/ projectId = "" ->
     Trace.parseTraceHeader header projectId = null_result) /\
  ((forall traceId spanId traceSampled,
      ~ header_matches header traceId spanId traceSampled) ->
     Trace.parseTraceHeader header projectId = null_result) /\
  (forall traceId spanId traceSampled,
     projectId <> "" ->
     header_matches header traceId spanId traceSampled ->
     Trace.parseTraceHeader header projectId
     = {| Trace.trace :=
            Some ("projects/" +:+ projectId +:+ "/traces/" +:+ traceId);
          Trace.spanId := spanId;
          Trace.sampled := bool_decide (traceSampled = Some "1") |}).
Proof.
  split; [|split].
  - unfold Trace.parseTraceHeader. by intros [-> | ->]; [|rewrite orb_true_r].
  - intros Hno. unfold Trace.parseTraceHeader.
    destruct (negb (truthy_str header) || negb (truthy_str projectId));
      [reflexivity|].
    destruct (Trace.header_match header) as [[[tid sp] fl]|] eqn:Hm;
      [|reflexivity].
    apply header_match_sound in Hm. by destruct (Hno tid sp fl).
  - intros tid sp fl Hp Hm.
    pose proof Hm as (text2 & text3 & [Hne _] & Hspan & _ & Hh).
    assert (header <> "") as Hheader.
    { rewrite Hh. destruct tid; [done|]. by rewrite app_String. }
    apply header_match_complete in Hm.
    unfold Trace.parseTraceHeader. rewrite Hm.
    rewrite (proj2 (truthy_str_ne header) Hheader).
    rewrite (proj2 (truthy_str_ne projectId) Hp).
    rewrite (proj2 (truthy_str_ne tid) Hne). simpl.
    destruct sp as [d|]; [|reflexivity].
    destruct Hspan as (Hd & _). simpl.
    by rewrite (proj2 (truthy_str_ne d) Hd).
Qed.

Lemma parseTraceHeader_spec_witness :
  Trace.parseTraceHeader "" "proj" = null_result /\
  Trace.parseTraceHeader "not-hex!!" "proj" = null_result /\
  Trace.parseTraceHeader "abc123/456;o=1" "proj"
  = {| Trace.trace := Some "projects/proj/traces/abc123";
       Trace.spanId := Some "456";
       Trace.sampled := true |} /\
  Trace.parseTraceHeader "abc123" "proj"
  = {| Trace.trace := Some "projects/proj/traces/abc123";
       Trace.spanId := None;
       Trace.sampled := false |}.
Proof.
  split; [|split; [|split]].
  - destruct (parseTraceHeader_spec "" "proj") as (H & _ & _).
    apply H. left. reflexivity.
  - destruct (parseTraceHeader_spec "not-hex!!" "proj") as (_ & H & _).
    apply H. intros tid sp fl Hm. apply header_match_complete in Hm.
    vm_compute in Hm. discriminate.
  - destruct (parseTraceHeader_spec "abc123/456;o=1" "proj") as (_ & _ & H).
    apply (H "abc123" (Some "456") (Some "1")); [discriminate|].
    exists "/456", ";o=1". split; [split; [discriminate|reflexivity]|].
    split; [split; [discriminate|split; reflexivity]|].
    split; [|reflexivity].
    exists "o"%char, "1"%char. split; [by left|]. by repeat split.
  - destruct (parseTraceHeader_spec "abc123" "proj") as (_ & _ & H).
    apply (H "abc123" None None); [discriminate|].
    exists "", "". split; [split; [discriminate|reflexivity]|].
    by repeat split.
Defined.

(** * Further properties *)

(** ** Levels and severities *)

(** X1. [mapLevel] agrees with the table [PINO_TO_CLOUD_SEVERITY] on every
    level of the table, every level of [PINO_LEVELS] is in the table, and
    [mapLevel] only ever yields CRITICAL, ERROR, WARNING, INFO or DEBUG. *)
Theorem mapLevel_agrees_with_table :
  (forall (L : Z) (sev : CloudLoggingSeverity),
     PINO_TO_CLOUD_SEVERITY !! L = Some sev -> mapLevel L = sev) /\
  (forall (name : string) (L : Z),
     (name, L) ∈ PINO_LEVELS -> is_Some (PINO_TO_CLOUD_SEVERITY !! L)) /\
  (forall L : Z,
     mapLevel L ∈ [CRITICAL; ERROR; WARNING; INFO; DEBUG]).
Proof.
  split; [|split].
  - intros L sev. unfold PINO_TO_CLOUD_SEVERITY.
    rewrite !lookup_insert, lookup_empty.
    repeat case_decide; subst; intros [= <-]; reflexivity.
  - intros name L HL. unfold PINO_LEVELS in HL.
    repeat (apply elem_of_cons in HL as [[= -> ->]|HL];
            [by eexists|]).
    by apply elem_of_nil in HL.
  - intros L. unfold mapLevel.
    repeat match goal with
           | |- context [?a <=? ?b] => destruct (a <=? b)
           end; set_solver.
Qed.

Lemma mapLevel_agrees_with_table_witness :
  mapLevel 20 = DEBUG /\ is_Some (PINO_TO_CLOUD_SEVERITY !! 40).
Proof.
  destruct mapLevel_agrees_with_table as (Htable & Hlevels & _).
  split.
  - apply Htable. reflexivity.
  - apply (Hlevels "warn"). unfold PINO_LEVELS. set_solver.
Defined.

(** ** The envelope and the body of writeLog *)

(** X2. The labels of an entry are the configured labels overridden by the
    record's labels, key by key; the entry has no labels at all exactly when
    both are absent or empty. *)
Theorem writeLog_labels (this : LoggingCommon.t)
  (agent : option Trace.TraceAgent) (o : PinoLogObject.t) :
  let own := default ∅ (PinoLogObject.labels o) in
  let configured := default ∅ (labels this) in
  let sent := LogEntry.labels (metadata (writeLog_entry this agent o)) in
  (sent = None <-> own = ∅ /\ configured = ∅) /\
  (forall merged : gmap string string, sent = Some merged ->
     forall k : string,
       merged !! k = match own !! k with
                     | Some v => Some v
                     | None => configured !! k
                     end).
Proof.
  intros own configured sent. subst sent. unfold writeLog_entry. simpl.
  unfold merge_labels. fold own configured.
  destruct (0 <? size (own ∪ configured))%nat eqn:Hsize.
  - apply Nat.ltb_lt in Hsize. split.
    + split; [discriminate|]. intros [Ho Hc]. rewrite Ho, Hc in Hsize.
      rewrite (left_id_L ∅ (∪)), map_size_empty in Hsize. lia.
    + intros merged [= <-] k. rewrite lookup_union.
      destruct (own !! k), (configured !! k); reflexivity.
  - apply Nat.ltb_ge in Hsize.
    assert (own ∪ configured = ∅) as Hempty
      by (apply map_size_empty_iff; lia).
    split; [|discriminate].
    split; [|reflexivity]. intros _.
    by apply map_positive_l in Hempty as Ho; rewrite Ho, (left_id_L ∅ (∪)) in Hempty.
Qed.

Lemma writeLog_labels_witness :
  LogEntry.labels (metadata (writeLog_entry (new no_options) None
                               (record_of 30 None None None ∅))) = None.
Proof.
  destruct (writeLog_labels (new no_options) None
              (record_of 30 None None None ∅)) as ((_ & H) & _).
  apply H. split; reflexivity.
Defined.

(** X3. The payload's [message] is the formatted message when the message
    field is enabled and the formatted message is not empty, whatever
    [message] field the record has itself; otherwise the record's own
    [message] field, if any, is passed through. *)
Theorem writeLog_message_field (this : LoggingCommon.t)
  (agent : option Trace.TraceAgent) (o : PinoLogObject.t) :
  let payload := data (writeLog_entry this agent o) in
  let m := formatMessage this o in
  (useMessageField this = true -> m <> "" ->
     payload !! "message" = Some (VStr m)) /\
  (useMessageField this = false \/ m = "" ->
     payload !! "message" = PinoLogObject.extra o !! "message").
Proof.
  intros payload m.
  assert (payload !! "message" = writeLog_body this o !! "message") as ->.
  { subst payload. unfold writeLog_entry. simpl.
    destruct (serviceContext this); [|reflexivity].
    match goal with |- context [if ?b then _ else _] => destruct b end;
      [|reflexivity].
    by rewrite !lookup_insert_ne. }
  unfold writeLog_body. fold m. split.
  - intros -> Hm. destruct m; [done|]. simpl. by rewrite lookup_insert_eq.
  - intros Hoff.
    assert (useMessageField this && truthy_str m = false) as ->.
    { destruct Hoff as [-> | ->]; [reflexivity|apply andb_false_r]. }
    rewrite buildMetadata_lookup. reflexivity.
Qed.

Lemma writeLog_message_field_witness :
  data (writeLog_entry (new no_options) None
          (record_of 30 (Some "m") None None {[ "message" := VNum 7 ]}))
    !! "message" = Some (VStr "m") /\
  data (writeLog_entry (new no_options) None
          (record_of 30 None None None {[ "message" := VNum 7 ]}))
    !! "message" = Some (VNum 7).
Proof.
  split.
  - apply (writeLog_message_field (new no_options) None
             (record_of 30 (Some "m") None None {[ "message" := VNum 7 ]}));
      [reflexivity | discriminate].
  - destruct (writeLog_message_field (new no_options) None
                (record_of 30 None None None {[ "message" := VNum 7 ]}))
      as (_ & H).
    rewrite H; [reflexivity|]. right. reflexivity.
Defined.

(** X4. An entry never carries an empty trace name or an empty span id:
    each is absent or a non-empty string, whatever the record and the trace
    agent hold. *)
Theorem writeLog_entry_trace_nonempty (this : LoggingCommon.t)
  (agent : option Trace.TraceAgent) (o : PinoLogObject.t) :
  LogEntry.trace (metadata (writeLog_entry this agent o)) <> Some "" /\
  LogEntry.spanId (metadata (writeLog_entry this agent o)) <> Some "".
Proof.
  unfold writeLog_entry. simpl. unfold extractTraceInfo.
  pose proof (truthy_opt_str_agent agent) as Hagent.
  destruct (PinoLogObject.trace o) as [[|c t]|];
    destruct (PinoLogObject.spanId o) as [[|c' s]|];
    destruct (PinoLogObject.sampled o) as [b|]; simpl;
    rewrite ?Hagent;
    destruct (Trace.getCurrentTraceFromAgent agent) as [[|ca a]|] eqn:Ha;
    simpl; try (split; discriminate);
    exfalso; rewrite <- Hagent in Ha;
    destruct (Trace.getCurrentTraceFromAgent agent) as [[|? ?]|]; discriminate.
Qed.

(** ** writeRequestLog and the sink *)

(** X5. [writeRequestLog] attempts exactly one write and calls no callback,
    the default callback included; when the sink fails, it throws the sink's
    own failure value, not wrapped in an [Error] as [writeLog] does. *)
Theorem writeRequestLog_run (this : LoggingCommon.t) (sink : Sink)
  (httpRequest : gmap string Value) (trace spanId : option string)
  (traceSampled : option bool) (latencyMs : option Z) (h : list Event) :
  let e := writeRequestLog_entry this httpRequest trace spanId traceSampled
             latencyMs in
  let mode := if redirectToStdout this then Synchronous else Awaited in
  let run := writeRequestLog this sink httpRequest trace spanId traceSampled
               latencyMs h in
  run.1 = h ++ [EvWrite mode e (sink h e)] /\
  run.2 = match sink h e with
          | None => Returned tt
          | Some t => Threw t
          end.
Proof.
  simpl. unfold writeRequestLog, cloudLog_write.
  destruct (redirectToStdout this);
    match goal with |- context [sink h ?e] => destruct (sink h e) end;
    split; reflexivity.
Qed.

(** ** More on the transport loop *)

Lemma consume_returns (loggingCommon : LoggingCommon.t) (sink : Sink)
  (agent : option Trace.TraceAgent) (source : list PinoLogObject.t)
  (h : list Event) :
  (Transport.consume loggingCommon sink agent source h).2 = Returned tt.
Proof.
  destruct (consume_run loggingCommon sink agent source h) as (new & -> & _).
  reflexivity.
Qed.

(** X6. The loop handles a stream piece by piece: running it on
    [s1 ++ s2] is running it on [s1] and then, from the history this leaves,
    on [s2]; a failure in [s1] changes nothing for [s2] but the history the
    sink sees. *)
Theorem consume_app (loggingCommon : LoggingCommon.t) (sink : Sink)
  (agent : option Trace.TraceAgent) (s1 s2 : list PinoLogObject.t)
  (h : list Event) :
  Transport.consume loggingCommon sink agent (s1 ++ s2) h
  = Transport.consume loggingCommon sink agent s2
      (Transport.consume loggingCommon sink agent s1 h).1.
Proof.
  revert h. induction s1 as [|obj s1 IH]; intros h; [reflexivity|].
  cbn [app Transport.consume]. unfold mbind, M_bind.
  destruct (consume_turn loggingCommon sink agent obj h) as (evs & Hturn & _).
  cbv zeta in Hturn. rewrite Hturn. apply IH.
Qed.

Lemma callback_calls_app (h1 h2 : list Event) :
  callback_calls (h1 ++ h2) = callback_calls h1 ++ callback_calls h2.
Proof. apply omap_app. Qed.

Lemma defaultCallback_calls_app (h1 h2 : list Event) :
  defaultCallback_calls (h1 ++ h2)
  = defaultCallback_calls h1 ++ defaultCallback_calls h2.
Proof. apply omap_app. Qed.

(** The calls of the default callback in one turn of the loop, when it
    returns normally. *)
Lemma consume_turn_callbacks (loggingCommon : LoggingCommon.t) (sink : Sink)
  (agent : option Trace.TraceAgent) (obj : PinoLogObject.t) (h : list Event) :
  returns_normally (defaultCallback loggingCommon) ->
  exists evs,
    try_catch (writeLog loggingCommon sink agent obj None)
      (λ err, emit (EvConsoleError Transport.TRANSPORT_ERROR err)) h
    = (h ++ evs, Returned tt) /\
    callback_calls evs = [] /\
    defaultCallback_calls evs
    = match defaultCallback loggingCommon with
      | Some _ =>
          [as_error <$> sink h (writeLog_entry loggingCommon agent obj)]
      | None => []
      end.
Proof.
  intros Hdef.
  pose proof (writeLog_quiet_callbacks loggingCommon sink agent obj None h)
    as Hrun.
  cbv zeta in Hrun. specialize (Hrun ltac:(intros g [=]) Hdef).
  unfold try_catch. rewrite Hrun.
  destruct (sink h (writeLog_entry loggingCommon agent obj)) as [t|].
  - eexists. unfold emit. rewrite <- app_assoc. split; [reflexivity|].
    unfold callback_events. by destruct (defaultCallback loggingCommon).
  - eexists. split; [reflexivity|].
    unfold callback_events. by destruct (defaultCallback loggingCommon).
Qed.

(** X7. When a default callback is configured and returns normally, the
    transport calls it exactly once for every record, in arrival order, with
    [null] for a delivered record and with the error for a rejected one; the
    transport never calls a per-call callback. *)
Theorem transport_default_callback (options : TransportOptions.t)
  (sink : Sink) (agent : option Trace.TraceAgent)
  (source : list PinoLogObject.t) (h : list Event) :
  returns_normally (TransportOptions.defaultCallback options) ->
  let run := Transport.createTransport options sink agent source h in
  let added := drop (length h) run.1 in
  callback_calls added = [] /\
  (TransportOptions.defaultCallback options = None ->
     defaultCallback_calls added = []) /\
  (is_Some (TransportOptions.defaultCallback options) ->
     defaultCallback_calls added = callback_argument <$> writes added /\
     length (defaultCallback_calls added) = length source).
Proof.
  intros Hdef run added.
  set (lc := new options).
  assert (forall h0, exists evs,
    Transport.consume lc sink agent source h0 = (h0 ++ evs, Returned tt) /\
    callback_calls evs = [] /\
    length (writes evs) = length source /\
    defaultCallback_calls evs
    = match defaultCallback lc with
      | Some _ => callback_argument <$> writes evs
      | None => []
      end) as Hall.
  { induction source as [|obj source IH]; intros h0.
    - exists []. cbn [Transport.consume]. unfold mret, M_ret.
      rewrite app_nil_r. split; [reflexivity|]. split; [reflexivity|].
      split; [reflexivity|]. by destruct (defaultCallback lc).
    - destruct (consume_turn_callbacks lc sink agent obj h0 Hdef)
        as (evs & Hturn & Hcb & Hdc).
      destruct (consume_turn lc sink agent obj h0) as (evs' & Hturn' & Hw & _).
      cbv zeta in Hturn'. rewrite Hturn in Hturn'.
      injection Hturn' as Heq%app_inv_head. subst evs'.
      destruct (IH (h0 ++ evs)) as (rest & Hrun & Hcb' & Hlen & Hdc').
      exists (evs ++ rest).
      cbn [Transport.consume]. unfold mbind, M_bind.
      rewrite Hturn, Hrun, app_assoc. split; [reflexivity|].
      rewrite callback_calls_app, defaultCallback_calls_app, writes_app,
        Hcb, Hcb', Hdc, Hdc', Hw, length_app, Hlen.
      split; [reflexivity|]. split; [reflexivity|].
      by destruct (defaultCallback lc). }
  destruct (Hall h) as (evs & Hrun & Hcb & Hlen & Hdc).
  assert (added = evs) as ->.
  { subst added run. unfold Transport.createTransport. fold lc.
    rewrite Hrun. simpl. by rewrite drop_app_length. }
  split; [exact Hcb|].
  change (TransportOptions.defaultCallback options) with (defaultCallback lc).
  split.
  - intros Hnone. by rewrite Hdc, Hnone.
  - intros [f Hf]. rewrite Hdc, Hf. split; [reflexivity|].
    by rewrite length_fmap.
Qed.

Lemma transport_default_callback_witness :
  let opts := options_with None None (Some callback_quiet) in
  let run := Transport.createTransport opts sink_rejects_second None
               three_records [] in
  defaultCallback_calls run.1
  = [None; Some (MkError "quota exceeded"); None].
Proof.
  intros opts run.
  destruct (transport_default_callback opts sink_rejects_second None
              three_records []) as (_ & _ & H).
  { intros g [= <-] a. reflexivity. }
  destruct H as (H & _); [by eexists|].
  change (drop (length []) ?l) with l in H. fold run in H.
  rewrite H. vm_compute. reflexivity.
Defined.

(** ** More on the trace header parser and the trace agent *)

Lemma app_empty_r (s : string) : s +:+ "" = s.
Proof. induction s as [|c s IH]; [reflexivity|]. by rewrite app_String, IH. Qed.

Lemma app_assoc_string (a b c : string) : (a +:+ b) +:+ c = a +:+ b +:+ c.
Proof.
  induction a as [|x a IH]; [reflexivity|]. by rewrite !app_String, IH.
Qed.

(** The result of [parseTraceHeader] on a match. *)
Lemma parseTraceHeader_match (header projectId traceId : string)
  (spanId traceSampled : option string) :
  projectId <> "" ->
  header_matches header traceId spanId traceSampled ->
  Trace.parseTraceHeader header projectId
  = {| Trace.trace :=
         Some ("projects/" +:+ projectId +:+ "/traces/" +:+ traceId);
       Trace.spanId := spanId;
       Trace.sampled := bool_decide (traceSampled = Some "1") |}.
Proof.
  intros Hp Hm.
  pose proof Hm as (text2 & text3 & [Hne _] & Hspan & _ & Hh).
  assert (header <> "") as Hheader.
  { rewrite Hh. destruct traceId; [done|]. by rewrite app_String. }
  apply header_match_complete in Hm.
  unfold Trace.parseTraceHeader. rewrite Hm.
  rewrite (proj2 (truthy_str_ne header) Hheader).
  rewrite (proj2 (truthy_str_ne projectId) Hp).
  rewrite (proj2 (truthy_str_ne traceId) Hne). simpl.
  destruct spanId as [d|]; [|reflexivity].
  destruct Hspan as (Hd & _). simpl.
  by rewrite (proj2 (truthy_str_ne d) Hd).
Qed.

(** [parseTraceHeader] gives the null result or the result of a match. *)
Lemma parseTraceHeader_cases (header projectId : string) :
  Trace.parseTraceHeader header projectId = null_result \/
  exists traceId spanId traceSampled,
    projectId <> "" /\ header_matches header traceId spanId traceSampled /\
    Trace.parseTraceHeader header projectId
    = {| Trace.trace :=
           Some ("projects/" +:+ projectId +:+ "/traces/" +:+ traceId);
         Trace.spanId := spanId;
         Trace.sampled := bool_decide (traceSampled = Some "1") |}.
Proof.
  destruct (decide (header = "" \/ projectId = "")) as [He|Hne].
  { left. unfold Trace.parseTraceHeader.
    by destruct He as [-> | ->]; [|rewrite orb_true_r]. }
  destruct (Trace.header_match header) as [[[tid sp] fl]|] eqn:Hm.
  - right. exists tid, sp, fl. apply header_match_sound in Hm.
    assert (projectId <> "") as Hp by tauto.
    split; [done|]. split; [done|]. by apply parseTraceHeader_match.
  - left. unfold Trace.parseTraceHeader. rewrite Hm.
    by destruct (negb (truthy_str header) || negb (truthy_str projectId)).
Qed.

(** X8. The result of [parseTraceHeader] is all or nothing: without a
    trace there is no span id and [sampled] is false.  A trace, when there
    is one, is [projects/{projectId}/traces/] followed by a non-empty run of
    hexadecimal digits, and a span id is a non-empty run of decimal
    digits. *)
Theorem parseTraceHeader_result (header projectId : string) :
  let r := Trace.parseTraceHeader header projectId in
  (Trace.trace r = None -> Trace.spanId r = None /\ Trace.sampled r = false) /\
  (forall t : string, Trace.trace r = Some t ->
     exists traceId : string,
       hex_run traceId /\
       t = "projects/" +:+ projectId +:+ "/traces/" +:+ traceId) /\
  (forall s : string, Trace.spanId r = Some s ->
     s <> "" /\ all_chars Trace.is_digit s = true).
Proof.
  intros r. subst r.
  destruct (parseTraceHeader_cases header projectId)
    as [-> | (tid & sp & fl & Hp & Hm & ->)]; simpl.
  - split; [done|]. split; intros ? [=].
  - destruct Hm as (text2 & text3 & Hhex & Hspan & _).
    split; [discriminate|]. split.
    + intros t [= <-]. by exists tid.
    + intros s ->. simpl in Hspan. by destruct Hspan as (? & ? & _).
Qed.

Lemma parseTraceHeader_result_witness :
  Trace.spanId (Trace.parseTraceHeader "zz/1" "proj") = None /\
  all_chars Trace.is_digit "456" = true.
Proof.
  split.
  - apply (parseTraceHeader_result "zz/1" "proj"). reflexivity.
  - apply (parseTraceHeader_result "abc123/456;o=1" "proj" ). reflexivity.
Defined.

(** X9. The trace agent's current trace is absent when there is no agent
    or when the agent has no (or an empty) context id or project id, it is
    never the empty string, and for a hexadecimal context id it is the very
    trace name that [parseTraceHeader] makes of that id as a header. *)
Theorem getCurrentTraceFromAgent_agrees :
  Trace.getCurrentTraceFromAgent None = None /\
  (forall a : Trace.TraceAgent,
     truthy_opt_str (Trace.getCurrentContextId a) = None \/
     truthy_opt_str (Trace.getWriterProjectId a) = None ->
     Trace.getCurrentTraceFromAgent (Some a) = None) /\
  (forall agent : option Trace.TraceAgent,
     Trace.getCurrentTraceFromAgent agent <> Some "") /\
  (forall traceId projectId : string,
     hex_run traceId -> projectId <> "" ->
     Trace.getCurrentTraceFromAgent
       (Some {| Trace.getCurrentContextId := Some traceId;
                Trace.getWriterProjectId := Some projectId |})
     = Trace.trace (Trace.parseTraceHeader traceId projectId)).
Proof.
  split; [reflexivity|]. split; [|split].
  - intros a [H|H]; unfold Trace.getCurrentTraceFromAgent; rewrite H;
      [reflexivity|].
    by destruct (truthy_opt_str (Trace.getCurrentContextId a)).
  - intros agent H. pose proof (truthy_opt_str_agent agent) as Ht.
    rewrite H in Ht. discriminate.
  - intros tid p Hhex Hp.
    rewrite (parseTraceHeader_match tid p tid None None Hp).
    + unfold Trace.getCurrentTraceFromAgent. simpl.
      destruct Hhex as [Htid _].
      rewrite (proj2 (truthy_str_ne tid) Htid), (proj2 (truthy_str_ne p) Hp).
      reflexivity.
    + exists "", "". split; [done|]. split; [done|]. split; [done|].
      by rewrite !app_empty_r.
Qed.

Lemma getCurrentTraceFromAgent_agrees_witness :
  Trace.getCurrentTraceFromAgent
    (Some {| Trace.getCurrentContextId := Some "";
             Trace.getWriterProjectId := Some "p" |}) = None /\
  Trace.getCurrentTraceFromAgent
    (Some {| Trace.getCurrentContextId := Some "abc1";
             Trace.getWriterProjectId := Some "p" |})
  = Trace.trace (Trace.parseTraceHeader "abc1" "p").
Proof.
  destruct getCurrentTraceFromAgent_agrees as (_ & Habsent & _ & Hagree).
  split.
  - apply Habsent. left. reflexivity.
  - apply Hagree; [split; [discriminate|reflexivity] | discriminate].
Defined.

(** ** The span of the trace agent *)

Lemma all_chars_app (p : ascii -> bool) (a b : string) :
  all_chars p (a +:+ b) = all_chars p a && all_chars p b.
Proof.
  induction a as [|c a IH]; [reflexivity|].
  rewrite app_String. simpl. by rewrite IH, andb_assoc.
Qed.

Lemma all_chars_impl (p q : ascii -> bool) (s : string) :
  (forall c, p c = true -> q c = true) ->
  all_chars p s = true -> all_chars q s = true.
Proof.
  intros Hpq. induction s as [|c s IH]; [done|]. simpl.
  intros [Hc Hs]%andb_true_iff. by rewrite (Hpq c Hc), IH.
Qed.

Ltac by_cases_on_ascii c :=
  destruct c as [[] [] [] [] [] [] [] []]; try discriminate; reflexivity.

Lemma is_hex_not_slash (c : ascii) :
  Trace.is_hex c = true -> is_not "/"%char c = true.
Proof. by_cases_on_ascii c. Qed.

Lemma is_digit_not_slash (c : ascii) :
  Trace.is_digit c = true -> is_not "/"%char c = true.
Proof. by_cases_on_ascii c. Qed.

Lemma is_digit_not_semicolon (c : ascii) :
  Trace.is_digit c = true -> is_not ";"%char c = true.
Proof. by_cases_on_ascii c. Qed.

Lemma is_digit_is_hex (c : ascii) :
  Trace.is_digit c = true -> Trace.is_hex c = true.
Proof. by_cases_on_ascii c. Qed.

Lemma split_not_nil (sep : ascii) (s : string) : TraceSpan.split sep s <> [].
Proof.
  induction s as [|c s IH]; simpl; [done|].
  destruct (Ascii.eqb c sep); [done|].
  by destruct (TraceSpan.split sep s).
Qed.

Lemma split_no_sep (sep : ascii) (s : string) :
  all_chars (is_not sep) s = true -> TraceSpan.split sep s = [s].
Proof.
  induction s as [|c s IH]; simpl; [done|].
  unfold is_not at 1. intros [Hc Hs]%andb_true_iff.
  apply negb_true_iff in Hc. rewrite Hc, (IH Hs). reflexivity.
Qed.

Lemma split_app (sep : ascii) (a b : string) :
  all_chars (is_not sep) a = true ->
  TraceSpan.split sep (a +:+ String sep b) = a :: TraceSpan.split sep b.
Proof.
  induction a as [|c a IH]; simpl.
  - intros _. rewrite ?app_empty. simpl. by rewrite Ascii.eqb_refl.
  - unfold is_not at 1. intros [Hc Hs]%andb_true_iff.
    apply negb_true_iff in Hc. rewrite ?app_String. simpl.
    by rewrite Hc, (IH Hs).
Qed.

(** The pieces of a split hold characters of the string only, and none of
    them holds the separator. *)
Lemma split_pieces (sep : ascii) (q : ascii -> bool) (s : string) :
  all_chars q s = true ->
  Forall (λ piece, all_chars q piece = true
                   /\ all_chars (is_not sep) piece = true)
    (TraceSpan.split sep s).
Proof.
  induction s as [|c s IH]; simpl.
  - intros _. by repeat constructor.
  - intros [Hc Hs]%andb_true_iff. specialize (IH Hs).
    destruct (Ascii.eqb c sep) eqn:Hsep.
    + constructor; [done|exact IH].
    + destruct (TraceSpan.split sep s) as [|piece pieces].
      * repeat constructor; simpl; [by rewrite Hc|].
        unfold is_not. by rewrite Hsep.
      * apply Forall_cons in IH as [[Hq Hn] IH].
        constructor; [|exact IH]. simpl. unfold is_not at 1.
        by rewrite Hc, Hq, Hsep, Hn.
Qed.

(** X10. On every trace context that matches the trace header expression,
    [getCurrentSpanFromAgent] returns the span that the expression captures,
    null when the context has no span: it agrees with [parseTraceHeader]. *)
Theorem getCurrentSpanFromAgent_agrees (a : Trace.TraceAgent)
  (context projectId traceId : string) (spanId traceSampled : option string) :
  projectId <> "" ->
  header_matches context traceId spanId traceSampled ->
  TraceSpan.getCurrentSpanFromAgent (Some (agent_with_context a context))
  = spanId /\
  TraceSpan.getCurrentSpanFromAgent (Some (agent_with_context a context))
  = Trace.spanId (Trace.parseTraceHeader context projectId).
Proof.
  intros Hp Hm.
  assert (TraceSpan.getCurrentSpanFromAgent (Some (agent_with_context a context))
          = spanId) as Hgoal;
    [|by rewrite Hgoal, (parseTraceHeader_match _ _ _ _ _ Hp Hm)].
  destruct Hm as (text2 & text3 & [Hne Hhex] & Hspan & Hflag & ->).
  assert (all_chars (is_not "/"%char) traceId = true) as Htid
    by (eapply all_chars_impl; [apply is_hex_not_slash|done]).
  assert (all_chars (is_not "/"%char) text3 = true
          /\ (text3 = "" \/ exists r, text3 = String ";"%char r))
    as [Hflag3 Hstart3].
  { destruct traceSampled as [f|]; simpl in Hflag.
    - destruct Hflag as (o & d & Ho & Hd & -> & ->).
      split; [|by eauto]. simpl.
      rewrite (is_digit_not_slash d Hd).
      by destruct Ho as [-> | ->].
    - subst. by split; [|left]. }
  unfold TraceSpan.getCurrentSpanFromAgent. simpl.
  assert (truthy_str (traceId +:+ text2 +:+ text3) = true) as ->.
  { destruct traceId; [done|]. by rewrite app_String. }
  simpl.
  destruct spanId as [d|]; simpl in Hspan.
  - destruct Hspan as (Hd & Hdig & ->).
    change (("/" +:+ d) +:+ text3) with (String "/"%char (d +:+ text3)).
    rewrite (split_app _ _ _ Htid).
    assert (all_chars (is_not "/"%char) (d +:+ text3) = true) as Hrest.
    { rewrite all_chars_app, Hflag3, andb_true_r.
      eapply all_chars_impl; [apply is_digit_not_slash|done]. }
    rewrite (split_no_sep _ _ Hrest). simpl.
    assert (all_chars (is_not ";"%char) d = true) as Hd'
      by (eapply all_chars_impl; [apply is_digit_not_semicolon|done]).
    assert (TraceSpan.split ";"%char (d +:+ text3) !! 0%nat = Some d) as ->.
    { destruct Hstart3 as [-> | [r ->]].
      - by rewrite app_empty_r, (split_no_sep _ _ Hd').
      - by rewrite (split_app _ _ _ Hd'). }
    simpl. by rewrite (proj2 (truthy_str_ne d) Hd).
  - subst text2. rewrite app_empty.
    assert (all_chars (is_not "/"%char) (traceId +:+ text3) = true) as Hall
      by (by rewrite all_chars_app, Htid, Hflag3).
    by rewrite (split_no_sep _ _ Hall).
Qed.

Lemma getCurrentSpanFromAgent_agrees_witness :
  TraceSpan.getCurrentSpanFromAgent
    (Some (agent_with_context agent_active "abc123/456;o=1")) = Some "456".
Proof.
  apply (getCurrentSpanFromAgent_agrees agent_active "abc123/456;o=1" "proj"
           "abc123" (Some "456") (Some "1")); [discriminate|].
  exists "/456", ";o=1". split; [split; [discriminate|reflexivity]|].
  split; [split; [discriminate|split; reflexivity]|].
  split; [|reflexivity].
  exists "o"%char, "1"%char. split; [by left|]. by repeat split.
Defined.

(** X11. [getCurrentSpanFromAgent] returns null when there is no agent, no
    root span, or no [/] in the trace context; a span it returns is never
    empty and holds neither [/] nor [;]. *)
Theorem getCurrentSpanFromAgent_shape :
  TraceSpan.getCurrentSpanFromAgent None = None /\
  (forall a : Trace.TraceAgent,
     TraceSpan.getCurrentSpanFromAgent
       (Some {| TraceSpan.agent := a; TraceSpan.getCurrentRootSpan := None |})
     = None) /\
  (forall (a : Trace.TraceAgent) (context : string),
     all_chars (is_not "/"%char) context = true ->
     TraceSpan.getCurrentSpanFromAgent (Some (agent_with_context a context))
     = None) /\
  (forall (agent : option TraceSpan.Agent) (s : string),
     TraceSpan.getCurrentSpanFromAgent agent = Some s ->
     s <> "" /\ all_chars (is_not "/"%char) s = true
     /\ all_chars (is_not ";"%char) s = true).
Proof.
  split; [reflexivity|]. split; [reflexivity|]. split.
  - intros a context Hno. unfold TraceSpan.getCurrentSpanFromAgent. simpl.
    destruct (truthy_str context); [|reflexivity]. simpl.
    by rewrite (split_no_sep _ _ Hno).
  - intros agent s. unfold TraceSpan.getCurrentSpanFromAgent.
    destruct agent as [agent|]; [|discriminate].
    destruct (TraceSpan.getCurrentRootSpan agent) as [context|];
      [|discriminate].
    destruct (negb (truthy_str context)); [discriminate|].
    destruct (length (TraceSpan.split "/"%char context) <? 2)%nat;
      [discriminate|].
    destruct (TraceSpan.split "/"%char context !! 1%nat) as [spanPart|] eqn:Hpart;
      [|discriminate].
    assert (all_chars (λ _, true) context = true) as Hany
      by (clear; induction context as [|c s IH]; [reflexivity | exact IH]).
    pose proof (split_pieces "/"%char (λ _, true) context Hany) as Hpieces.
    rewrite Forall_lookup in Hpieces.
    destruct (Hpieces 1%nat spanPart Hpart) as [_ Hslash].
    pose proof (split_pieces ";"%char (is_not "/"%char) spanPart Hslash)
      as Hsub.
    destruct (TraceSpan.split ";"%char spanPart) as [|piece pieces] eqn:Hsplit;
      [by destruct (split_not_nil ";"%char spanPart)|].
    apply Forall_cons in Hsub as [[Hs1 Hs2] _]. simpl.
    destruct piece as [|c piece]; [discriminate|].
    intros [= <-]. done.
Qed.

Lemma getCurrentSpanFromAgent_shape_witness :
  TraceSpan.getCurrentSpanFromAgent (Some (agent_with_context agent_active "abc"))
  = None /\
  "7" <> "".
Proof.
  destruct getCurrentSpanFromAgent_shape as (_ & _ & Hnone & Hshape).
  split.
  - apply Hnone. reflexivity.
  - apply (Hshape (Some (agent_with_context agent_active "x/7;o=1")) "7").
    reflexivity.
Defined.

(** ** getProjectId *)

(** X12. A configured project id is returned by every call without asking
    the credential provider.  Without one, the first call asks the provider
    once and the id it answers serves every later call, the provider not
    being asked again; a failure of the provider is thrown to the caller and
    leaves the engine as it was, so the next call asks again. *)
Theorem getProjectId_caching :
  (forall (this : LoggingCommon.t) (auth : Auth) (p : string) (n : nat),
     projectId this = Some p -> p <> "" ->
     getProjectId_calls n this auth = (this, auth, replicate n (Returned p))) /\
  (forall (this : LoggingCommon.t) (auth : Auth) (p : string) (n : nat),
     truthy_opt_str (projectId this) = None ->
     answer auth (queries auth) = Returned p -> p <> "" ->
     getProjectId_calls (S n) this auth
     = (set_projectId this (Some p),
        {| answer := answer auth; queries := S (queries auth) |},
        replicate (S n) (Returned p))) /\
  (forall (this : LoggingCommon.t) (auth : Auth) (t : Thrown),
     truthy_opt_str (projectId this) = None ->
     answer auth (queries auth) = Threw t ->
     getProjectId this auth
     = (this, {| answer := answer auth; queries := S (queries auth) |},
        Threw t)).
Proof.
  assert (forall (this : LoggingCommon.t) (auth : Auth) (p : string) (n : nat),
     projectId this = Some p -> p <> "" ->
     getProjectId_calls n this auth = (this, auth, replicate n (Returned p)))
    as Hset.
  { intros this auth p n Hp Hne. induction n as [|n IH]; [reflexivity|].
    cbn [getProjectId_calls]. unfold getProjectId. rewrite Hp. simpl.
    rewrite (proj2 (truthy_str_ne p) Hne), IH. reflexivity. }
  split; [exact Hset|]. split.
  - intros this auth p n Hnone Hans Hne.
    cbn [getProjectId_calls]. unfold getProjectId. rewrite Hnone, Hans.
    rewrite (Hset _ _ p n); [reflexivity|reflexivity|exact Hne].
  - intros this auth t Hnone Hans. unfold getProjectId.
    by rewrite Hnone, Hans.
Qed.

Lemma getProjectId_caching_witness :
  (getProjectId (new no_options) auth_flaky).2
  = Threw (ThrowOther "no credentials") /\
  (getProjectId_calls 3 (new no_options)
     {| answer := answer auth_flaky; queries := 1 |}).2
  = [Returned "discovered"; Returned "discovered"; Returned "discovered"] /\
  getProjectId_calls 2 (set_projectId (new no_options) (Some "p")) auth_flaky
  = (set_projectId (new no_options) (Some "p"), auth_flaky,
     [Returned "p"; Returned "p"]).
Proof.
  destruct getProjectId_caching as (Hset & Hfirst & Hfail).
  split; [|split].
  - rewrite (Hfail (new no_options) auth_flaky (ThrowOther "no credentials"));
      reflexivity.
  - rewrite (Hfirst (new no_options)
               {| answer := answer auth_flaky; queries := 1 |} "discovered"
               2%nat);
      [reflexivity | reflexivity | reflexivity | discriminate].
  - apply (Hset (set_projectId (new no_options) (Some "p")) auth_flaky "p"
             2%nat); [reflexivity | discriminate].
Defined.

(** What [extractTraceInfo] keeps of the record's own fields. *)
Lemma extractTraceInfo_parts (agent : option Trace.TraceAgent)
  (o : PinoLogObject.t) :
  let r := extractTraceInfo agent o in
  (forall t : string, PinoLogObject.trace o = Some t -> t <> "" ->
     trace r = Some t) /\
  (forall s : string, PinoLogObject.spanId o = Some s -> s <> "" ->
     spanId r = Some s) /\
  traceSampled r = PinoLogObject.sampled o.
Proof.
  unfold extractTraceInfo.
  pose proof (truthy_opt_str_agent agent) as Hagent.
  destruct (PinoLogObject.trace o) as [[|c t]|];
    destruct (PinoLogObject.spanId o) as [[|c' s]|];
    destruct (PinoLogObject.sampled o) as [b|]; simpl;
    rewrite ?Hagent;
    destruct (Trace.getCurrentTraceFromAgent agent) as [a|]; simpl;
    repeat split; congruence.
Qed.

(** ** makeChildLogger *)

(** The three correlation properties of the object that a record stands
    for are its three fields. *)
Lemma Object_entries_correlation (o : PinoLogObject.t) :
  Object_entries o !! LOGGING_TRACE_KEY = VStr <$> PinoLogObject.trace o /\
  Object_entries o !! LOGGING_SPAN_KEY = VStr <$> PinoLogObject.spanId o /\
  Object_entries o !! LOGGING_SAMPLED_KEY = VBool <$> PinoLogObject.sampled o.
Proof.
  assert (forall k : string, k ∈ declared_keys ->
    filter (λ kv : string * Value, kv.1 ∉ declared_keys)
      (PinoLogObject.extra o) !! k = None) as Hextra.
  { intros k Hk. apply map_lookup_filter_None. right. intros v _ Hn.
    by apply Hn. }
  unfold Object_entries. split; [|split];
    rewrite !lookup_insert_ne, !lookup_set_opt by discriminate.
  - do 4 (rewrite decide_False by discriminate).
    rewrite decide_True by reflexivity.
    destruct (PinoLogObject.trace o); [reflexivity|].
    do 4 (rewrite decide_False by discriminate).
    apply Hextra. by vm_compute.
  - do 5 (rewrite decide_False by discriminate).
    rewrite decide_True by reflexivity.
    destruct (PinoLogObject.spanId o); [reflexivity|].
    do 3 (rewrite decide_False by discriminate).
    apply Hextra. by vm_compute.
  - do 6 (rewrite decide_False by discriminate).
    rewrite decide_True by reflexivity.
    destruct (PinoLogObject.sampled o); [reflexivity|].
    do 2 (rewrite decide_False by discriminate).
    apply Hextra. by vm_compute.
Qed.

(** X13. The bindings of [makeChildLogger] hold the trace always, the span
    id and the sampled flag when they are given, and nothing else.  A record
    that carries them is written with that very trace (when it is not
    empty), span id (when not empty) and flag, whatever the trace agent
    holds: the agent is not consulted for it. *)
Theorem makeChildLogger_correlates (trace : string) (spanId : option string)
  (traceSampled : option bool) :
  let bindings := makeChildLogger_bindings trace spanId traceSampled in
  bindings !! LOGGING_TRACE_KEY = Some (VStr trace) /\
  bindings !! LOGGING_SPAN_KEY = VStr <$> spanId /\
  bindings !! LOGGING_SAMPLED_KEY = VBool <$> traceSampled /\
  (forall k : string, is_Some (bindings !! k) ->
     k = LOGGING_TRACE_KEY \/ k = LOGGING_SPAN_KEY \/ k = LOGGING_SAMPLED_KEY) /\
  (forall (this : LoggingCommon.t) (agent : option Trace.TraceAgent)
          (o : PinoLogObject.t),
     carries o bindings -> trace <> "" ->
     let sent := metadata (writeLog_entry this agent o) in
     LogEntry.trace sent = Some trace /\
     (forall s : string, spanId = Some s -> s <> "" ->
        LogEntry.spanId sent = Some s) /\
     (forall b : bool, traceSampled = Some b ->
        LogEntry.traceSampled sent = Some b)).
Proof.
  intros bindings.
  assert (bindings !! LOGGING_TRACE_KEY = Some (VStr trace)) as Ht.
  { subst bindings. unfold makeChildLogger_bindings.
    destruct spanId, traceSampled; reflexivity. }
  assert (bindings !! LOGGING_SPAN_KEY = VStr <$> spanId) as Hs.
  { subst bindings. unfold makeChildLogger_bindings.
    destruct spanId, traceSampled; reflexivity. }
  assert (bindings !! LOGGING_SAMPLED_KEY = VBool <$> traceSampled) as Hf.
  { subst bindings. unfold makeChildLogger_bindings.
    destruct spanId, traceSampled; reflexivity. }
  split; [exact Ht|]. split; [exact Hs|]. split; [exact Hf|]. split.
  - intros k [v Hk]. subst bindings. unfold makeChildLogger_bindings in Hk.
    destruct spanId, traceSampled;
      repeat (apply lookup_insert_Some in Hk as [[<- _]|[_ Hk]]; [tauto|]);
      apply lookup_singleton_Some in Hk as [<- _]; tauto.
  - intros this agent o Hcarries Hne sent.
    destruct (Object_entries_correlation o) as (Ho1 & Ho2 & Ho3).
    pose proof (Hcarries _ _ Ht) as Hc1. rewrite Ho1 in Hc1.
    assert (PinoLogObject.trace o = Some trace) as Htrace
      by (destruct (PinoLogObject.trace o); by simplify_eq/=).
    subst sent. unfold writeLog_entry. simpl.
    pose proof (extractTraceInfo_parts agent o) as (Hp1 & Hp2 & Hp3).
    split; [by apply Hp1|]. split.
    + intros s -> Hsne. apply Hp2; [|done].
      pose proof (Hcarries _ _ Hs) as Hc2. rewrite Ho2 in Hc2.
      destruct (PinoLogObject.spanId o); by simplify_eq/=.
    + intros b ->. rewrite Hp3.
      pose proof (Hcarries _ _ Hf) as Hc3. rewrite Ho3 in Hc3.
      destruct (PinoLogObject.sampled o); by simplify_eq/=.
Qed.

Lemma makeChildLogger_correlates_witness :
  LogEntry.trace
    (metadata (writeLog_entry (new no_options) (Some agent_active)
                 (record_traced "projects/p/traces/abc" "7" true)))
  = Some "projects/p/traces/abc".
Proof.
  destruct (makeChildLogger_correlates "projects/p/traces/abc" (Some "7")
              (Some true)) as (Ht & Hs & Hf & Hkeys & Hsent).
  apply (Hsent (new no_options) (Some agent_active)
           (record_traced "projects/p/traces/abc" "7" true));
    [|discriminate].
  intros k v Hk.
  destruct (Hkeys k (ex_intro _ v Hk)) as [-> | [-> | ->]].
  - rewrite Ht in Hk. injection Hk as <-. vm_compute. reflexivity.
  - rewrite Hs in Hk. injection Hk as <-. vm_compute. reflexivity.
  - rewrite Hf in Hk. injection Hk as <-. vm_compute. reflexivity.
Defined.

(** ** The middleware *)

Lemma is_digit_pretty_N_char (x : N) :
  Trace.is_digit (pretty_N_char x) = true.
Proof. unfold pretty_N_char. by repeat case_match. Qed.

Lemma pretty_N_go_digits (x : N) (s : string) :
  all_chars Trace.is_digit s = true ->
  all_chars Trace.is_digit (pretty_N_go x s) = true /\
  (s <> "" -> pretty_N_go x s <> "") /\
  ((0 < x)%N -> pretty_N_go x s <> "").
Proof.
  revert s. induction (N.lt_wf_0 x) as [x _ IH]; intros s Hs.
  assert (x = 0 \/ 0 < x)%N as [-> | Hpos] by lia.
  - rewrite pretty_N_go_0. split; [done|]. split; [done|lia].
  - rewrite pretty_N_go_step by done.
    destruct (IH (x `div` 10)%N ltac:(by apply N.div_lt)
                (String (pretty_N_char (x `mod` 10)) s)) as (Hd & Hne & _).
    { simpl. by rewrite is_digit_pretty_N_char, Hs. }
    split; [exact Hd|]. split; intros _; by apply Hne.
Qed.

(** The decimal writing of a natural number: digits, at least one. *)
Lemma generateSpanId_digits (random : Z) :
  0 <= random ->
  Middleware.generateSpanId random <> "" /\
  all_chars Trace.is_digit (Middleware.generateSpanId random) = true.
Proof.
  intros Hr. unfold Middleware.generateSpanId, pretty, pretty_Z.
  destruct random as [|x|x]; [done| |lia].
  unfold pretty, pretty_positive, pretty, pretty_N.
  rewrite decide_False by done.
  destruct (pretty_N_go_digits (N.pos x) "" eq_refl) as (Hd & _ & Hne).
  split; [apply Hne; lia|exact Hd].
Qed.

Section MiddlewareFacts.

Variable parseInt10 : string -> Value.
Variable trim : string -> string.
Variable env : Middleware.Env.
Variable logger : Logger.
Variable o : Middleware.MiddlewareOptions.
Variable sink : Sink.
Variable req : Middleware.Request.t.
Variable startTime : Z.
Variable uuid : string.
Variable random : Z.

Let handled : Middleware.Handled :=
  Middleware.makeMiddleware parseInt10 trim env logger o sink req startTime
    uuid random.

Let configured : option string :=
  truthy_opt_str (TransportOptions.projectId (Middleware.options o)).

Let traceHeader : option string :=
  truthy_opt_str (Middleware.Request.get req "x-cloud-trace-context").

(** The trace context, case by case. *)
Lemma makeMiddleware_no_project :
  configured = None ->
  Middleware.trace handled = None /\
  Middleware.spanId handled = Middleware.generateSpanId random /\
  Middleware.traceSampled handled = false.
Proof.
  subst configured handled. unfold Middleware.makeMiddleware.
  intros ->. simpl.
  by destruct (truthy_opt_str (Middleware.Request.get req "x-cloud-trace-context")).
Qed.

Lemma makeMiddleware_fresh (projectId : string) :
  configured = Some projectId ->
  (traceHeader = None \/
   exists h, traceHeader = Some h
             /\ Trace.parseTraceHeader h projectId = null_result) ->
  Middleware.trace handled
  = Some ("projects/" +:+ projectId +:+ "/traces/"
          +:+ Middleware.generateTraceId uuid) /\
  Middleware.spanId handled = Middleware.generateSpanId random /\
  Middleware.traceSampled handled = false.
Proof.
  subst configured traceHeader handled. unfold Middleware.makeMiddleware.
  intros -> [-> | (h & -> & ->)]; simpl; done.
Qed.

Lemma makeMiddleware_parsed (projectId h traceId : string)
  (spanId traceSampled : option string) :
  configured = Some projectId -> traceHeader = Some h ->
  header_matches h traceId spanId traceSampled ->
  Middleware.trace handled
  = Some ("projects/" +:+ projectId +:+ "/traces/" +:+ traceId) /\
  Middleware.spanId handled
  = default (Middleware.generateSpanId random) spanId /\
  Middleware.traceSampled handled = bool_decide (traceSampled = Some "1").
Proof.
  subst configured traceHeader handled. unfold Middleware.makeMiddleware.
  intros Hp -> Hm.
  assert (projectId <> "") as Hne.
  { destruct (TransportOptions.projectId (Middleware.options o)) as [[|c p]|];
      simpl in Hp; by simplify_eq. }
  rewrite Hp, (parseTraceHeader_match _ _ _ _ _ Hne Hm). simpl.
  destruct spanId as [d|]; simpl; [|done].
  destruct Hm as (? & ? & _ & (Hd & _) & _).
  by rewrite (proj2 (truthy_str_ne d) Hd).
Qed.

(** Every request falls under one of the three cases. *)
Lemma makeMiddleware_cases :
  (configured = None) \/
  (exists projectId, configured = Some projectId /\ projectId <> "" /\
     (traceHeader = None \/
      exists h, traceHeader = Some h
                /\ Trace.parseTraceHeader h projectId = null_result)) \/
  (exists projectId h traceId spanId traceSampled,
     configured = Some projectId /\ projectId <> "" /\
     traceHeader = Some h /\ header_matches h traceId spanId traceSampled).
Proof.
  destruct configured as [p|] eqn:Hp; [|by left]. right.
  assert (p <> "") as Hne.
  { subst configured.
    destruct (TransportOptions.projectId (Middleware.options o)) as [[|c q]|];
      simpl in Hp; by simplify_eq. }
  destruct traceHeader as [h|] eqn:Hh; [|left; exists p; auto].
  destruct (parseTraceHeader_cases h p)
    as [Hnull | (tid & sp & fl & _ & Hm & _)].
  - left. exists p. split; [done|]. split; [done|]. right. by exists h.
  - right. by exists p, h, tid, sp, fl.
Qed.

End MiddlewareFacts.

Section MiddlewareProperties.

Variable parseInt10 : string -> Value.
Variable trim : string -> string.
Variable env : Middleware.Env.
Variable logger : Logger.
Variable o : Middleware.MiddlewareOptions.
Variable sink : Sink.
Variable req : Middleware.Request.t.
Variable startTime : Z.
Variable uuid : string.
Variable random : Z.

Let handled : Middleware.Handled :=
  Middleware.makeMiddleware parseInt10 trim env logger o sink req startTime
    uuid random.

Let configured : option string :=
  truthy_opt_str (TransportOptions.projectId (Middleware.options o)).

Let traceHeader : option string :=
  truthy_opt_str (Middleware.Request.get req "x-cloud-trace-context").

(** [req.log] and the listener, by the trace of the context. *)
Lemma makeMiddleware_log :
  Middleware.log handled
  = match truthy_opt_str (Middleware.trace handled) with
    | Some t =>
        makeChildLogger logger t (Some (Middleware.spanId handled))
          (Some (Middleware.traceSampled handled))
    | None => logger
    end.
Proof.
  subst handled. unfold Middleware.makeMiddleware.
  by destruct (match truthy_opt_str _, truthy_opt_str _ with
               | Some h, Some p => _ | _, _ => _ end) as [[t s] f].
Qed.

Lemma makeMiddleware_onFinish :
  Middleware.onFinish handled
  = match Middleware.requestLogger env o,
          truthy_opt_str (Middleware.trace handled) with
    | Some loggingCommon, Some t =>
        if negb (Middleware.skips env o)
        then Some (Middleware.finishListener parseInt10 trim loggingCommon sink
                     req startTime t (Middleware.spanId handled)
                     (Middleware.traceSampled handled))
        else None
    | _, _ => None
    end.
Proof.
  subst handled. unfold Middleware.makeMiddleware.
  by destruct (match truthy_opt_str _, truthy_opt_str _ with
               | Some h, Some p => _ | _, _ => _ end) as [[t s] f].
Qed.

Lemma makeMiddleware_span_nonempty :
  0 <= random -> Middleware.spanId handled <> "".
Proof.
  intros Hr. destruct (generateSpanId_digits random Hr) as [Hgen _].
  destruct (makeMiddleware_cases o req)
    as [Hnone | [(p & Hp & Hne & Hfresh)
                | (p & h & tid & sp & fl & Hp & Hne & Hh & Hm)]].
  - destruct (makeMiddleware_no_project parseInt10 trim env logger o sink req
                startTime uuid random Hnone) as (_ & Hs & _).
    subst handled. by rewrite Hs.
  - destruct (makeMiddleware_fresh parseInt10 trim env logger o sink req
                startTime uuid random p Hp Hfresh) as (_ & Hs & _).
    subst handled. by rewrite Hs.
  - destruct (makeMiddleware_parsed parseInt10 trim env logger o sink req
                startTime uuid random p h tid sp fl Hp Hh Hm) as (_ & Hs & _).
    subst handled. rewrite Hs.
    destruct sp as [d|]; [|exact Hgen]. simpl.
    by destruct Hm as (? & ? & _ & (Hd & _) & _).
Qed.

(** X14. The middleware always ends up with a span id: whatever the
    request and the options, the span id of the context is a non-empty
    string of decimal digits. *)
Theorem middleware_span_always :
  0 <= random ->
  Middleware.spanId handled <> "" /\
  all_chars Trace.is_digit (Middleware.spanId handled) = true.
Proof.
  intros Hr. pose proof (generateSpanId_digits random Hr) as Hgen.
  destruct (makeMiddleware_cases o req)
    as [Hnone | [(p & Hp & Hne & Hfresh)
                | (p & h & tid & sp & fl & Hp & Hne & Hh & Hm)]].
  - destruct (makeMiddleware_no_project parseInt10 trim env logger o sink req
                startTime uuid random Hnone) as (_ & Hs & _).
    subst handled. by rewrite Hs.
  - destruct (makeMiddleware_fresh parseInt10 trim env logger o sink req
                startTime uuid random p Hp Hfresh) as (_ & Hs & _).
    subst handled. by rewrite Hs.
  - destruct (makeMiddleware_parsed parseInt10 trim env logger o sink req
                startTime uuid random p h tid sp fl Hp Hh Hm) as (_ & Hs & _).
    subst handled. rewrite Hs.
    destruct sp as [d|]; [|exact Hgen]. simpl.
    destruct Hm as (? & ? & _ & (Hd & Hdig & _) & _). done.
Qed.

(** X15. Without a (non-empty) project id the middleware establishes no
    trace, leaves the given logger on the request and registers no listener.
    With one it always establishes a trace, of the form
    [projects/{projectId}/traces/...], and puts on the request a child
    logger bound to that trace, to the span id and to the sampled flag. *)
Theorem middleware_trace_iff_project :
  (configured = None ->
     Middleware.trace handled = None /\ Middleware.log handled = logger /\
     Middleware.onFinish handled = None) /\
  (forall projectId : string, configured = Some projectId ->
     exists traceId : string,
       Middleware.trace handled
       = Some ("projects/" +:+ projectId +:+ "/traces/" +:+ traceId) /\
       Middleware.log handled
       = Child logger
           (<[LOGGING_SAMPLED_KEY := VBool (Middleware.traceSampled handled)]>
            (<[LOGGING_SPAN_KEY := VStr (Middleware.spanId handled)]>
             {[ LOGGING_TRACE_KEY :=
                  VStr ("projects/" +:+ projectId +:+ "/traces/" +:+ traceId) ]}))).
Proof.
  split.
  - intros Hnone.
    destruct (makeMiddleware_no_project parseInt10 trim env logger o sink req
                startTime uuid random Hnone) as (Ht & _ & _).
    rewrite makeMiddleware_log, makeMiddleware_onFinish.
    subst handled. rewrite Ht. simpl.
    by destruct (Middleware.requestLogger env o).
  - intros p Hp.
    assert (exists tid, Middleware.trace handled
              = Some ("projects/" +:+ p +:+ "/traces/" +:+ tid))
      as (tid & Ht).
    { destruct (makeMiddleware_cases o req)
        as [Hnone | [(p' & Hp' & Hne & Hfresh)
                    | (p' & h & tid & sp & fl & Hp' & Hne & Hh & Hm)]].
      - subst configured. congruence.
      - assert (p' = p) as -> by (subst configured; congruence).
        eexists. eapply makeMiddleware_fresh; eauto.
      - assert (p' = p) as -> by (subst configured; congruence).
        eexists. eapply makeMiddleware_parsed; eauto. }
    exists tid. split; [exact Ht|].
    rewrite makeMiddleware_log. subst handled. rewrite Ht. reflexivity.
Qed.

(** X16. With a project id configured, a trace header that matches the
    expression is honoured: its trace id, its span id (a generated one when
    it has none) and its flag make the context.  Without a header, or with
    one that does not match, the context is fresh: a generated trace id, a
    generated span id, and not sampled. *)
Theorem middleware_header :
  (forall (projectId h traceId : string) (spanId traceSampled : option string),
     configured = Some projectId -> traceHeader = Some h ->
     header_matches h traceId spanId traceSampled ->
     Middleware.trace handled
     = Some ("projects/" +:+ projectId +:+ "/traces/" +:+ traceId) /\
     Middleware.spanId handled
     = default (Middleware.generateSpanId random) spanId /\
     Middleware.traceSampled handled = bool_decide (traceSampled = Some "1")) /\
  (forall projectId : string,
     configured = Some projectId ->
     (traceHeader = None \/
      exists h, traceHeader = Some h /\
        forall traceId spanId traceSampled,
          ~ header_matches h traceId spanId traceSampled) ->
     Middleware.trace handled
     = Some ("projects/" +:+ projectId +:+ "/traces/"
             +:+ Middleware.generateTraceId uuid) /\
     Middleware.spanId handled = Middleware.generateSpanId random /\
     Middleware.traceSampled handled = false).
Proof.
  split.
  - intros p h tid sp fl Hp Hh Hm.
    by apply (makeMiddleware_parsed parseInt10 trim env logger o sink req
                startTime uuid random p h tid sp fl).
  - intros p Hp Hfresh.
    apply (makeMiddleware_fresh parseInt10 trim env logger o sink req
             startTime uuid random p Hp).
    destruct Hfresh as [Hnone | (h & Hh & Hno)]; [by left|].
    right. exists h. split; [exact Hh|].
    destruct (parseTraceHeader_cases h p)
      as [Hnull | (tid & sp & fl & _ & Hm & _)]; [exact Hnull|].
    by destruct (Hno tid sp fl).
Qed.

End MiddlewareProperties.

Lemma middleware_span_always_witness :
  Middleware.spanId
    (Middleware.makeMiddleware parseInt_none trim_none env_plain GivenLogger
       (middleware_options (Some "proj") None) sink_ok
       (request_with (Some "abc123;o=1")) 1000 "" 42) <> "".
Proof.
  apply (middleware_span_always parseInt_none trim_none env_plain
           GivenLogger (middleware_options (Some "proj") None) sink_ok
           (request_with (Some "abc123;o=1")) 1000 "" 42).
  lia.
Defined.

Lemma middleware_trace_iff_project_witness :
  Middleware.log
    (Middleware.makeMiddleware parseInt_none trim_none env_plain GivenLogger
       (middleware_options (Some "") None) sink_ok
       (request_with (Some "abc123/456;o=1")) 1000 "" 42) = GivenLogger /\
  exists traceId : string,
    Middleware.trace
      (Middleware.makeMiddleware parseInt_none trim_none env_plain GivenLogger
         (middleware_options (Some "proj") None) sink_ok
         (request_with None) 1000 "0a-1b" 42)
    = Some ("projects/" +:+ "proj" +:+ "/traces/" +:+ traceId).
Proof.
  split.
  - apply (middleware_trace_iff_project parseInt_none trim_none env_plain
             GivenLogger (middleware_options (Some "") None) sink_ok
             (request_with (Some "abc123/456;o=1")) 1000 "" 42).
    reflexivity.
  - destruct (middleware_trace_iff_project parseInt_none trim_none env_plain
                GivenLogger (middleware_options (Some "proj") None) sink_ok
                (request_with None) 1000 "0a-1b" 42) as (_ & H).
    destruct (H "proj" eq_refl) as (tid & Ht & _). by exists tid.
Defined.

Lemma middleware_header_witness :
  Middleware.trace
    (Middleware.makeMiddleware parseInt_none trim_none env_plain GivenLogger
       (middleware_options (Some "proj") None) sink_ok
       (request_with (Some "abc123/456;o=1")) 1000 "" 42)
  = Some "projects/proj/traces/abc123" /\
  Middleware.trace
    (Middleware.makeMiddleware parseInt_none trim_none env_plain GivenLogger
       (middleware_options (Some "proj") None) sink_ok
       (request_with None) 1000 "0a-1b" 42)
  = Some "projects/proj/traces/0a1b".
Proof.
  split.
  - destruct (middleware_header parseInt_none trim_none env_plain GivenLogger
                (middleware_options (Some "proj") None) sink_ok
                (request_with (Some "abc123/456;o=1")) 1000 "" 42) as (H & _).
    apply (H "proj" "abc123/456;o=1" "abc123" (Some "456") (Some "1"));
      [reflexivity | reflexivity |].
    exists "/456", ";o=1". split; [split; [discriminate|reflexivity]|].
    split; [split; [discriminate|split; reflexivity]|].
    split; [|reflexivity].
    exists "o"%char, "1"%char. split; [by left|]. by repeat split.
  - destruct (middleware_header parseInt_none trim_none env_plain GivenLogger
                (middleware_options (Some "proj") None) sink_ok
                (request_with None) 1000 "0a-1b" 42) as (_ & H).
    apply (H "proj"); [reflexivity|]. left. reflexivity.
Defined.

Section MiddlewareRequestLog.

Variable parseInt10 : string -> Value.
Variable trim : string -> string.
Variable env : Middleware.Env.
Variable logger : Logger.
Variable o : Middleware.MiddlewareOptions.
Variable sink : Sink.
Variable req : Middleware.Request.t.
Variable startTime : Z.
Variable uuid : string.
Variable random : Z.

Let handled : Middleware.Handled :=
  Middleware.makeMiddleware parseInt10 trim env logger o sink req startTime
    uuid random.

Let configured : option string :=
  truthy_opt_str (TransportOptions.projectId (Middleware.options o)).

(** The trace of the context is absent or not empty. *)
Lemma makeMiddleware_trace_truthy :
  truthy_opt_str (Middleware.trace handled) = Middleware.trace handled /\
  (is_Some (Middleware.trace handled) <-> is_Some configured).
Proof.
  destruct (makeMiddleware_cases o req)
    as [Hnone | [(p & Hp & Hne & Hfresh)
                | (p & h & tid & sp & fl & Hp & Hne & Hh & Hm)]].
  - destruct (makeMiddleware_no_project parseInt10 trim env logger o sink req
                startTime uuid random Hnone) as (Ht & _).
    subst handled configured. rewrite Ht, Hnone. split; [done|].
    split; by intros [? [=]].
  - destruct (makeMiddleware_fresh parseInt10 trim env logger o sink req
                startTime uuid random p Hp Hfresh) as (Ht & _).
    subst handled configured. rewrite Ht, Hp. split; [done|].
    split; by eexists.
  - destruct (makeMiddleware_parsed parseInt10 trim env logger o sink req
                startTime uuid random p h tid sp fl Hp Hh Hm) as (Ht & _).
    subst handled configured. rewrite Ht, Hp. split; [done|].
    split; by eexists.
Qed.

(** X17. A listener for the request log is registered exactly when the
    parent request entry is not skipped and a project id is configured.  An
    explicit [skipParentRequestEntry] decides by itself, also against the
    environment; without it, the entry is skipped exactly when one of the
    four environment markers is set and not empty. *)
Theorem middleware_request_log_condition :
  (is_Some (Middleware.onFinish handled) <->
     Middleware.skips env o = false /\ is_Some configured) /\
  (forall b : bool, Middleware.skipParentRequestEntry o = Some b ->
     Middleware.skips env o = b) /\
  (Middleware.skipParentRequestEntry o = None ->
     (Middleware.skips env o = true <->
        exists (name v : string),
          name ∈ managed_markers /\ env name = Some v /\ v <> "")).
Proof.
  split; [|split].
  - destruct makeMiddleware_trace_truthy as [Htr Hiff]. rewrite <- Hiff.
    unfold handled in *. rewrite makeMiddleware_onFinish, Htr.
    unfold Middleware.requestLogger.
    destruct (Middleware.skips env o); simpl.
    + split; [by intros [? [=]] | by intros [[=] _]].
    + destruct (Middleware.trace _).
      * split; [by intros _; split; [|eexists] | by intros _; eexists].
      * split; [by intros [? [=]] | by intros [_ [? [=]]]].
  - intros b Hb. unfold Middleware.skips. by rewrite Hb.
  - intros Hnone. unfold Middleware.skips. rewrite Hnone. simpl.
    unfold Middleware.isMangedEnvironment, Middleware.or_else, managed_markers.
    split.
    + intros Hm.
      destruct (env "GAE_SERVICE") as [[|c1 v1]|] eqn:E1;
        [| exists "GAE_SERVICE", (String c1 v1); split; [set_solver|done] |];
        simpl in Hm;
        (destruct (env "K_SERVICE") as [[|c2 v2]|] eqn:E2;
         [| exists "K_SERVICE", (String c2 v2); split; [set_solver|done] |];
         simpl in Hm;
         (destruct (env "FUNCTION_NAME") as [[|c3 v3]|] eqn:E3;
          [| exists "FUNCTION_NAME", (String c3 v3); split; [set_solver|done] |];
          simpl in Hm;
          (destruct (env "K_REVISION") as [[|c4 v4]|] eqn:E4;
           [| exists "K_REVISION", (String c4 v4); split; [set_solver|done] |];
           simpl in Hm; discriminate))).
    + intros (name & v & Hname & Hv & Hne).
      destruct v as [|c v]; [done|].
      repeat (apply elem_of_cons in Hname as [-> | Hname];
              [rewrite Hv; simpl;
               repeat match goal with
                      | |- context [env ?n] =>
                          destruct (env n) as [[|? ?]|]; simpl
                      end; reflexivity|]).
      by apply elem_of_nil in Hname.
Qed.

End MiddlewareRequestLog.

Lemma middleware_request_log_condition_witness :
  Middleware.skips env_cloud_run (middleware_options (Some "proj") (Some false))
  = false /\
  Middleware.skips env_cloud_run (middleware_options (Some "proj") None)
  = true.
Proof.
  split.
  - destruct (middleware_request_log_condition parseInt_none trim_none
                env_cloud_run GivenLogger
                (middleware_options (Some "proj") (Some false)) sink_ok
                (request_with None) 1000 "0a-1b" 42) as (_ & H & _).
    apply (H false). reflexivity.
  - destruct (middleware_request_log_condition parseInt_none trim_none
                env_cloud_run GivenLogger
                (middleware_options (Some "proj") None) sink_ok
                (request_with None) 1000 "0a-1b" 42) as (_ & _ & H).
    apply H; [reflexivity|].
    exists "K_SERVICE", "svc". split; [|split; [reflexivity|discriminate]].
    apply elem_of_cons; right. apply elem_of_cons; by left.
Defined.

Lemma buildHttpRequest_latency_lookup (parseInt10 : string -> Value)
  (trim : string -> string) (req : Middleware.Request.t)
  (res : Middleware.Response.t) (latencyMs : Z) :
  Middleware.buildHttpRequest parseInt10 trim req res latencyMs !! "latency"
  = Some (VObj (<["seconds" := VNum (latencyMs / 1000)]>
                (<["nanos" := VNum (Z.rem latencyMs 1000 * 1000000)]> ∅))).
Proof.
  unfold Middleware.buildHttpRequest.
  rewrite !lookup_insert_ne by discriminate. by rewrite lookup_insert_eq.
Qed.

(** X18. The listener of ['finish'] writes one entry and always returns: a
    failure of the sink is reported once to the standard error stream and
    goes no further.  The entry has severity INFO, an empty body, the
    configured labels, and the trace, span id and sampled flag of the
    request's context, the ones the child logger is bound to; for a latency
    other than 0 ms its request block is the one [buildHttpRequest] built. *)
Theorem middleware_finish (parseInt10 : string -> Value)
  (trim : string -> string) (env : Middleware.Env) (logger : Logger)
  (o : Middleware.MiddlewareOptions) (sink : Sink) (req : Middleware.Request.t)
  (startTime : Z) (uuid : string) (random : Z)
  (hook : Middleware.Response.t -> Z -> M unit)
  (res : Middleware.Response.t) (now : Z) (h : list Event) :
  let handled := Middleware.makeMiddleware parseInt10 trim env logger o sink
                   req startTime uuid random in
  Middleware.onFinish handled = Some hook ->
  let latencyMs := now - startTime in
  let loggingCommon := new (Middleware.reqlog_options (Middleware.options o)) in
  let mode := if redirectToStdout loggingCommon then Synchronous else Awaited in
  exists e : Entry,
    hook res now h
    = (h ++ EvWrite mode e (sink h e)
           :: match sink h e with
              | Some t => [EvConsoleError Middleware.REQUEST_LOG_ERROR t]
              | None => []
              end,
       Returned tt) /\
    data e = ∅ /\
    LogEntry.severity (metadata e) = Some INFO /\
    LogEntry.labels (metadata e)
    = TransportOptions.labels (Middleware.options o) /\
    LogEntry.trace (metadata e) = Middleware.trace handled /\
    LogEntry.spanId (metadata e) = Some (Middleware.spanId handled) /\
    LogEntry.traceSampled (metadata e) = Some (Middleware.traceSampled handled) /\
    (latencyMs <> 0 ->
       LogEntry.httpRequest (metadata e)
       = Some (Middleware.buildHttpRequest parseInt10 trim req res latencyMs)).
Proof.
  intros handled Hhook latencyMs loggingCommon mode.
  subst handled. rewrite makeMiddleware_onFinish in Hhook.
  destruct (makeMiddleware_trace_truthy parseInt10 trim env logger o sink req
              startTime uuid random) as [Htr _].
  rewrite Htr in Hhook.
  unfold Middleware.requestLogger in Hhook.
  destruct (Middleware.skips env o); [discriminate|].
  destruct (Middleware.trace _) as [t|] eqn:Ht; [|discriminate].
  simpl in Hhook. injection Hhook as <-.
  fold loggingCommon.
  set (httpRequest := Middleware.buildHttpRequest parseInt10 trim req res
                        latencyMs).
  exists (writeRequestLog_entry loggingCommon httpRequest (Some t)
            (Some (Middleware.spanId
                     (Middleware.makeMiddleware parseInt10 trim env logger o
                        sink req startTime uuid random)))
            (Some (Middleware.traceSampled
                     (Middleware.makeMiddleware parseInt10 trim env logger o
                        sink req startTime uuid random)))
            (Some latencyMs)).
  split.
  - unfold Middleware.finishListener, try_catch, writeRequestLog,
      cloudLog_write, emit.
    fold latencyMs httpRequest. subst mode.
    destruct (redirectToStdout loggingCommon);
      match goal with |- context [sink h ?e] => destruct (sink h e) end;
      by rewrite <- ?app_assoc.
  - repeat split.
    intros Hl. simpl. f_equal. apply insert_id.
    subst httpRequest. rewrite buildHttpRequest_latency_lookup.
    unfold request_latency, truthy_num.
    destruct (Z.eqb_spec latencyMs 0); [done|reflexivity].
Qed.

Lemma middleware_finish_witness :
  exists hook e,
    Middleware.onFinish
      (Middleware.makeMiddleware parseInt_none trim_none env_plain GivenLogger
         (middleware_options (Some "proj") None) sink_rejects_second
         (request_with (Some "abc123/456;o=1")) 1000 "" 42) = Some hook /\
    (hook response_ok 1250 []).2 = Returned tt /\
    LogEntry.trace (metadata e) = Some "projects/proj/traces/abc123".
Proof.
  edestruct (middleware_finish parseInt_none trim_none env_plain GivenLogger
               (middleware_options (Some "proj") None) sink_rejects_second
               (request_with (Some "abc123/456;o=1")) 1000 "" 42 _ response_ok
               1250 [] eq_refl) as (e & Hrun & _ & _ & _ & Htrace & _).
  eexists _, e. split; [reflexivity|]. split.
  - rewrite Hrun. reflexivity.
  - rewrite Htrace. reflexivity.
Defined.

(** X19. The engine that the middleware makes for request logs never
    writes to the log of the transport made from the same options: its log
    name ends in [_reqlog] and differs from the transport's. *)
Theorem middleware_log_name (opts : TransportOptions.t) :
  logName (new (Middleware.reqlog_options opts)) <> logName (new opts) /\
  exists base : string,
    logName (new (Middleware.reqlog_options opts)) = base +:+ "_reqlog".
Proof.
  assert (forall s t : string, t <> "" -> s +:+ t <> s) as Happ.
  { intros s t Ht. induction s as [|c s IH].
    - by rewrite app_empty.
    - rewrite app_String. intros [= H]. by apply IH. }
  unfold new, Middleware.reqlog_options. simpl.
  destruct (TransportOptions.logName opts) as [[|c n]|]; simpl.
  - split; [discriminate|]. by exists "pino_log".
  - split; [by apply Happ|]. by eexists.
  - split; [discriminate|]. by exists "pino_log".
Qed.

Lemma remove_hyphens_hex (uuid : string) :
  all_chars is_uuid_char uuid = true ->
  all_chars Trace.is_hex (Middleware.remove_hyphens uuid) = true /\
  all_chars (is_not "-") (Middleware.remove_hyphens uuid) = true.
Proof.
  induction uuid as [|c s IH]; simpl; [done|].
  intros [Hc Hs]%andb_true_iff. destruct (IH Hs) as [IH1 IH2].
  destruct (Ascii.eqb c "-") eqn:Hhy; [done|].
  simpl. unfold is_uuid_char in Hc. rewrite Hhy, orb_false_r in Hc.
  unfold is_not at 1. by rewrite Hc, Hhy, IH1, IH2.
Qed.

(** X20. The identifiers that the middleware generates have the form that
    [parseTraceHeader] accepts.  For a UUID of hexadecimal digits and
    hyphens with at least one digit, and a random integer that is not
    negative, the generated trace id holds no hyphen, and the header
    [TRACE_ID/SPAN_ID] made of the two generated ids is parsed back to the
    same trace and the same span id, not sampled. *)
Theorem generated_ids_parse (uuid projectId : string) (random : Z) :
  all_chars is_uuid_char uuid = true ->
  Middleware.generateTraceId uuid <> "" ->
  0 <= random ->
  projectId <> "" ->
  all_chars (is_not "-") (Middleware.generateTraceId uuid) = true /\
  Trace.parseTraceHeader
    (Middleware.generateTraceId uuid +:+ "/" +:+ Middleware.generateSpanId random)
    projectId
  = {| Trace.trace :=
         Some ("projects/" +:+ projectId +:+ "/traces/"
               +:+ Middleware.generateTraceId uuid);
       Trace.spanId := Some (Middleware.generateSpanId random);
       Trace.sampled := false |}.
Proof.
  intros Huuid Hne Hrandom Hproject.
  destruct (remove_hyphens_hex uuid Huuid) as [Hhex Hhy].
  destruct (generateSpanId_digits random Hrandom) as [Hsne Hdigits].
  split; [exact Hhy|].
  rewrite (parseTraceHeader_match _ projectId (Middleware.generateTraceId uuid)
             (Some (Middleware.generateSpanId random)) None Hproject).
  - reflexivity.
  - exists ("/" +:+ Middleware.generateSpanId random), "".
    split; [by split|]. split; [by repeat split|]. split; [reflexivity|].
    by rewrite app_empty_r.
Qed.

Lemma generated_ids_parse_witness :
  Trace.spanId
    (Trace.parseTraceHeader
       (Middleware.generateTraceId "0a1b-2c3d" +:+ "/"
        +:+ Middleware.generateSpanId 42) "proj")
  = Some "42".
Proof.
  destruct (generated_ids_parse "0a1b-2c3d" "proj" 42) as [_ H];
    [reflexivity | discriminate | lia | discriminate |].
  rewrite H. reflexivity.
Defined.

(** X21. The latency that [buildHttpRequest] records.  For an elapsed time
    that is not negative, [seconds] and [nanos] are a normal form of it:
    neither is negative, [nanos] is below one second, and together they are
    the elapsed time.  For a negative elapsed time that is not a whole
    number of seconds (the clock was set back while the request ran),
    [seconds] is rounded down while [nanos] keeps the sign of the elapsed
    time, so the two together are one second less than the elapsed time. *)
Theorem buildHttpRequest_latency (parseInt10 : string -> Value)
  (trim : string -> string) (req : Middleware.Request.t)
  (res : Middleware.Response.t) (latencyMs : Z) :
  exists seconds nanos : Z,
    Middleware.buildHttpRequest parseInt10 trim req res latencyMs !! "latency"
    = Some (VObj (<["seconds" := VNum seconds]> (<["nanos" := VNum nanos]> ∅))) /\
    (0 <= latencyMs ->
       0 <= seconds /\ 0 <= nanos < 1000000000 /\
       seconds * 1000000000 + nanos = latencyMs * 1000000) /\
    (latencyMs < 0 -> Z.rem latencyMs 1000 <> 0 ->
       seconds < 0 /\ nanos < 0 /\
       seconds * 1000000000 + nanos = latencyMs * 1000000 - 1000000000).
Proof.
  exists (latencyMs / 1000), (Z.rem latencyMs 1000 * 1000000).
  split; [apply buildHttpRequest_latency_lookup|].
  split.
  - intros Hpos. rewrite Z.rem_mod_nonneg by lia.
    pose proof (Z.mod_pos_bound latencyMs 1000 ltac:(lia)).
    pose proof (Z.div_mod latencyMs 1000 ltac:(lia)).
    pose proof (Z.div_pos latencyMs 1000 Hpos ltac:(lia)).
    lia.
  - intros Hneg Hrem.
    pose proof (Z.rem_bound_pos_neg latencyMs 1000 ltac:(lia) ltac:(lia)) as Hb.
    pose proof (Z.quot_rem latencyMs 1000 ltac:(lia)) as Hq.
    pose proof (Z.mod_pos_bound latencyMs 1000 ltac:(lia)) as Hm.
    pose proof (Z.div_mod latencyMs 1000 ltac:(lia)) as Hd.
    assert (latencyMs `mod` 1000 = Z.rem latencyMs 1000 + 1000) as Hmod.
    { symmetry. apply (Z.mod_unique_pos _ _ (latencyMs ÷ 1000 - 1)); lia. }
    lia.
Qed.

Lemma buildHttpRequest_latency_witness :
  exists seconds nanos : Z,
    Middleware.buildHttpRequest parseInt_none trim_none (request_with None)
      response_ok 1250 !! "latency"
    = Some (VObj (<["seconds" := VNum seconds]> (<["nanos" := VNum nanos]> ∅))) /\
    seconds * 1000000000 + nanos = 1250000000.
Proof.
  destruct (buildHttpRequest_latency parseInt_none trim_none (request_with None)
              response_ok 1250) as (seconds & nanos & Hlookup & Hpos & _).
  exists seconds, nanos. split; [exact Hlookup|].
  destruct Hpos as (_ & _ & Hsum); [lia|]. exact Hsum.
Defined.

Lemma split_first (sep : ascii) (first rest : string) :
  all_chars (is_not sep) first = true ->
  rest = "" \/ (exists r, rest = String sep r) ->
  TraceSpan.split sep (first +:+ rest) !! 0%nat = Some first.
Proof.
  intros Hfirst [->|[r ->]].
  - by rewrite app_empty_r, split_no_sep.
  - by rewrite split_app.
Qed.

(** X22. The client address that [buildHttpRequest] records.  With an
    [x-forwarded-for] header, it is the first entry of the list, the text
    in front of the first comma, trimmed; when that is empty, or when the
    header is absent, it is the address of the socket. *)
Theorem buildHttpRequest_remoteIp (parseInt10 : string -> Value)
  (trim : string -> string) (req : Middleware.Request.t)
  (res : Middleware.Response.t) (latencyMs : Z) :
  let remoteIp :=
    Middleware.buildHttpRequest parseInt10 trim req res latencyMs !! "remoteIp" in
  (forall first rest : string,
     Middleware.Request.get req "x-forwarded-for" = Some (first +:+ rest) ->
     all_chars (is_not ",") first = true ->
     rest = "" \/ (exists r, rest = String "," r) ->
     remoteIp
     = Some (if truthy_str (trim first) then VStr (trim first)
             else opt_value (Middleware.Request.remoteAddress req))) /\
  (Middleware.Request.get req "x-forwarded-for" = None ->
   remoteIp = Some (opt_value (Middleware.Request.remoteAddress req))).
Proof.
  intros remoteIp. subst remoteIp. unfold Middleware.buildHttpRequest.
  rewrite !lookup_insert_ne by discriminate. rewrite lookup_insert_eq.
  split.
  - intros first rest -> Hfirst Hrest. simpl.
    rewrite (split_first _ _ _ Hfirst Hrest). simpl.
    unfold Middleware.or_else. simpl.
    by destruct (truthy_str (trim first)).
  - intros ->. reflexivity.
Qed.

Lemma buildHttpRequest_remoteIp_witness :
  Middleware.buildHttpRequest parseInt_none trim_none (request_with None)
    response_ok 1250 !! "remoteIp"
  = Some (VStr "203.0.113.7").
Proof.
  destruct (buildHttpRequest_remoteIp parseInt_none trim_none
              (request_with None) response_ok 1250) as [H _].
  apply (H "203.0.113.7" ", 10.0.0.1");
    [reflexivity | reflexivity | right; by eexists].
Defined.

Lemma carries_correlation (this : LoggingCommon.t)
  (agent : option Trace.TraceAgent) (o : PinoLogObject.t)
  (trace spanId : string) (traceSampled : bool) :
  carries o (makeChildLogger_bindings trace (Some spanId) (Some traceSampled)) ->
  trace <> "" -> spanId <> "" ->
  LogEntry.trace (metadata (writeLog_entry this agent o)) = Some trace /\
  LogEntry.spanId (metadata (writeLog_entry this agent o)) = Some spanId /\
  LogEntry.traceSampled (metadata (writeLog_entry this agent o))
  = Some traceSampled.
Proof.
  intros Hcarries Ht Hs.
  destruct (Object_entries_correlation o) as (Ho1 & Ho2 & Ho3).
  pose proof (Hcarries LOGGING_TRACE_KEY (VStr trace) eq_refl) as Hc1.
  pose proof (Hcarries LOGGING_SPAN_KEY (VStr spanId) eq_refl) as Hc2.
  pose proof (Hcarries LOGGING_SAMPLED_KEY (VBool traceSampled) eq_refl) as Hc3.
  rewrite Ho1 in Hc1. rewrite Ho2 in Hc2. rewrite Ho3 in Hc3.
  unfold writeLog_entry. simpl.
  pose proof (extractTraceInfo_parts agent o) as (Hp1 & Hp2 & Hp3).
  split; [|split].
  - apply Hp1; [|done]. destruct (PinoLogObject.trace o); by simplify_eq/=.
  - apply Hp2; [|done]. destruct (PinoLogObject.spanId o); by simplify_eq/=.
  - rewrite Hp3. destruct (PinoLogObject.sampled o); by simplify_eq/=.
Qed.

(** X23. Correlation of the application logs with the request.  With a
    project id configured, the logger that the middleware puts on the
    request is a child of the given logger, and every record that carries
    its bindings is written by [writeLog], by any engine and whatever the
    trace agent holds, with the trace, the span id and the sampled flag of
    the request's context: the three fields of the request log entry. *)
Theorem middleware_correlation (parseInt10 : string -> Value)
  (trim : string -> string) (env : Middleware.Env) (logger : Logger)
  (o : Middleware.MiddlewareOptions) (sink : Sink) (req : Middleware.Request.t)
  (startTime : Z) (uuid : string) (random : Z) :
  let handled := Middleware.makeMiddleware parseInt10 trim env logger o sink
                   req startTime uuid random in
  0 <= random ->
  is_Some (truthy_opt_str (TransportOptions.projectId (Middleware.options o))) ->
  exists bindings : gmap string Value,
    Middleware.log handled = Child logger bindings /\
    forall (this : LoggingCommon.t) (agent : option Trace.TraceAgent)
           (record : PinoLogObject.t),
      carries record bindings ->
      let sent := metadata (writeLog_entry this agent record) in
      LogEntry.trace sent = Middleware.trace handled /\
      LogEntry.spanId sent = Some (Middleware.spanId handled) /\
      LogEntry.traceSampled sent = Some (Middleware.traceSampled handled).
Proof.
  intros handled Hrandom Hproject.
  destruct (makeMiddleware_trace_truthy parseInt10 trim env logger o sink req
              startTime uuid random) as [Htruthy Hiff].
  pose proof (makeMiddleware_span_nonempty parseInt10 trim env logger o sink
                req startTime uuid random Hrandom) as Hspan.
  pose proof (makeMiddleware_log parseInt10 trim env logger o sink req
                startTime uuid random) as Hlog.
  apply Hiff in Hproject as [t Ht].
  fold handled in Htruthy, Hspan, Hlog, Ht.
  rewrite Ht in Htruthy. rewrite Ht in Hlog. rewrite Htruthy in Hlog.
  assert (t <> "") as Hne by (by destruct t).
  eexists. split; [exact Hlog|].
  intros this agent record Hcarries sent. subst sent. rewrite Ht.
  by apply carries_correlation.
Qed.

Lemma middleware_correlation_witness :
  exists bindings : gmap string Value,
    Middleware.log
      (Middleware.makeMiddleware parseInt_none trim_none env_plain GivenLogger
         (middleware_options (Some "proj") None) sink_ok
         (request_with (Some "abc123/456;o=1")) 1000 "" 42)
    = Child GivenLogger bindings /\
    LogEntry.spanId
      (metadata (writeLog_entry (new no_options) (Some agent_active)
                   (record_traced "projects/proj/traces/abc123" "456" true)))
    = Some "456".
Proof.
  destruct (middleware_correlation parseInt_none trim_none env_plain GivenLogger
              (middleware_options (Some "proj") None) sink_ok
              (request_with (Some "abc123/456;o=1")) 1000 "" 42)
    as (bindings & Hlog & Hsent); [lia | by eexists |].
  exists bindings. split; [exact Hlog|].
  destruct (Hsent (new no_options) (Some agent_active)
              (record_traced "projects/proj/traces/abc123" "456" true))
    as (_ & Hspan & _); [|exact Hspan].
  injection Hlog as <-.
  intros k v Hk.
  apply lookup_insert_Some in Hk as [[<- <-]|[_ Hk]]; [reflexivity|].
  apply lookup_insert_Some in Hk as [[<- <-]|[_ Hk]]; [reflexivity|].
  apply lookup_singleton_Some in Hk as [<- <-]. reflexivity.
Defined.
